(** * Discolors: the theme engine of the content script

    A shallow embedding of the theme engine of the Discolors browser
    extension (content/index.ts and shared/utils.ts) and the properties of
    its colour arithmetic, degree sanitizer, theme compiler, DOM applier and
    persistence observer, followed by the storage layer
    (shared/storage.ts), the messages and the start of the content script,
    the service worker (background/index.ts), and the earlier scripts
    (content.js and the version comparison of popup.js).  Asynchronous
    functions are embedded run to their end, one at a time.

    JavaScript values are modelled as follows.
    - A string is a [string]; an [ascii] stands for a code unit below 256
      (code units above 255 never occur in the strings the engine builds, and
      on input they behave like any other character that is neither a digit
      nor white space).
    - An integral Number is a [Z]; the result of [parseInt] is an
      [option Z], [None] standing for NaN.  Integers are exact, which agrees
      with IEEE doubles below 2^53.
    - The 32-bit integer operators ([>>], [<<], [&], [|]) wrap their operands
      with [ToInt32] first, as the language does.
    - The luminance of [getTextColor] is computed on binary64 floats
      ([PrimFloat]), as the engine computes it.
    - [Math.random] is an oracle: an infinite sequence of draws and a cursor. *)

From Stdlib Require Import ZArith List String Ascii Bool Lia.
From Stdlib Require Import QArith Qround.
From Stdlib Require Import Floats Uint63.
Import ListNotations.

#[local] Set Warnings "-inexact-float".

Local Open Scope string_scope.
Local Open Scope Z_scope.

(** ** JavaScript primitives *)

Module JS.

(** The line feed of a template literal. *)
Definition nl : string := String (ascii_of_nat 10) EmptyString.

Definition code (c : ascii) : Z := Z.of_nat (nat_of_ascii c).

(** [\d] of a regular expression without the unicode flag: 0 to 9. *)
Definition isDigit (c : ascii) : bool :=
  (48 <=? code c) && (code c <=? 57).

(** White space and line terminators below code unit 256, which
    [parseInt] skips at the start of its input. *)
Definition isWhiteSpace (c : ascii) : bool :=
  let n := code c in
  ((9 <=? n) && (n <=? 13)) || (n =? 32) || (n =? 160).

(** The value of a character as a digit of a radix up to 36. *)
Definition digitValue (c : ascii) : option Z :=
  let n := code c in
  if (48 <=? n) && (n <=? 57) then Some (n - 48)
  else if (97 <=? n) && (n <=? 122) then Some (n - 87)
  else if (65 <=? n) && (n <=? 90) then Some (n - 55)
  else None.

Definition radixDigit (radix : Z) (c : ascii) : option Z :=
  match digitValue c with
  | Some v => if v <? radix then Some v else None
  | None => None
  end.

(** [s.startsWith(p)] *)
Definition startsWith (s p : string) : bool := String.prefix p s.

(** [s.slice(i, j)] for indices [0 <= i <= j]; [s.slice(i)] is
    [sliceFrom]. *)
Definition slice (s : string) (i j : nat) : string :=
  String.substring i (j - i) s.

Fixpoint sliceFrom (s : string) (i : nat) : string :=
  match i, s with
  | O, _ => s
  | S k, EmptyString => EmptyString
  | S k, String _ t => sliceFrom t k
  end.

(** [s.includes(p)] *)
Fixpoint includes (s p : string) : bool :=
  String.prefix p s ||
  match s with
  | EmptyString => false
  | String _ t => includes t p
  end.

Fixpoint trimStart (s : string) : string :=
  match s with
  | String c t => if isWhiteSpace c then trimStart t else s
  | EmptyString => s
  end.

(** The longest prefix of radix digits, read as a number: [None] when
    there is no digit at all. *)
Fixpoint readDigits (radix : Z) (s : string) (acc : option Z) : option Z :=
  match s with
  | EmptyString => acc
  | String c t =>
      match radixDigit radix c with
      | Some v =>
          readDigits radix t
            (Some (match acc with Some a => a * radix + v | None => v end))
      | None => acc
      end
  end.

Definition stripHexPrefix (s : string) : string :=
  if String.prefix "0x" s || String.prefix "0X" s then sliceFrom s 2 else s.

(** [parseInt(s, radix)] for a radix from 2 to 36.  The number is the
    exact integer; the language gives the nearest double, which is the same
    number below 2^53 and a rounded one, or Infinity, beyond. *)
Definition parseInt (s : string) (radix : Z) : option Z :=
  let s := trimStart s in
  let '(sign, s) :=
    match s with
    | String "-" t => (-1, t)
    | String "+" t => (1, t)
    | _ => (1, s)
    end in
  let s := if radix =? 16 then stripHexPrefix s else s in
  match readDigits radix s None with
  | Some m => Some (sign * m)
  | None => None
  end.

(** [ToInt32]: NaN becomes 0 and an integer wraps modulo 2^32 into
    the signed range. *)
Definition wrap32 (z : Z) : Z :=
  let m := z mod 2 ^ 32 in
  if 2 ^ 31 <=? m then m - 2 ^ 32 else m.

Definition ToInt32 (x : option Z) : Z :=
  match x with
  | Some z => wrap32 z
  | None => 0
  end.

(** [x >> n], [x << n], [x & y], [x | y] on integral operands. *)
Definition sar (x n : Z) : Z := Z.shiftr (wrap32 x) (n mod 32).
Definition shl (x n : Z) : Z := wrap32 (Z.shiftl (wrap32 x) (n mod 32)).
Definition band (x y : Z) : Z := Z.land (wrap32 x) (wrap32 y).
Definition bor (x y : Z) : Z := Z.lor (wrap32 x) (wrap32 y).

(** The digit characters of [Number.prototype.toString]. *)
Definition digitChar (d : Z) : ascii :=
  if d <? 10 then ascii_of_nat (Z.to_nat (48 + d))
  else ascii_of_nat (Z.to_nat (87 + d)).

Fixpoint digitsOf (fuel : nat) (radix n : Z) (acc : string) : string :=
  match fuel with
  | O => acc
  | S f =>
      let acc' := String (digitChar (n mod radix)) acc in
      if n / radix =? 0 then acc' else digitsOf f radix (n / radix) acc'
  end.

(** [n.toString(radix)] for an integer [n]. *)
Definition toStringRadix (n radix : Z) : string :=
  let m := Z.abs n in
  (if n <? 0 then "-" else "")
  ++ digitsOf (S (Z.to_nat (Z.log2 m))) radix m "".

Fixpoint repeatChar (c : ascii) (n : nat) : string :=
  match n with
  | O => EmptyString
  | S k => String c (repeatChar c k)
  end.

(** [s.padStart(n, c)] for a one-character filler. *)
Definition padStart (s : string) (n : nat) (c : ascii) : string :=
  repeatChar c (n - String.length s) ++ s.

(** [a.join(sep)] *)
Definition join (sep : string) (a : list string) : string :=
  String.concat sep a.

(** [a.slice(0, count)]: a negative [count] counts from the end. *)
Definition arraySlice0 {A} (a : list A) (count : Z) : list A :=
  let len := Z.of_nat (List.length a) in
  let final := if count <? 0 then Z.max (len + count) 0 else Z.min count len in
  firstn (Z.to_nat final) a.

End JS.

(** ** Shared utilities (shared/utils.ts) *)

Module Utils.
Import JS.

(** The longest prefix of decimal digits of a string, and what follows. *)
Fixpoint spanDigits (s : string) : string * string :=
  match s with
  | String c t =>
      if isDigit c then
        let '(d, rest) := spanDigits t in (String c d, rest)
      else (EmptyString, s)
  | EmptyString => (EmptyString, EmptyString)
  end.

(** [direction.match(/^(\d+)deg$/)]: the first capture group when the
    whole string matches.  The letter d is no digit, so the greedy group
    never gives a digit back. *)
Definition matchDegrees (direction : string) : option string :=
  let '(digits, rest) := spanDigits direction in
  if negb (String.eqb digits "") && String.eqb rest "deg"
  then Some digits else None.

(** [Math.max] and [Math.min] of an integer and a Number that may be
    NaN. *)
Definition mathMax (a : Z) (x : option Z) : option Z := option_map (Z.max a) x.
Definition mathMin (a : Z) (x : option Z) : option Z := option_map (Z.min a) x.

(** A Number in a template literal. *)
Definition numberToString (x : option Z) : string :=
  match x with
  | Some z => toStringRadix z 10
  | None => "NaN"
  end.

(** Sanitizes a CSS gradient direction string so that it holds only digits
    followed by the deg unit.  A numeric part too large for a double reads
    as a larger double or Infinity, which [Math.min] clamps to 360 just as
    it clamps the exact integer. *)
Definition sanitizeGradientDirection (direction : string) : string :=
  match matchDegrees direction with
  | Some m1 =>
      let degree := mathMin 360 (mathMax 0 (parseInt m1 10)) in
      numberToString degree ++ "deg"
  | None => "90deg"
  end.

End Utils.

(** ** Color math and theme generation (content/index.ts) *)

Module Content.
Import JS Utils.

(** Unique ID for the injected style element containing theme CSS. *)
Definition STYLE_ELEMENT_ID : string := "discolors-theme-style".

(** CSS class added to the html element to activate the custom theme. *)
Definition THEME_CLASS_NAME : string := "custom-theme-background".

(** Lightens or darkens a hexadecimal color by a specific amount.  The
    sums are exact; for an amount beyond 2^53 the double sum is rounded but
    stays on the same side of 0..255, so the clamped channel is the same. *)
Definition adjustColor (hex : string) (amount : Z) : string :=
  let '(hex, usePound) :=
    if startsWith hex "#" then (sliceFrom hex 1, true) else (hex, false) in
  let num := ToInt32 (parseInt hex 16) in
  let r := Z.max (Z.min 255 (sar num 16 + amount)) 0 in
  let g := Z.max (Z.min 255 (band (sar num 8) 255 + amount)) 0 in
  let b := Z.max (Z.min 255 (band num 255 + amount)) 0 in
  (if usePound then "#" else "")
  ++ padStart (toStringRadix (bor (bor (shl r 16) (shl g 8)) b) 16) 6 "0".

(** A Number that holds a small integer or NaN, as a binary64 float (exact
    below 2^53; the channels read by [getTextColor] are below 2^8). *)
Definition toFloat (x : option Z) : float :=
  match x with
  | None => nan
  | Some z =>
      if z <? 0 then PrimFloat.opp (PrimFloat.of_uint63 (Uint63.of_Z (- z)))
      else PrimFloat.of_uint63 (Uint63.of_Z z)
  end.

Definition luminance (r g b : option Z) : float :=
  (0.299 * toFloat r + 0.587 * toFloat g + 0.114 * toFloat b)%float.

(** Determines the text color (black or white) for a background color. *)
Definition getTextColor (hex : string) : string :=
  let r := parseInt (slice hex 1 3) 16 in
  let g := parseInt (slice hex 3 5) 16 in
  let b := parseInt (slice hex 5 7) 16 in
  if (128 <? luminance r g b)%float then "#000000" else "#ffffff".

(** *** The theme configuration (shared/types.ts) *)

Record ThemeConfig := {
  colorCount : Z;
  colors : list string;
  gradientDirection : string;
  useRandomColors : bool
}.

(** The default theme configuration object (shared/constants.ts). *)
Definition DEFAULT_THEME_CONFIG : ThemeConfig :=
  {| colorCount := 5;
     colors := ["#213220"; "#344e41"; "#588157"; "#a3b18a"; "#dad7cd"];
     gradientDirection := "90deg";
     useRandomColors := false |}.

(** *** The page *)

(** What the engine reads and writes of the document: the class list of
    the root element, whether the document has a head, and the text of the
    style element with id [STYLE_ELEMENT_ID] when there is one. *)
Record Document := {
  classList : list string;
  head : bool;
  styleElement : option string
}.

(** [document.documentElement.className] *)
Definition className (doc : Document) : string := join " " (classList doc).

(** [classList.contains(token)] and [classList.add(token)] *)
Definition contains (l : list string) (token : string) : bool :=
  existsb (String.eqb token) l.

Definition add (l : list string) (token : string) : list string :=
  if contains l token then l else (l ++ [token])%list.

Inductive ThemeMode := light | dark.

Definition isDarkMode (m : ThemeMode) : bool :=
  match m with dark => true | light => false end.

(** Detects the current Discord theme mode. *)
Definition detectThemeMode (doc : Document) : ThemeMode :=
  let htmlClass := className doc in
  if includes htmlClass "theme-light" then light
  else if includes htmlClass "theme-dark" then dark
  else dark.

(** *** Math.random *)

(** The draws of [Math.random], each a number in [0, 1), and how many
    have been taken.  A draw is a rational, as every double is, and
    [randomBelow] takes the product exactly.  The binary64 product rounds to
    nearest; rounding is monotone and the largest double below 1 times each
    of the factors used here stays below the factor (see
    [largest_draw_products]), so the floats reach the same range
    0 .. n - 1.  At a single draw the floor of the rounded product may
    exceed the floor of the exact one by 1 (never for the factor 256, a
    power of two): what is proved of [randomBelow] is its range and the
    number of draws, not the value at a draw. *)
Record Rng := {
  draws : nat -> Q;
  cursor : nat
}.

Definition random (g : Rng) : Q * Rng :=
  (draws g (cursor g), {| draws := draws g; cursor := S (cursor g) |}).

(** [Math.floor(Math.random() * n)] *)
Definition randomBelow (n : Z) (g : Rng) : Z * Rng :=
  let '(q, g) := random g in (Qfloor (q * inject_Z n), g).

(** [Array.from({ length: count }, f)]: [f] runs once per index, in
    order.  This is the array for a count below 2^32; from 2^32 on the
    language throws a RangeError instead of returning an array, which the
    module [Strict] below embeds, together with what the throw leaves of
    [applyTheme], of the message handler and of [main]. *)
Fixpoint arrayFromN {A} (n : nat) (f : Rng -> A * Rng) (g : Rng)
  : list A * Rng :=
  match n with
  | O => ([], g)
  | S k =>
      let '(x, g) := f g in
      let '(xs, g) := arrayFromN k f g in
      (x :: xs, g)
  end.

Definition arrayFrom {A} (count : Z) (f : Rng -> A * Rng) (g : Rng)
  : list A * Rng :=
  arrayFromN (Z.to_nat count) f g.

(** *** Theme generation *)

Definition randomColor (g : Rng) : string * Rng :=
  let '(v, g) := randomBelow 16777215 g in
  ("#" ++ padStart (toStringRadix v 16) 6 "0", g).

Definition colorsToUse (config : ThemeConfig) (g : Rng)
  : list string * Rng :=
  if useRandomColors config
  then arrayFrom (colorCount config) randomColor g
  else (arraySlice0 (colors config) (colorCount config), g).

Definition direction (config : ThemeConfig) (g : Rng) : string * Rng :=
  if useRandomColors config
  then let '(v, g) := randomBelow 360 g in (toStringRadix v 10 ++ "deg", g)
  else (sanitizeGradientDirection (gradientDirection config), g).

(** The template literal that [generateThemeCSS] returns. *)
Definition themeCSS (backgroundValue darkVariant darkTextColor lightVariant
  lightTextColor baseColorAmount textColorAmount : string) : string :=
  nl ++
  "    ." ++ THEME_CLASS_NAME ++ " {" ++ nl ++
  "        --custom-theme-background: " ++ backgroundValue ++ " !important;" ++ nl ++
  "        --custom-theme-base-color-dark: " ++ darkVariant ++ " !important;" ++ nl ++
  "        --custom-theme-text-color-dark: " ++ darkTextColor ++ " !important;" ++ nl ++
  "        --custom-theme-base-color-light: " ++ lightVariant ++ " !important;" ++ nl ++
  "        --custom-theme-text-color-light: " ++ lightTextColor ++ " !important;" ++ nl ++
  "        --custom-theme-base-color-amount: " ++ baseColorAmount ++ "%;" ++ nl ++
  "        --custom-theme-text-color-amount: " ++ textColorAmount ++ "%;" ++ nl ++
  "    }" ++ nl ++
  "    body { " ++ nl ++
  "      background: var(--custom-theme-background); " ++ nl ++
  "    }" ++ nl ++
  "  ".

(** Generates the complete CSS string based on the theme configuration.
    The two amounts are the Numbers 70.4, 15.2, 30 and 40 as a template
    literal prints them. *)
Definition generateThemeCSS (doc : Document) (config : ThemeConfig) (g : Rng)
  : string * Rng :=
  let isDark := isDarkMode (detectThemeMode doc) in
  let '(colorsToUse, g) := colorsToUse config g in
  match colorsToUse with
  | [] => ("", g)
  | mainColor :: _ =>
      let '(direction, g) := direction config g in
      let colorsStr := join ", " colorsToUse in
      let backgroundValue :=
        if (1 <? List.length colorsToUse)%nat
        then "linear-gradient(" ++ direction ++ ", " ++ colorsStr ++ ")"
        else mainColor in
      let darkVariant := adjustColor mainColor (-35) in
      let lightVariant := adjustColor mainColor 130 in
      let darkTextColor := getTextColor darkVariant in
      let lightTextColor := getTextColor lightVariant in
      let baseColorAmount := if isDark then "70.4" else "15.2" in
      let textColorAmount := if isDark then "30" else "40" in
      (themeCSS backgroundValue darkVariant darkTextColor lightVariant
         lightTextColor baseColorAmount textColorAmount, g)
  end.

(** *** DOM manipulation *)

(** Injects or updates the style element of the theme and applies the
    activation class to the root element. *)
Definition applyTheme (config : ThemeConfig) (doc : Document) (g : Rng)
  : Document * Rng :=
  if negb (head doc) then (doc, g)
  else
    let '(css, g) := generateThemeCSS doc config g in
    ({| classList := add (classList doc) THEME_CLASS_NAME;
        head := head doc;
        styleElement := Some css |}, g).

(** The callback of the MutationObserver that
    [initializePersistenceObserver] registers on the class attribute of the
    root element. *)
Definition persistenceObserver (doc : Document) : Document :=
  if negb (contains (classList doc) THEME_CLASS_NAME)
     && (match styleElement doc with Some _ => true | None => false end)
  then {| classList := add (classList doc) THEME_CLASS_NAME;
          head := head doc;
          styleElement := styleElement doc |}
  else doc.

End Content.

(** ** The earlier content script (content.js) *)

Module Legacy.
Import JS Content.

(** [randomHexColor]: one draw per channel. *)
Definition randomHexColor (g : Rng) : string * Rng :=
  let '(r, g) := randomBelow 256 g in
  let '(gr, g) := randomBelow 256 g in
  let '(b, g) := randomBelow 256 g in
  ("#" ++ sliceFrom (toStringRadix (shl 1 24 + shl r 16 + shl gr 8 + b) 16) 1,
   g).

(** [generateRandomColorsArray] and [randomGradientDirection]. *)
Definition generateRandomColorsArray (n : Z) (g : Rng) : list string * Rng :=
  arrayFrom n randomHexColor g.

Definition randomGradientDirection (g : Rng) : string * Rng :=
  let '(v, g) := randomBelow 360 g in (toStringRadix v 10 ++ "deg", g).

(** *** The page of the earlier content script *)

(** The class list of the root element, whether the document has a head,
    and the texts of the style elements that carry the attribute
    data-client-themes, in document order. *)
Record LegacyDocument := {
  rootClasses : list string;
  hasHead : bool;
  themeStyles : list string
}.

(** The configuration object is the one the popup writes: the four fields
    of [ThemeConfig].  The script holds the current one in a variable, null
    until one is loaded or received. *)
Record LegacyPage := {
  themeConfig : option ThemeConfig;
  stored : option ThemeConfig;
  page : LegacyDocument;
  generator : Rng
}.

Definition detectThemeMode (doc : LegacyDocument) : ThemeMode :=
  let htmlClass := join " " (rootClasses doc) in
  if includes htmlClass "theme-light" then light
  else if includes htmlClass "theme-dark" then dark
  else dark.

(** The template literal of the earlier [generateThemeCSS]. *)
Definition themeCSS (direction colorsStr baseColorAmount textColorAmount
  darkVariant darkTextColor lightVariant lightTextColor : string) : string :=
  nl ++
  "        .custom-theme-background {" ++ nl ++
  "            --custom-theme-background: linear-gradient(" ++ direction ++ ", " ++ colorsStr ++ ") !important;" ++ nl ++
  "            --custom-background-gradient-chat-opacity-base-light: 0.95;" ++ nl ++
  "            --custom-background-gradient-highest-opacity-base-light: 1.0;" ++ nl ++
  "            --custom-background-gradient-opacity-mix-amount: 0.48;" ++ nl ++
  "            --custom-theme-border-color-amount: 5%;" ++ nl ++
  "            --custom-theme-base-color-amount: " ++ baseColorAmount ++ "%;" ++ nl ++
  "            --custom-theme-text-color-amount: " ++ textColorAmount ++ "%;" ++ nl ++
  "            --custom-theme-base-color-dark: " ++ darkVariant ++ " !important;" ++ nl ++
  "            --custom-theme-base-color-dark-hsl: 0 100% 5% !important;" ++ nl ++
  "            --custom-theme-text-color-dark: " ++ darkTextColor ++ " !important;" ++ nl ++
  "            --custom-theme-base-color-light: " ++ lightVariant ++ " !important;" ++ nl ++
  "            --custom-theme-base-color-light-hsl: 0 100% 90% !important;" ++ nl ++
  "            --custom-theme-text-color-light: " ++ lightTextColor ++ " !important;" ++ nl ++
  "        }" ++ nl ++
  "    ".

(** [config.colorCount || config.colors.length || 2] *)
Definition countOf (config : ThemeConfig) : Z :=
  if negb (colorCount config =? 0) then colorCount config
  else if negb (List.length (colors config) =? 0)%nat
       then Z.of_nat (List.length (colors config))
       else 2.

Definition colorsToUse (config : ThemeConfig) (g : Rng) : list string * Rng :=
  let count := countOf config in
  if useRandomColors config then generateRandomColorsArray count g
  else (arraySlice0 (colors config) count, g).

Definition direction (config : ThemeConfig) (g : Rng) : string * Rng :=
  if useRandomColors config then randomGradientDirection g
  else (gradientDirection config, g).

(** The earlier [generateThemeCSS]; [adjustColor] and [getTextColor] have
    the bodies of the later ones.  The direction is used as it is. *)
Definition generateThemeCSS (config : option ThemeConfig)
  (doc : LegacyDocument) (g : Rng) : string * Rng :=
  match config with
  | None => ("", g)
  | Some config =>
      let isDark := isDarkMode (detectThemeMode doc) in
      let '(colorsToUse, g) := colorsToUse config g in
      let '(direction, g) := direction config g in
      let colorsStr := join ", " colorsToUse in
      let mainColor :=
        match colorsToUse with
        | c :: _ => if String.eqb c "" then "#000000" else c
        | [] => "#000000"
        end in
      let darkVariant := adjustColor mainColor (-35) in
      let lightVariant := adjustColor mainColor 130 in
      let darkTextColor := getTextColor darkVariant in
      let lightTextColor := getTextColor lightVariant in
      let baseColorAmount := if isDark then "70.4" else "15.2" in
      let textColorAmount := if isDark then "30" else "40" in
      (themeCSS direction colorsStr baseColorAmount textColorAmount
         darkVariant darkTextColor lightVariant lightTextColor, g)
  end.

(** [applyCustomCSS]: every earlier style element of the engine is
    removed and a new one is appended to the head. *)
Definition applyCustomCSS (p : LegacyPage) : LegacyPage :=
  match themeConfig p with
  | None => p
  | Some _ =>
      if negb (hasHead (page p)) then p
      else
        let '(css, g) := generateThemeCSS (themeConfig p) (page p) (generator p) in
        {| themeConfig := themeConfig p;
           stored := stored p;
           page := {| rootClasses := add (rootClasses (page p)) "custom-theme-background";
                      hasHead := hasHead (page p);
                      themeStyles := [css] |};
           generator := g |}
  end.


(** [applyConfigFromPopup]; the callback of the write runs whether the
    write succeeded ([ok]) or not. *)
Definition applyConfigFromPopup (ok : bool) (config : option ThemeConfig)
  (p : LegacyPage) : LegacyPage :=
  match config with
  | None => p
  | Some config =>
      applyCustomCSS
        {| themeConfig := Some config;
           stored := if ok then Some config else stored p;
           page := page p;
           generator := generator p |}
  end.

(** [loadSavedConfig] *)
Definition loadSavedConfig (p : LegacyPage) : LegacyPage :=
  match stored p with
  | Some config =>
      applyCustomCSS
        {| themeConfig := Some config; stored := stored p;
           page := page p; generator := generator p |}
  | None => p
  end.

End Legacy.

(** ** Vocabulary of the properties *)

Module Props.
Import JS Utils Content.

Fixpoint allChars (p : ascii -> bool) (s : string) : bool :=
  match s with
  | EmptyString => true
  | String c t => p c && allChars p t
  end.

Definition isRadixDigit (radix : Z) (c : ascii) : bool :=
  match radixDigit radix c with Some _ => true | None => false end.

(** The number a string of radix digits denotes, most significant digit
    first, continuing from [a]. *)
Fixpoint digitsValue (radix : Z) (s : string) (a : Z) : Z :=
  match s with
  | EmptyString => a
  | String c t =>
      digitsValue radix t
        (a * radix + match digitValue c with Some v => v | None => 0 end)
  end.

(** A string that [/^\d+deg$/] matches, with its numeric part. *)
Definition degreesString (d digits : string) : Prop :=
  d = digits ++ "deg" /\ digits <> "" /\ allChars isDigit digits = true.

Definition clampDegrees (n : Z) : Z :=
  if n <? 0 then 0 else if 360 <? n then 360 else n.

(** A hexadecimal color: six hexadecimal digits, with or without a leading
    number sign. *)
Definition isHex6 (s : string) : bool :=
  (String.length s =? 6)%nat && allChars (isRadixDigit 16) s.

Definition validHexColor (c : string) : bool :=
  match c with
  | String "#" body => isHex6 body
  | _ => isHex6 c
  end.

Definition hasPound (c : string) : bool :=
  match c with
  | String "#" _ => true
  | _ => false
  end.

(** The digits of a color, and its channels 0 (red), 1 (green) and 2
    (blue): the numbers its digit pairs denote. *)
Definition hexBody (c : string) : string :=
  match c with
  | String "#" body => body
  | _ => c
  end.

Definition channel (i : nat) (c : string) : option Z :=
  parseInt (slice (hexBody c) (2 * i) (2 * i + 2)) 16.

Definition clampChannel (v : Z) : Z :=
  if v <? 0 then 0 else if 255 <? v then 255 else v.

(** Case normalization of a character and of a string. *)
Definition lowerChar (c : ascii) : ascii :=
  if (65 <=? code c) && (code c <=? 90)
  then ascii_of_nat (Z.to_nat (code c + 32)) else c.

Fixpoint toLowerCase (s : string) : string :=
  match s with
  | EmptyString => EmptyString
  | String c t => String (lowerChar c) (toLowerCase t)
  end.

(** Exactly [k] digits of [n], most significant first, before [acc]. *)
Fixpoint fixedDigits (k : nat) (radix n : Z) (acc : string) : string :=
  match k with
  | O => acc
  | S j => fixedDigits j radix (n / radix) (String (digitChar (n mod radix)) acc)
  end.

(** A channel as two lowercase hexadecimal digits. *)
Definition hexByte (v : Z) : string :=
  String (digitChar (v / 16)) (String (digitChar (v mod 16)) EmptyString).

(** A bounded search: [p] holds of [z], [z + 1], ... ([fuel] values). *)
Fixpoint forallFrom (fuel : nat) (z : Z) (p : Z -> bool) : bool :=
  match fuel with
  | O => true
  | S k => p z && forallFrom k (z + 1) p
  end.

(** The same search on machine integers. *)
Fixpoint forallFromInt (fuel : nat) (i : int) (p : int -> bool) : bool :=
  match fuel with
  | O => true
  | S k => p i && forallFromInt k (Uint63.add i 1) p
  end.

(** The luminance of three channels in exact arithmetic. *)
Definition luminanceQ (r g b : Z) : Q :=
  ((299 # 1000) * inject_Z r + (587 # 1000) * inject_Z g
   + (114 # 1000) * inject_Z b)%Q.

(** The float comparison of [getTextColor] against the exact comparison,
    scaled by 1000, on machine integers. *)
Definition luminanceAgrees (r g b : int) : bool :=
  Bool.eqb
    (128 <? 0.299 * PrimFloat.of_uint63 r + 0.587 * PrimFloat.of_uint63 g
            + 0.114 * PrimFloat.of_uint63 b)%float
    (128000 <? 299 * r + 587 * g + 114 * b)%uint63.

(** Every draw of [Math.random] lies in [0, 1). *)
Definition validRng (g : Rng) : Prop :=
  forall i, (0 <= draws g i /\ draws g i < 1)%Q.

(** The generator whose draws all equal [q]. *)
Definition constantRng (q : Q) : Rng := {| draws := fun _ => q; cursor := 0 |}.

(** The text of a stylesheet given line by line. *)
Definition cssLines (l : list string) : string := String.concat nl l.

(** The host page rewrites the class attribute of the root element, or
    removes the style element of the engine. *)
Definition hostSetsClasses (l : list string) (doc : Document) : Document :=
  {| classList := l; head := head doc; styleElement := styleElement doc |}.

Definition hostRemovesStyle (doc : Document) : Document :=
  {| classList := classList doc; head := head doc; styleElement := None |}.

Definition themed (doc : Document) : bool :=
  contains (classList doc) THEME_CLASS_NAME.

(** The restoration as claimed: whenever the class or the style element is
    missing, one callback brings back both, the style text being the last
    compiled text. *)
Definition restoresBoth (lastCss : string) (doc : Document) : Prop :=
  themed doc = false \/ styleElement doc = None ->
  themed (persistenceObserver doc) = true
  /\ styleElement (persistenceObserver doc) = Some lastCss.

(** A page of the host in dark mode. *)
Definition hostPage : Document :=
  {| classList := ["app"; "theme-dark"]; head := true; styleElement := None |}.

(** A randomized configuration of [n] colors. *)
Definition randomConfig (n : Z) : ThemeConfig :=
  {| colorCount := n; colors := [];
     gradientDirection := "90deg"; useRandomColors := true |}.

(** A configuration of its own colors. *)
Definition fixedConfig (n : Z) (l : list string) (d : string) : ThemeConfig :=
  {| colorCount := n; colors := l;
     gradientDirection := d; useRandomColors := false |}.

(** The largest double below 1. *)
Definition largestDraw : Q := 9007199254740991 # 9007199254740992.


End Props.

(** ** The storage layer (shared/storage.ts) *)

Module Storage.
Import Content.

(** [chrome.storage.sync]: the value under the key themeConfig, when there
    is one.  [chrome.storage.local]: the values under the three keys of the
    update information.  Values have the types of shared/types.ts. *)
Definition SyncStorage : Type := option ThemeConfig.

Record LocalStorage := {
  storedUpdateAvailable : option bool;
  storedLatestVersion : option string;
  storedLatestUrl : option string
}.

Record UpdateInfo := {
  updateAvailable : bool;
  latestVersion : option string;
  latestUrl : option string
}.

(** Each call of the storage API either succeeds ([ok]) or rejects; the
    functions below catch the rejection and log it. *)

(** Retrieves the saved theme configuration, or null. *)
Definition getThemeConfig (ok : bool) (sync : SyncStorage)
  : option ThemeConfig :=
  if ok then sync else None.

(** Saves the theme configuration. *)
Definition setThemeConfig (ok : bool) (config : ThemeConfig)
  (sync : SyncStorage) : SyncStorage :=
  if ok then Some config else sync.

(** Retrieves the update information, or the defaults. *)
Definition getUpdateInfo (ok : bool) (local : LocalStorage) : UpdateInfo :=
  if ok then
    {| updateAvailable :=
         match storedUpdateAvailable local with
         | Some b => b
         | None => false
         end;
       latestVersion := storedLatestVersion local;
       latestUrl := storedLatestUrl local |}
  else
    {| updateAvailable := false; latestVersion := None; latestUrl := None |}.

(** Saves the update information: [set] writes the keys the object has
    and leaves the other keys of the storage as they are. *)
Definition setUpdateInfo (ok : bool) (info : UpdateInfo)
  (local : LocalStorage) : LocalStorage :=
  if ok then
    {| storedUpdateAvailable := Some (updateAvailable info);
       storedLatestVersion :=
         match latestVersion info with
         | Some v => Some v
         | None => storedLatestVersion local
         end;
       storedLatestUrl :=
         match latestUrl info with
         | Some u => Some u
         | None => storedLatestUrl local
         end |}
  else local.

End Storage.

(** ** Messages and start of the content script (content/index.ts) *)

Module ContentScript.
Import JS Content Storage.

Record ThemeUpdateMessage := {
  action : string;
  config : ThemeConfig
}.

(** What the content script lives in: the synced storage, the document,
    the generator, and whether the message listener and the observer have
    been registered. *)
Record Page := {
  sync : SyncStorage;
  document : Document;
  rng : Rng;
  listening : bool;
  observing : bool
}.

(** Handles messages from the extension popup and updates the theme
    accordingly.  [ok] is the outcome of the storage call. *)
Definition handleMessages (ok : bool) (message : ThemeUpdateMessage)
  (p : Page) : Page :=
  if String.eqb (action message) "updateTheme" then
    let config := config message in
    let sync := setThemeConfig ok config (sync p) in
    let '(doc, g) := applyTheme config (document p) (rng p) in
    {| sync := sync; document := doc; rng := g;
       listening := listening p; observing := observing p |}
  else p.

(** Main entry point for the content script, run to its end: the listener
    is registered, the saved theme is applied when there is one, and the
    observer is registered. *)
Definition main (ok : bool) (p : Page) : Page :=
  let '(doc, g) :=
    match getThemeConfig ok (sync p) with
    | Some savedConfig => applyTheme savedConfig (document p) (rng p)
    | None => (document p, rng p)
    end in
  {| sync := sync p; document := doc; rng := g;
     listening := true; observing := true |}.

(** What happens to a page after [main]: a message arrives; the host page
    rewrites the class attribute of the root, upon which the observer runs;
    the host page removes the style element, which the observer, filtered
    to the class attribute, does not see.  (The write of the engine itself
    to the class attribute also runs the callback, which then finds the
    class and does nothing.) *)
Inductive Event :=
| MessageReceived (ok : bool) (message : ThemeUpdateMessage)
| ClassAttributeSet (classes : list string)
| StyleElementRemoved.

Definition withDocument (doc : Document) (p : Page) : Page :=
  {| sync := sync p; document := doc; rng := rng p;
     listening := listening p; observing := observing p |}.

Definition step (e : Event) (p : Page) : Page :=
  match e with
  | MessageReceived ok message =>
      if listening p then handleMessages ok message p else p
  | ClassAttributeSet classes =>
      let doc :=
        {| classList := classes; head := head (document p);
           styleElement := styleElement (document p) |} in
      withDocument (if observing p then persistenceObserver doc else doc) p
  | StyleElementRemoved =>
      withDocument
        {| classList := classList (document p); head := head (document p);
           styleElement := None |} p
  end.

Definition run (events : list Event) (p : Page) : Page :=
  fold_left (fun q e => step e q) events p.

End ContentScript.

(** ** The engine with the RangeError of [Array.from] *)

Module Strict.
Import JS Utils Content Storage ContentScript.

(** How a call ends: it returns, or it throws; either way with the state
    that it has reached. *)
Inductive Completion (A : Type) :=
| Returned (a : A)
| Thrown (a : A).

Arguments Returned {A} a.
Arguments Thrown {A} a.

(** [Array.from({ length: count }, f)]: the array is constructed with the
    length before [f] runs for the first time, and a length of 2^32 or more
    is a RangeError. *)
Definition arrayFrom {A} (count : Z) (f : Rng -> A * Rng) (g : Rng)
  : option (list A * Rng) :=
  if 4294967296 <=? count then None else Some (Content.arrayFrom count f g).

Definition colorsToUse (config : ThemeConfig) (g : Rng)
  : option (list string * Rng) :=
  if useRandomColors config
  then arrayFrom (colorCount config) randomColor g
  else Some (arraySlice0 (colors config) (colorCount config), g).

(** [generateThemeCSS]: the text and the generator, or nothing when
    [Array.from] throws. *)
Definition generateThemeCSS (doc : Document) (config : ThemeConfig) (g : Rng)
  : option (string * Rng) :=
  let isDark := isDarkMode (detectThemeMode doc) in
  match colorsToUse config g with
  | None => None
  | Some (colorsToUse, g) =>
      match colorsToUse with
      | [] => Some ("", g)
      | mainColor :: _ =>
          let '(direction, g) := direction config g in
          let colorsStr := join ", " colorsToUse in
          let backgroundValue :=
            if (1 <? List.length colorsToUse)%nat
            then "linear-gradient(" ++ direction ++ ", " ++ colorsStr ++ ")"
            else mainColor in
          let darkVariant := adjustColor mainColor (-35) in
          let lightVariant := adjustColor mainColor 130 in
          let darkTextColor := getTextColor darkVariant in
          let lightTextColor := getTextColor lightVariant in
          let baseColorAmount := if isDark then "70.4" else "15.2" in
          let textColorAmount := if isDark then "30" else "40" in
          Some (themeCSS backgroundValue darkVariant darkTextColor
                  lightVariant lightTextColor baseColorAmount
                  textColorAmount, g)
      end
  end.

(** [applyTheme]: the style element is found, or created (with no text)
    and appended, before the compiler runs; the class is added after it has
    returned. *)
Definition applyTheme (config : ThemeConfig) (doc : Document) (g : Rng)
  : Completion (Document * Rng) :=
  if negb (head doc) then Returned (doc, g)
  else
    let text :=
      match styleElement doc with
      | Some text => text
      | None => ""
      end in
    let appended :=
      {| classList := classList doc; head := head doc;
         styleElement := Some text |} in
    match generateThemeCSS appended config g with
    | None => Thrown (appended, g)
    | Some (css, g) =>
        Returned ({| classList := add (classList appended) THEME_CLASS_NAME;
                     head := head appended;
                     styleElement := Some css |}, g)
    end.

(** [handleMessages]: the configuration is saved before [applyTheme] runs;
    a throw rejects the promise of the handler and leaves the page as
    [applyTheme] left it. *)
Definition handleMessages (ok : bool) (message : ThemeUpdateMessage)
  (p : Page) : Page :=
  if String.eqb (action message) "updateTheme" then
    let config := config message in
    let sync := setThemeConfig ok config (sync p) in
    match applyTheme config (document p) (rng p) with
    | Returned (doc, g) | Thrown (doc, g) =>
        {| sync := sync; document := doc; rng := g;
           listening := listening p; observing := observing p |}
    end
  else p.

(** [main]: a throw of [applyTheme] rejects the promise of [main] before
    the observer is registered. *)
Definition main (ok : bool) (p : Page) : Page :=
  match getThemeConfig ok (sync p) with
  | Some savedConfig =>
      match applyTheme savedConfig (document p) (rng p) with
      | Returned (doc, g) =>
          {| sync := sync p; document := doc; rng := g;
             listening := true; observing := true |}
      | Thrown (doc, g) =>
          {| sync := sync p; document := doc; rng := g;
             listening := true; observing := false |}
      end
  | None =>
      {| sync := sync p; document := document p; rng := rng p;
         listening := true; observing := true |}
  end.

Definition step (e : Event) (p : Page) : Page :=
  match e with
  | MessageReceived ok message =>
      if listening p then handleMessages ok message p else p
  | ClassAttributeSet classes =>
      let doc :=
        {| classList := classes; head := head (document p);
           styleElement := styleElement (document p) |} in
      withDocument (if observing p then persistenceObserver doc else doc) p
  | StyleElementRemoved =>
      withDocument
        {| classList := classList (document p); head := head (document p);
           styleElement := None |} p
  end.

Definition run (events : list Event) (p : Page) : Page :=
  fold_left (fun q e => step e q) events p.

End Strict.

(** ** The earlier content script with the RangeError of [Array.from] *)

Module StrictLegacy.
Import JS Content Legacy.

Definition generateRandomColorsArray (n : Z) (g : Rng)
  : option (list string * Rng) :=
  Strict.arrayFrom n randomHexColor g.

Definition colorsToUse (config : ThemeConfig) (g : Rng)
  : option (list string * Rng) :=
  let count := countOf config in
  if useRandomColors config then generateRandomColorsArray count g
  else Some (arraySlice0 (colors config) count, g).

(** The earlier [generateThemeCSS]: the text and the generator, or nothing
    when [Array.from] throws. *)
Definition generateThemeCSS (config : option ThemeConfig)
  (doc : LegacyDocument) (g : Rng) : option (string * Rng) :=
  match config with
  | None => Some ("", g)
  | Some config =>
      let isDark := isDarkMode (detectThemeMode doc) in
      match colorsToUse config g with
      | None => None
      | Some (colorsToUse, g) =>
          let '(direction, g) := direction config g in
          let colorsStr := join ", " colorsToUse in
          let mainColor :=
            match colorsToUse with
            | c :: _ => if String.eqb c "" then "#000000" else c
            | [] => "#000000"
            end in
          let darkVariant := adjustColor mainColor (-35) in
          let lightVariant := adjustColor mainColor 130 in
          let darkTextColor := getTextColor darkVariant in
          let lightTextColor := getTextColor lightVariant in
          let baseColorAmount := if isDark then "70.4" else "15.2" in
          let textColorAmount := if isDark then "30" else "40" in
          Some (themeCSS direction colorsStr baseColorAmount textColorAmount
                  darkVariant darkTextColor lightVariant lightTextColor, g)
      end
  end.

End StrictLegacy.

(** ** The service worker (background/index.ts) *)

Module Background.
Import JS Storage.

Definition UPDATE_CHECK_INTERVAL_MINUTES : Z := 60.
Definition UPDATE_ALARM_NAME : string := "checkUpdateAlarm".

(** The two functions of the semver package that [isNewerVersion] calls:
    [coerce] gives the version string of the coerced version or null, [gt]
    compares or throws. *)
Record Semver := {
  coerce : string -> option string;
  gt : string -> string -> option bool
}.

(** Whether [latest] is strictly newer than [current] (shared/utils.ts). *)
Definition isNewerVersion (semver : Semver) (current latest : string) : bool :=
  let coercedCurrent := coerce semver current in
  let coercedLatest := coerce semver latest in
  match coercedCurrent, coercedLatest with
  | Some c, Some l =>
      if String.eqb c "" || String.eqb l "" then false
      else match gt semver l c with
           | Some b => b
           | None => false
           end
  | _, _ => false
  end.

(** The badge of the extension action: its text and its background
    color, unknown until set. *)
Record Badge := {
  badgeText : string;
  badgeColor : option string
}.

(** Updates the action badge; the background color is applied only when
    the text is not empty. *)
Definition updateBadge (text color : string) (b : Badge) : Badge :=
  {| badgeText := text;
     badgeColor := if String.eqb text "" then badgeColor b else Some color |}.

Definition DEFAULT_BADGE_COLOR : string := "#4CAF50".

(** The release object of the GitHub API as shared/types.ts declares it,
    each field possibly absent; the body of a response, which may fail to
    parse or be null; the outcome of [fetch]. *)
Record GitHubRelease := {
  tag_name : option string;
  html_url : option string
}.

Inductive Body :=
| InvalidJson
| Json (release : option GitHubRelease).

Inductive FetchResult :=
| NetworkError
| Response (ok : bool) (status : Z) (body : Body).

(** [s.replace(/^v/, '')] *)
Definition stripV (s : string) : string :=
  match s with
  | String "v" t => t
  | _ => s
  end.

Record Worker := {
  local : LocalStorage;
  badge : Badge;
  alarms : list (string * Z)
}.

Definition resetUpdate (storageOk : bool) (w : Worker) : Worker :=
  {| local :=
       setUpdateInfo storageOk
         {| updateAvailable := false; latestVersion := None;
            latestUrl := None |} (local w);
     badge := updateBadge "" DEFAULT_BADGE_COLOR (badge w);
     alarms := alarms w |}.

(** Checks GitHub for the latest release and compares it with the
    installed version.  Every throw inside the try block ends in the catch
    block, which is [resetUpdate]; so does the else branch. *)
Definition checkForUpdate (semver : Semver) (currentVersion : string)
  (fetched : FetchResult) (storageOk : bool) (w : Worker) : Worker :=
  match fetched with
  | Response true _ (Json release) =>
      let latestVersion :=
        match release with
        | Some r => option_map stripV (tag_name r)
        | None => None
        end in
      match latestVersion, release with
      | Some v, Some r =>
          match html_url r with
          | Some url =>
              if String.eqb v "" || String.eqb url "" then
                resetUpdate storageOk w
              else if isNewerVersion semver currentVersion v then
                {| local :=
                     setUpdateInfo storageOk
                       {| updateAvailable := true; latestVersion := Some v;
                          latestUrl := Some url |} (local w);
                   badge := updateBadge "NEW" DEFAULT_BADGE_COLOR (badge w);
                   alarms := alarms w |}
              else resetUpdate storageOk w
          | None => resetUpdate storageOk w
          end
      | _, _ => resetUpdate storageOk w
      end
  | _ => resetUpdate storageOk w
  end.

(** [chrome.alarms.create]: an alarm of the same name is replaced. *)
Definition createAlarm (name : string) (period : Z)
  (l : list (string * Z)) : list (string * Z) :=
  (name, period) :: filter (fun a => negb (String.eqb (fst a) name)) l.

(** The events [initializeEventListeners] listens to. *)
Inductive Event :=
| Installed
| AlarmFired (name : string)
| Startup.

Definition dispatch (semver : Semver) (currentVersion : string) (e : Event)
  (fetched : FetchResult) (storageOk : bool) (w : Worker) : Worker :=
  match e with
  | Installed =>
      checkForUpdate semver currentVersion fetched storageOk
        {| local := local w; badge := badge w;
           alarms := createAlarm UPDATE_ALARM_NAME
                       UPDATE_CHECK_INTERVAL_MINUTES (alarms w) |}
  | AlarmFired name =>
      if String.eqb name UPDATE_ALARM_NAME
      then checkForUpdate semver currentVersion fetched storageOk w
      else w
  | Startup => checkForUpdate semver currentVersion fetched storageOk w
  end.

End Background.

(** ** The version comparison of the earlier scripts (popup.js) *)

Module LegacyPopup.

(** [s.split('.')] *)
Fixpoint splitDot (s : string) : list string :=
  match s with
  | EmptyString => [EmptyString]
  | String c t =>
      if Ascii.eqb c "." then EmptyString :: splitDot t
      else match splitDot t with
           | x :: xs => String c x :: xs
           | [] => [String c EmptyString]
           end
  end.

(** An element taken out of an array by a destructuring pattern: a
    Number, or undefined when the array is too short. *)
Definition element (l : list float) (i : nat) : option float := nth_error l i.

(** [x > y] and [x === y] on such elements: undefined compares as NaN,
    and is identical to undefined only. *)
Definition asNumber (x : option float) : float :=
  match x with
  | Some f => f
  | None => nan
  end.

Definition greater (x y : option float) : bool :=
  PrimFloat.ltb (asNumber y) (asNumber x).

Definition identical (x y : option float) : bool :=
  match x, y with
  | Some a, Some b => PrimFloat.eqb a b
  | None, None => true
  | _, _ => false
  end.

(** Compare versions X.X; returns true if latest is newer.  [Number] is
    the conversion of the language from a string to a Number. *)
Definition isNewerVersion (Number : string -> float) (current latest : string)
  : bool :=
  let cur := map Number (splitDot current) in
  let lat := map Number (splitDot latest) in
  let curMajor := element cur 0 in
  let curMinor := element cur 1 in
  let latMajor := element lat 0 in
  let latMinor := element lat 1 in
  greater latMajor curMajor
  || (identical latMajor curMajor && greater latMinor curMinor).

End LegacyPopup.

(** ** Vocabulary of the further properties *)

Module Behaviour.
Import JS Content Props.

(** A string without a space. *)
Definition noSpace (p : string) : bool :=
  allChars (fun c => negb (Ascii.eqb c " ")) p.

(** The style element and the activation class in lockstep, the way the
    engine keeps it: a document that has the style element has the class. *)
Definition lockstep (doc : Document) : Prop :=
  styleElement doc <> None -> themed doc = true.

(** A configuration whose compilation returns: it is not randomized, or
    its count is below 2^32, from where on [Array.from] throws. *)
Definition compiles (config : ThemeConfig) : bool :=
  negb (useRandomColors config) || (colorCount config <? 4294967296).

(** What the storage gives to [main], if anything, is such a
    configuration. *)
Definition storedCompiles (ok : bool) (sync : Storage.SyncStorage) : bool :=
  match Storage.getThemeConfig ok sync with
  | Some savedConfig => compiles savedConfig
  | None => true
  end.

(** An event that makes the engine compile does so with such a
    configuration. *)
Definition eventCompiles (e : ContentScript.Event) : bool :=
  match e with
  | ContentScript.MessageReceived _ message =>
      negb (String.eqb (ContentScript.action message) "updateTheme")
      || compiles (ContentScript.config message)
  | _ => true
  end.

(** An event of the host page, as opposed to a message of the popup. *)
Definition isHostEvent (e : ContentScript.Event) : bool :=
  match e with
  | ContentScript.MessageReceived _ _ => false
  | _ => true
  end.

(** A page at the load of a document: what the storage holds, a document,
    a generator, and nothing registered yet. *)
Definition loadedPage (sync : Storage.SyncStorage) (doc : Document) (g : Rng)
  : ContentScript.Page :=
  {| ContentScript.sync := sync; ContentScript.document := doc;
     ContentScript.rng := g; ContentScript.listening := false;
     ContentScript.observing := false |}.

(** The badge and the stored flag agree: the badge reads NEW and an update
    is stored as available, or the badge is empty and none is. *)
Definition badgeAgrees (w : Background.Worker) : Prop :=
  (Background.badgeText (Background.badge w) = "NEW"
   /\ Storage.storedUpdateAvailable (Background.local w) = Some true)
  \/ (Background.badgeText (Background.badge w) = ""
      /\ Storage.storedUpdateAvailable (Background.local w) <> Some true).

(** The events of the worker one after the other, each with the outcome of
    its fetch; the writes to the storage succeed. *)
Definition runWorker (semver : Background.Semver) (currentVersion : string)
  (events : list (Background.Event * Background.FetchResult))
  (w : Background.Worker) : Background.Worker :=
  fold_left
    (fun v e => Background.dispatch semver currentVersion (fst e) (snd e) true v)
    events w.

(** A stand-in for the semver package: versions are taken as they are and
    a version is greater when it is a longer string. *)
Definition lengthSemver : Background.Semver :=
  {| Background.coerce := fun s => Some s;
     Background.gt := fun l c =>
       Some (String.length c <? String.length l)%nat |}.

(** The worker before its first event. *)
Definition freshWorker : Background.Worker :=
  {| Background.local :=
       {| Storage.storedUpdateAvailable := None;
          Storage.storedLatestVersion := None;
          Storage.storedLatestUrl := None |};
     Background.badge :=
       {| Background.badgeText := ""; Background.badgeColor := None |};
     Background.alarms := [] |}.

(** The generator that draws [a], then [b], then [c] for ever. *)
Definition threeDraws (a b c : Q) : Rng :=
  {| draws := fun i => match i with
                       | O => a
                       | S O => b
                       | _ => c
                       end;
     cursor := 0 |}.

(** A string without a dot. *)
Definition noDot (p : string) : bool :=
  allChars (fun c => negb (Ascii.eqb c ".")) p.

End Behaviour.

(** ** Characters and digits *)

Import JS Utils Content Props Behaviour.

Ltac ascii_cases c :=
  destruct c as [[] [] [] [] [] [] [] []].

Lemma digit_is_radix10 (c : ascii) :
  isDigit c = true ->
  radixDigit 10 c = Some (code c - 48) /\ digitValue c = Some (code c - 48) /\
  isWhiteSpace c = false /\ c <> "-"%char /\ c <> "+"%char.
Proof.
  ascii_cases c; intro H; try discriminate H;
    repeat split; try reflexivity; discriminate.
Qed.

Lemma d_is_no_digit : isDigit "d" = false.
Proof. reflexivity. Qed.

(** ** The degree sanitizer *)

Lemma spanDigits_digits (ds rest : string) :
  allChars isDigit ds = true ->
  (match rest with String c _ => isDigit c = false | EmptyString => True end) ->
  spanDigits (ds ++ rest) = (ds, rest).
Proof.
  intros Hds Hrest. induction ds as [|c t IH]; simpl in *.
  - destruct rest as [|c r]; [reflexivity|]. simpl. now rewrite Hrest.
  - apply andb_true_iff in Hds as [Hc Ht]. rewrite Hc, (IH Ht). reflexivity.
Qed.

Lemma spanDigits_split (s ds rest : string) :
  spanDigits s = (ds, rest) ->
  s = ds ++ rest /\ allChars isDigit ds = true.
Proof.
  revert ds rest. induction s as [|c t IH]; simpl; intros ds rest H.
  - inversion H. now split.
  - destruct (isDigit c) eqn:Hc.
    + destruct (spanDigits t) as [d r] eqn:Ht. inversion H; subst.
      destruct (IH _ _ eq_refl) as [-> Hd]. simpl. now rewrite Hc, Hd.
    + inversion H. now split.
Qed.

Lemma matchDegrees_Some (d ds : string) :
  matchDegrees d = Some ds <-> degreesString d ds.
Proof.
  unfold matchDegrees, degreesString. split.
  - destruct (spanDigits d) as [a b] eqn:Hs.
    destruct (spanDigits_split _ _ _ Hs) as [-> Ha].
    destruct (String.eqb a "") eqn:Ea; simpl; [discriminate|].
    destruct (String.eqb b "deg") eqn:Eb; [|discriminate].
    intro H. inversion H; subst. apply String.eqb_eq in Eb. subst b.
    apply String.eqb_neq in Ea. now repeat split.
  - intros (-> & Hne & Hds).
    rewrite (spanDigits_digits ds "deg" Hds d_is_no_digit).
    apply String.eqb_neq in Hne. rewrite Hne. reflexivity.
Qed.

Lemma readDigits_all (radix : Z) (s : string) (a : Z) :
  allChars (isRadixDigit radix) s = true ->
  readDigits radix s (Some a) = Some (digitsValue radix s a).
Proof.
  revert a. induction s as [|c t IH]; simpl; intros a H; [reflexivity|].
  apply andb_true_iff in H as [Hc Ht]. unfold isRadixDigit in Hc.
  unfold radixDigit in *. destruct (digitValue c) as [v|]; [|discriminate].
  destruct (v <? radix); [|discriminate]. apply (IH _ Ht).
Qed.

Lemma readDigits_first (radix : Z) (c : ascii) (t : string) :
  allChars (isRadixDigit radix) (String c t) = true ->
  readDigits radix (String c t) None
  = Some (digitsValue radix (String c t) 0).
Proof.
  simpl. intro H. apply andb_true_iff in H as [Hc Ht].
  unfold isRadixDigit in Hc. unfold radixDigit in *.
  destruct (digitValue c) as [v|]; [|discriminate].
  destruct (v <? radix); [|discriminate]. apply (readDigits_all _ _ _ Ht).
Qed.

Lemma allChars_weaken (p q : ascii -> bool) (s : string) :
  (forall c, p c = true -> q c = true) ->
  allChars p s = true -> allChars q s = true.
Proof.
  intro Hpq. induction s as [|c t IH]; simpl; [reflexivity|].
  intro H. apply andb_true_iff in H as [Hc Ht].
  now rewrite (Hpq _ Hc), (IH Ht).
Qed.

Lemma parseInt_decimal (ds : string) :
  ds <> "" -> allChars isDigit ds = true ->
  parseInt ds 10 = Some (digitsValue 10 ds 0).
Proof.
  intros Hne Hds. destruct ds as [|c t]; [congruence|].
  assert (Hr : allChars (isRadixDigit 10) (String c t) = true).
  { revert Hds. apply allChars_weaken. intros x Hx. unfold isRadixDigit.
    now destruct (digit_is_radix10 x Hx) as (-> & _). }
  simpl in Hds. apply andb_true_iff in Hds as [Hc _].
  destruct (digit_is_radix10 c Hc) as (_ & _ & Hw & Hm & Hp).
  unfold parseInt. cbn [trimStart]. rewrite Hw.
  assert (Hsign : (match String c t with
                   | String "-" t0 => (-1, t0)
                   | String "+" t0 => (1, t0)
                   | _ => (1, String c t)
                   end) = (1, String c t)).
  { clear -Hm Hp. ascii_cases c; try reflexivity; congruence. }
  rewrite Hsign. change (10 =? 16) with false. cbv beta iota zeta.
  rewrite (readDigits_first _ _ _ Hr).
  now rewrite Z.mul_1_l.
Qed.

Lemma forallFrom_spec (p : Z -> bool) (fuel : nat) (z : Z) :
  forallFrom fuel z p = true ->
  forall x, z <= x < z + Z.of_nat fuel -> p x = true.
Proof.
  revert z. induction fuel as [|k IH]; intros z H x Hx; [lia|].
  simpl in H. apply andb_true_iff in H as [Hz Hk].
  destruct (Z.eq_dec x z) as [->|Hne]; [exact Hz|].
  apply (IH _ Hk). lia.
Qed.

(** The decimal rendering of an angle from 0 to 360 reads back as that
    angle. *)
Lemma degrees_print_parse (n : Z) :
  0 <= n <= 360 -> parseInt (toStringRadix n 10) 10 = Some n.
Proof.
  intro Hn.
  assert (H : forallFrom 361 0
                (fun z => match parseInt (toStringRadix z 10) 10 with
                          | Some y => y =? z
                          | None => false
                          end) = true) by (vm_compute; reflexivity).
  pose proof (forallFrom_spec _ _ _ H n ltac:(lia)) as Hz. cbv beta in Hz.
  destruct (parseInt (toStringRadix n 10) 10) as [y|]; [|discriminate].
  apply Z.eqb_eq in Hz. now subst.
Qed.

Lemma clampDegrees_range (n : Z) : 0 <= clampDegrees n <= 360.
Proof.
  unfold clampDegrees. destruct (n <? 0) eqn:E1; [lia|].
  destruct (360 <? n) eqn:E2; lia.
Qed.

Lemma clampDegrees_min_max (n : Z) :
  Z.min 360 (Z.max 0 n) = clampDegrees n.
Proof.
  unfold clampDegrees. destruct (n <? 0) eqn:E1; [lia|].
  destruct (360 <? n) eqn:E2; lia.
Qed.

(** C6. The degree sanitizer: a string that [^\d+deg$] matches becomes its
    numeric part clamped into 0..360 (printed in decimal) followed by deg;
    every other string becomes the default 90deg; the four sample inputs
    give 45deg, 360deg, 90deg and 90deg. *)
Theorem sanitizeGradientDirection_spec :
  (forall d ds, degreesString d ds ->
     let n := clampDegrees (digitsValue 10 ds 0) in
     sanitizeGradientDirection d = toStringRadix n 10 ++ "deg"
     /\ parseInt (toStringRadix n 10) 10 = Some n
     /\ 0 <= n <= 360)
  /\ (forall d, (forall ds, ~ degreesString d ds) ->
        sanitizeGradientDirection d = "90deg")
  /\ sanitizeGradientDirection "45deg" = "45deg"
  /\ sanitizeGradientDirection "900deg" = "360deg"
  /\ sanitizeGradientDirection "-5deg" = "90deg"
  /\ sanitizeGradientDirection "blue" = "90deg".
Proof.
  split; [|split; [|repeat split; reflexivity]].
  - intros d ds Hd n. pose proof (clampDegrees_range (digitsValue 10 ds 0)).
    split; [|split; [apply degrees_print_parse|]]; try assumption.
    unfold sanitizeGradientDirection.
    rewrite (proj2 (matchDegrees_Some d ds) Hd).
    destruct Hd as (_ & Hne & Hds). rewrite (parseInt_decimal ds Hne Hds).
    cbn [mathMax mathMin option_map numberToString].
    now rewrite clampDegrees_min_max.
  - intros d Hno. unfold sanitizeGradientDirection.
    destruct (matchDegrees d) as [ds|] eqn:E; [|reflexivity].
    apply matchDegrees_Some in E. now destruct (Hno ds).
Qed.

Lemma sanitizeGradientDirection_spec_witness :
  sanitizeGradientDirection "0450deg" = "360deg"
  /\ sanitizeGradientDirection "90 deg" = "90deg".
Proof.
  destruct sanitizeGradientDirection_spec as (Hyes & Hno & _). split.
  - destruct (Hyes "0450deg" "0450") as [E _]; [|exact E].
    unfold degreesString. repeat split. discriminate.
  - apply Hno. intros ds (E & _ & Hds).
    destruct ds as [|c1 [|c2 [|c3 t]]]; try discriminate E.
    inversion E; subst. discriminate Hds.
Defined.

(** ** Number rendering *)

Lemma repeatChar_snoc (c : ascii) (k : nat) (acc : string) :
  repeatChar c k ++ String c acc = String c (repeatChar c k ++ acc).
Proof. induction k as [|k IH]; simpl; [reflexivity|]. now rewrite IH. Qed.

Lemma fixedDigits_zero (k : nat) (radix : Z) (acc : string) :
  1 < radix -> fixedDigits k radix 0 acc = repeatChar "0" k ++ acc.
Proof.
  intro Hr. revert acc. induction k as [|k IH]; intro acc; [reflexivity|].
  cbn [fixedDigits]. rewrite Z.div_0_l, Z.mod_0_l by lia.
  rewrite IH. change (digitChar 0) with "0"%char.
  now rewrite repeatChar_snoc.
Qed.

Lemma digitsOf_fixed (radix : Z) (k : nat) :
  1 < radix ->
  forall (fuel : nat) (n : Z) (acc : string),
    (0 < fuel)%nat ->
    0 <= n < radix ^ Z.of_nat (S k) ->
    n < radix ^ Z.of_nat fuel ->
    exists j, (j <= k)%nat
      /\ fixedDigits (S k) radix n acc
         = repeatChar "0" j ++ digitsOf fuel radix n acc
      /\ String.length (digitsOf fuel radix n acc)
         = (S k - j + String.length acc)%nat.
Proof.
  intro Hr. induction k as [|k IH]; intros fuel n acc Hf Hn Hfuel.
  - destruct fuel as [|f]; [lia|]. exists O. cbn [fixedDigits digitsOf].
    change (Z.of_nat 1) with 1 in Hn. rewrite Z.pow_1_r in Hn.
    rewrite (Z.div_small n radix) by lia. simpl. repeat split; lia.
  - destruct fuel as [|f]; [lia|]. cbn [fixedDigits digitsOf].
    rewrite Nat2Z.inj_succ, Z.pow_succ_r in Hn, Hfuel by lia.
    destruct (n / radix =? 0) eqn:E.
    + apply Z.eqb_eq in E. exists (S k). rewrite E.
      cbn [fixedDigits]. rewrite Z.div_0_l, Z.mod_0_l by lia.
      rewrite fixedDigits_zero by lia. change (digitChar 0) with "0"%char.
      rewrite repeatChar_snoc. cbn [repeatChar append String.length].
      repeat split; lia.
    + apply Z.eqb_neq in E.
      assert (Hq : 0 <= n / radix) by (apply Z.div_pos; lia).
      assert (Hq1 : n / radix < radix ^ Z.of_nat (S k))
        by (apply Z.div_lt_upper_bound; lia).
      assert (Hq2 : n / radix < radix ^ Z.of_nat f)
        by (apply Z.div_lt_upper_bound; lia).
      assert (Hf' : (0 < f)%nat).
      { destruct f; [|lia]. change (Z.of_nat 0) with 0 in Hq2.
        rewrite Z.pow_0_r in Hq2. lia. }
      destruct (IH f (n / radix) (String (digitChar (n mod radix)) acc)
                  Hf' (conj Hq Hq1) Hq2) as (j & Hj & Heq & Hlen).
      exists j. cbn [fixedDigits] in Heq. rewrite Heq.
      repeat split; [lia|]. rewrite Hlen. cbn [String.length]. lia.
Qed.

Lemma padStart_toStringRadix (radix : Z) (k : nat) (n : Z) :
  1 < radix -> 0 <= n < radix ^ Z.of_nat (S k) ->
  padStart (toStringRadix n radix) (S k) "0" = fixedDigits (S k) radix n "".
Proof.
  intros Hr Hn. unfold toStringRadix, padStart.
  destruct (n <? 0) eqn:E; [lia|]. rewrite Z.abs_eq by lia. cbn [append].
  assert (Hfuel : n < radix ^ Z.of_nat (S (Z.to_nat (Z.log2 n)))).
  { rewrite Nat2Z.inj_succ, Z2Nat.id by apply Z.log2_nonneg.
    destruct (Z.eq_dec n 0) as [->|Hne].
    - apply Z.pow_pos_nonneg; [lia|]. simpl. lia.
    - pose proof (Z.log2_spec n ltac:(lia)) as [_ Hlt].
      eapply Z.lt_le_trans; [exact Hlt|].
      apply Z.pow_le_mono_l. lia. }
  destruct (digitsOf_fixed radix k Hr _ n "" (Nat.lt_0_succ _) Hn Hfuel)
    as (j & Hj & Heq & Hlen).
  rewrite Heq, Hlen. f_equal. f_equal. cbn [String.length]. lia.
Qed.

(** ** Hexadecimal digits *)

Lemma hex_digit_facts (c : ascii) :
  isRadixDigit 16 c = true ->
  exists v, digitValue c = Some v /\ 0 <= v < 16
    /\ isWhiteSpace c = false
    /\ c <> "-"%char /\ c <> "+"%char /\ c <> "#"%char
    /\ c <> "x"%char /\ c <> "X"%char
    /\ digitChar v = lowerChar c.
Proof.
  ascii_cases c; intro H; try discriminate H;
    eexists; repeat split; first [reflexivity | discriminate | lia].
Qed.

Lemma digitChar_is_hex (v : Z) :
  0 <= v < 16 ->
  isRadixDigit 16 (digitChar v) = true /\ digitValue (digitChar v) = Some v.
Proof.
  intro Hv.
  assert (H : forallFrom 16 0
                (fun z => isRadixDigit 16 (digitChar z)
                          && match digitValue (digitChar z) with
                             | Some y => y =? z
                             | None => false
                             end) = true) by (vm_compute; reflexivity).
  pose proof (forallFrom_spec _ _ _ H v ltac:(lia)) as Hz. cbv beta in Hz.
  apply andb_true_iff in Hz as [H1 H2]. split; [exact H1|].
  destruct (digitValue (digitChar v)) as [y|]; [|discriminate].
  apply Z.eqb_eq in H2. now subst.
Qed.

Lemma stripHexPrefix_hex (s : string) :
  allChars (isRadixDigit 16) s = true -> stripHexPrefix s = s.
Proof.
  intro H. unfold stripHexPrefix.
  destruct s as [|c1 [|c2 t]]; try reflexivity.
  - cbn [String.prefix]. destruct (ascii_dec "0" c1); reflexivity.
  - cbn [allChars] in H. apply andb_true_iff in H as [_ H].
    apply andb_true_iff in H as [H2 _].
    destruct (hex_digit_facts c2 H2) as (v & _ & _ & _ & _ & _ & _ & Hx & HX & _).
    cbn [String.prefix].
    destruct (ascii_dec "0" c1); [|reflexivity].
    destruct (ascii_dec "x" c2); [congruence|].
    destruct (ascii_dec "X" c2); [congruence|]. reflexivity.
Qed.

Lemma parseInt_hex (s : string) :
  s <> "" -> allChars (isRadixDigit 16) s = true ->
  parseInt s 16 = Some (digitsValue 16 s 0).
Proof.
  intros Hne Hs. destruct s as [|c t]; [congruence|].
  pose proof Hs as Hs'. cbn [allChars] in Hs'.
  apply andb_true_iff in Hs' as [Hc _].
  destruct (hex_digit_facts c Hc) as (v & _ & _ & Hw & Hm & Hp & _).
  unfold parseInt. cbn [trimStart]. rewrite Hw.
  assert (Hsign : (match String c t with
                   | String "-" t0 => (-1, t0)
                   | String "+" t0 => (1, t0)
                   | _ => (1, String c t)
                   end) = (1, String c t)).
  { clear -Hm Hp. ascii_cases c; try reflexivity; congruence. }
  rewrite Hsign. change (16 =? 16) with true. cbv beta iota zeta.
  rewrite (stripHexPrefix_hex _ Hs), (readDigits_first _ _ _ Hs).
  now rewrite Z.mul_1_l.
Qed.

(** ** 32-bit integer operators on channels *)

Lemma wrap32_small (z : Z) : 0 <= z < 2 ^ 31 -> wrap32 z = z.
Proof.
  intro Hz. unfold wrap32. rewrite Z.mod_small by lia.
  destruct (2 ^ 31 <=? z) eqn:E; lia.
Qed.

Lemma land_shiftl_low (hi lo k : Z) :
  0 <= k -> 0 <= lo < 2 ^ k -> Z.land (Z.shiftl hi k) lo = 0.
Proof.
  intros Hk Hlo. apply Z.bits_inj'. intros n Hn.
  rewrite Z.land_spec, Z.bits_0.
  destruct (Z.lt_ge_cases n k) as [Hlt|Hge].
  - now rewrite Z.shiftl_spec_low.
  - rewrite <- (Z.mod_small lo (2 ^ k)) by lia.
    rewrite Z.mod_pow2_bits_high by lia. apply andb_false_r.
Qed.

Lemma lor_shiftl_low (hi lo k : Z) :
  0 <= k -> 0 <= lo < 2 ^ k ->
  Z.lor (Z.shiftl hi k) lo = hi * 2 ^ k + lo.
Proof.
  intros Hk Hlo.
  rewrite <- (Z.shiftl_mul_pow2 hi k Hk), <- Z.add_lor_land.
  rewrite (land_shiftl_low hi lo k Hk Hlo). lia.
Qed.

Lemma channels_of_number (r g b : Z) :
  0 <= r <= 255 -> 0 <= g <= 255 -> 0 <= b <= 255 ->
  let num := ToInt32 (Some (r * 65536 + g * 256 + b)) in
  sar num 16 = r /\ band (sar num 8) 255 = g /\ band num 255 = b.
Proof.
  intros Hr Hg Hb. cbn [ToInt32]. unfold sar, band.
  change (16 mod 32) with 16. change (8 mod 32) with 8.
  rewrite !(wrap32_small (r * 65536 + g * 256 + b)) by lia.
  rewrite !Z.shiftr_div_pow2 by lia.
  change (2 ^ 16) with 65536. change (2 ^ 8) with 256.
  assert (H16 : (r * 65536 + g * 256 + b) / 65536 = r)
    by (Z.div_mod_to_equations; lia).
  assert (H8 : (r * 65536 + g * 256 + b) / 256 = r * 256 + g)
    by (Z.div_mod_to_equations; lia).
  rewrite H16, H8. rewrite !wrap32_small by lia.
  change 255 with (Z.ones 8). rewrite !Z.land_ones by lia.
  change (2 ^ 8) with 256. repeat split; Z.div_mod_to_equations; lia.
Qed.

Lemma number_of_channels (r g b : Z) :
  0 <= r <= 255 -> 0 <= g <= 255 -> 0 <= b <= 255 ->
  bor (bor (shl r 16) (shl g 8)) b = r * 65536 + g * 256 + b.
Proof.
  intros Hr Hg Hb. unfold bor, shl.
  change (16 mod 32) with 16. change (8 mod 32) with 8.
  rewrite (wrap32_small r), (wrap32_small g), (wrap32_small b) by lia.
  assert (Hs16 : Z.shiftl r 16 = r * 65536)
    by (now rewrite Z.shiftl_mul_pow2 by lia).
  assert (Hs8 : Z.shiftl g 8 = g * 256)
    by (now rewrite Z.shiftl_mul_pow2 by lia).
  assert (H1 : Z.lor (Z.shiftl r 16) (g * 256) = r * 65536 + g * 256).
  { rewrite lor_shiftl_low by (change (2 ^ 16) with 65536; lia).
    reflexivity. }
  assert (H2 : Z.lor (r * 65536 + g * 256) b = r * 65536 + g * 256 + b).
  { replace (r * 65536 + g * 256) with (Z.shiftl (r * 256 + g) 8)
      by (rewrite Z.shiftl_mul_pow2 by lia; change (2 ^ 8) with 256; lia).
    rewrite lor_shiftl_low by (change (2 ^ 8) with 256; lia).
    now rewrite Z.shiftl_mul_pow2 by lia. }
  rewrite Hs8, !(wrap32_small (g * 256)) by lia.
  rewrite !(wrap32_small (Z.shiftl r 16)) by (rewrite Hs16; lia).
  rewrite H1, wrap32_small by lia. exact H2.
Qed.

Lemma render_channels (r g b : Z) :
  0 <= r <= 255 -> 0 <= g <= 255 -> 0 <= b <= 255 ->
  padStart (toStringRadix (r * 65536 + g * 256 + b) 16) 6 "0"
  = hexByte r ++ hexByte g ++ hexByte b.
Proof.
  intros Hr Hg Hb.
  rewrite (padStart_toStringRadix 16 5) by (change (16 ^ Z.of_nat 6) with 16777216; lia).
  set (n := r * 65536 + g * 256 + b).
  unfold hexByte. cbn [fixedDigits append].
  assert (E0 : n mod 16 = b mod 16) by (subst n; Z.div_mod_to_equations; lia).
  assert (E1 : n / 16 mod 16 = b / 16) by (subst n; Z.div_mod_to_equations; lia).
  assert (E2 : n / 16 / 16 mod 16 = g mod 16)
    by (subst n; Z.div_mod_to_equations; lia).
  assert (E3 : n / 16 / 16 / 16 mod 16 = g / 16)
    by (subst n; Z.div_mod_to_equations; lia).
  assert (E4 : n / 16 / 16 / 16 / 16 mod 16 = r mod 16)
    by (subst n; Z.div_mod_to_equations; lia).
  assert (E5 : n / 16 / 16 / 16 / 16 / 16 mod 16 = r / 16)
    by (subst n; Z.div_mod_to_equations; lia).
  now rewrite E0, E1, E2, E3, E4, E5.
Qed.

Lemma clampChannel_max_min (v : Z) :
  Z.max (Z.min 255 v) 0 = clampChannel v /\ 0 <= clampChannel v <= 255.
Proof.
  unfold clampChannel. destruct (v <? 0) eqn:E1; [lia|].
  destruct (255 <? v) eqn:E2; lia.
Qed.

(** ** Six hexadecimal digits *)

Lemma hexBody_no_pound (c : ascii) (t : string) :
  c <> "#"%char ->
  hexBody (String c t) = String c t /\ hasPound (String c t) = false
  /\ startsWith (String c t) "#" = false
  /\ validHexColor (String c t) = isHex6 (String c t).
Proof.
  intro Hc. unfold startsWith. cbn [String.prefix].
  destruct (ascii_dec "#" c) as [E|_]; [congruence|].
  ascii_cases c; repeat split; try reflexivity; congruence.
Qed.

Lemma parseInt_pair (c1 c2 : ascii) (d1 d2 : Z) :
  isRadixDigit 16 c1 = true -> isRadixDigit 16 c2 = true ->
  digitValue c1 = Some d1 -> digitValue c2 = Some d2 ->
  parseInt (String c1 (String c2 "")) 16 = Some (d1 * 16 + d2).
Proof.
  intros H1 H2 E1 E2. rewrite parseInt_hex.
  - cbn [digitsValue]. rewrite E1, E2. f_equal.
  - discriminate.
  - cbn [allChars]. now rewrite H1, H2.
Qed.

Section SixDigits.

Variables c1 c2 c3 c4 c5 c6 : ascii.
Variables d1 d2 d3 d4 d5 d6 : Z.
Hypothesis H1 : isRadixDigit 16 c1 = true.
Hypothesis H2 : isRadixDigit 16 c2 = true.
Hypothesis H3 : isRadixDigit 16 c3 = true.
Hypothesis H4 : isRadixDigit 16 c4 = true.
Hypothesis H5 : isRadixDigit 16 c5 = true.
Hypothesis H6 : isRadixDigit 16 c6 = true.
Hypothesis E1 : digitValue c1 = Some d1.
Hypothesis E2 : digitValue c2 = Some d2.
Hypothesis E3 : digitValue c3 = Some d3.
Hypothesis E4 : digitValue c4 = Some d4.
Hypothesis E5 : digitValue c5 = Some d5.
Hypothesis E6 : digitValue c6 = Some d6.

Let body : string :=
  String c1 (String c2 (String c3 (String c4 (String c5 (String c6 ""))))).

Lemma six_digits_number :
  parseInt body 16
  = Some ((d1 * 16 + d2) * 65536 + (d3 * 16 + d4) * 256 + (d5 * 16 + d6)).
Proof.
  rewrite parseInt_hex.
  - subst body. cbn [digitsValue]. rewrite E1, E2, E3, E4, E5, E6.
    f_equal. lia.
  - discriminate.
  - subst body. cbn [allChars]. now rewrite H1, H2, H3, H4, H5, H6.
Qed.

Lemma six_digits_channels :
  isHex6 body = true
  /\ (forall pound : bool,
        let c := (if pound then "#" else "") ++ body in
        validHexColor c = true /\ hasPound c = pound
        /\ startsWith c "#" = pound /\ hexBody c = body
        /\ channel 0 c = Some (d1 * 16 + d2)
        /\ channel 1 c = Some (d3 * 16 + d4)
        /\ channel 2 c = Some (d5 * 16 + d6)).
Proof.
  assert (Hb : isHex6 body = true).
  { subst body. unfold isHex6. cbn [String.length Nat.eqb allChars].
    now rewrite H1, H2, H3, H4, H5, H6. }
  split; [exact Hb|]. intros pound c.
  destruct (hex_digit_facts c1 H1) as (v & _ & _ & _ & _ & _ & Hp & _).
  destruct (hexBody_no_pound c1
              (String c2 (String c3 (String c4 (String c5 (String c6 "")))))
              Hp) as (Hbody & Hpound & Hstart & Hvalid).
  fold body in Hbody, Hpound, Hstart, Hvalid.
  assert (Hc : hexBody c = body) by (subst c; now destruct pound).
  split; [subst c; destruct pound; cbn [append];
          [exact Hb | now rewrite Hvalid]|].
  split; [subst c; now destruct pound|].
  split; [subst c; now destruct pound|].
  split; [exact Hc|].
  unfold channel. rewrite Hc. subst body. cbn [slice String.substring Nat.mul Nat.add Nat.sub].
  repeat split; apply parseInt_pair; assumption.
Qed.

End SixDigits.

Lemma isHex6_chars (s : string) :
  isHex6 s = true ->
  exists c1 c2 c3 c4 c5 c6,
    s = String c1 (String c2 (String c3 (String c4 (String c5 (String c6 "")))))
    /\ isRadixDigit 16 c1 = true /\ isRadixDigit 16 c2 = true
    /\ isRadixDigit 16 c3 = true /\ isRadixDigit 16 c4 = true
    /\ isRadixDigit 16 c5 = true /\ isRadixDigit 16 c6 = true.
Proof.
  unfold isHex6. intro H. apply andb_true_iff in H as [Hl Hs].
  destruct s as [|c1 [|c2 [|c3 [|c4 [|c5 [|c6 [|c7 t]]]]]]];
    try discriminate Hl.
  cbn [allChars] in Hs.
  repeat (apply andb_true_iff in Hs as [? Hs]).
  exists c1, c2, c3, c4, c5, c6. repeat split; assumption.
Qed.

Lemma validHexColor_cases (c : string) :
  validHexColor c = true ->
  exists (pound : bool) (body : string),
    c = (if pound then "#" else "") ++ body /\ isHex6 body = true.
Proof.
  intro H. destruct c as [|c0 t].
  - discriminate H.
  - destruct (ascii_dec c0 "#") as [->|Hne].
    + exists true, t. split; [reflexivity|exact H].
    + exists false, (String c0 t). split; [reflexivity|].
      now rewrite <- (proj2 (proj2 (proj2 (hexBody_no_pound c0 t Hne)))).
Qed.

Lemma hexByte_nibbles (v : Z) :
  0 <= v <= 255 -> 0 <= v / 16 < 16 /\ 0 <= v mod 16 < 16
                   /\ v / 16 * 16 + v mod 16 = v.
Proof. intro Hv. Z.div_mod_to_equations. lia. Qed.

(** ** adjustColor *)

(** What [adjustColor] returns on six hexadecimal digits, with or without
    the number sign. *)
Lemma adjustColor_hex6 (pound : bool) (body : string) (a : Z) :
  isHex6 body = true ->
  exists r g b,
    0 <= r <= 255 /\ 0 <= g <= 255 /\ 0 <= b <= 255
    /\ channel 0 body = Some r /\ channel 1 body = Some g
    /\ channel 2 body = Some b
    /\ toLowerCase body = hexByte r ++ hexByte g ++ hexByte b
    /\ adjustColor ((if pound then "#" else "") ++ body) a
       = (if pound then "#" else "")
         ++ hexByte (clampChannel (r + a)) ++ hexByte (clampChannel (g + a))
         ++ hexByte (clampChannel (b + a)).
Proof.
  intro Hb.
  destruct (isHex6_chars body Hb)
    as (c1 & c2 & c3 & c4 & c5 & c6 & -> & H1 & H2 & H3 & H4 & H5 & H6).
  destruct (hex_digit_facts c1 H1) as (d1 & E1 & R1 & _ & _ & _ & _ & _ & _ & L1).
  destruct (hex_digit_facts c2 H2) as (d2 & E2 & R2 & _ & _ & _ & _ & _ & _ & L2).
  destruct (hex_digit_facts c3 H3) as (d3 & E3 & R3 & _ & _ & _ & _ & _ & _ & L3).
  destruct (hex_digit_facts c4 H4) as (d4 & E4 & R4 & _ & _ & _ & _ & _ & _ & L4).
  destruct (hex_digit_facts c5 H5) as (d5 & E5 & R5 & _ & _ & _ & _ & _ & _ & L5).
  destruct (hex_digit_facts c6 H6) as (d6 & E6 & R6 & _ & _ & _ & _ & _ & _ & L6).
  pose proof (six_digits_number c1 c2 c3 c4 c5 c6 d1 d2 d3 d4 d5 d6
                H1 H2 H3 H4 H5 H6 E1 E2 E3 E4 E5 E6) as Hnum.
  destruct (six_digits_channels c1 c2 c3 c4 c5 c6 d1 d2 d3 d4 d5 d6
              H1 H2 H3 H4 H5 H6 E1 E2 E3 E4 E5 E6) as [_ Hch].
  cbv zeta in Hnum, Hch.
  destruct (Hch false) as (_ & _ & _ & _ & C0 & C1 & C2).
  destruct (Hch pound) as (_ & _ & Hstart & Hbody & _).
  cbn [append] in C0, C1, C2.
  set (body := String c1 (String c2 (String c3 (String c4 (String c5 (String c6 "")))))) in *.
  set (r := d1 * 16 + d2) in *. set (g := d3 * 16 + d4) in *.
  set (b := d5 * 16 + d6) in *.
  assert (Hr : 0 <= r <= 255) by (subst r; lia).
  assert (Hg : 0 <= g <= 255) by (subst g; lia).
  assert (Hbl : 0 <= b <= 255) by (subst b; lia).
  exists r, g, b. repeat (split; [assumption|]). split.
  - subst body. cbn [toLowerCase]. unfold hexByte.
    assert (N : forall x y, 0 <= x < 16 -> 0 <= y < 16 ->
                (x * 16 + y) / 16 = x /\ (x * 16 + y) mod 16 = y)
      by (intros; Z.div_mod_to_equations; lia).
    subst r g b.
    destruct (N d1 d2 R1 R2) as [-> ->]. destruct (N d3 d4 R3 R4) as [-> ->].
    destruct (N d5 d6 R5 R6) as [-> ->].
    now rewrite L1, L2, L3, L4, L5, L6.
  - unfold adjustColor. rewrite Hstart.
    assert (Hhex : (if pound
                    then (sliceFrom ((if pound then "#" else "") ++ body) 1, true)
                    else ((if pound then "#" else "") ++ body, false))
                   = (body, pound)) by now destruct pound.
    rewrite Hhex. cbv beta iota zeta. rewrite Hnum.
    destruct (channels_of_number r g b Hr Hg Hbl) as (-> & -> & ->).
    destruct (clampChannel_max_min (r + a)) as [-> Cr].
    destruct (clampChannel_max_min (g + a)) as [-> Cg].
    destruct (clampChannel_max_min (b + a)) as [-> Cb].
    rewrite number_of_channels, render_channels by assumption.
    reflexivity.
Qed.

(** The color that three channels render to is a valid color with those
    channels. *)
Lemma hexBytes_color (pound : bool) (r g b : Z) :
  0 <= r <= 255 -> 0 <= g <= 255 -> 0 <= b <= 255 ->
  let c := (if pound then "#" else "") ++ hexByte r ++ hexByte g ++ hexByte b in
  validHexColor c = true /\ hasPound c = pound
  /\ channel 0 c = Some r /\ channel 1 c = Some g /\ channel 2 c = Some b.
Proof.
  intros Hr Hg Hb.
  destruct (hexByte_nibbles r Hr) as (Rh & Rl & Er).
  destruct (hexByte_nibbles g Hg) as (Gh & Gl & Eg).
  destruct (hexByte_nibbles b Hb) as (Bh & Bl & Eb).
  destruct (digitChar_is_hex _ Rh) as [X1 Y1].
  destruct (digitChar_is_hex _ Rl) as [X2 Y2].
  destruct (digitChar_is_hex _ Gh) as [X3 Y3].
  destruct (digitChar_is_hex _ Gl) as [X4 Y4].
  destruct (digitChar_is_hex _ Bh) as [X5 Y5].
  destruct (digitChar_is_hex _ Bl) as [X6 Y6].
  destruct (six_digits_channels _ _ _ _ _ _ _ _ _ _ _ _
              X1 X2 X3 X4 X5 X6 Y1 Y2 Y3 Y4 Y5 Y6) as [_ Hch].
  cbv zeta in Hch. destruct (Hch pound) as (V & P & _ & _ & C0 & C1 & C2).
  rewrite Er in C0. rewrite Eg in C1. rewrite Eb in C2.
  unfold hexByte. cbn [append]. cbn [append] in V, P, C0, C1, C2.
  repeat split; assumption.
Qed.

(** C7. For a valid six-digit hexadecimal color [c], with or without the
    number sign, and every integer [a], [adjustColor c a] is again a valid
    six-digit color, keeps the number sign exactly when [c] has one, and each
    of its three channels is the channel of [c] plus [a], clamped into
    0..255. *)
Theorem adjustColor_spec (c : string) (a : Z) :
  validHexColor c = true ->
  validHexColor (adjustColor c a) = true
  /\ hasPound (adjustColor c a) = hasPound c
  /\ forall i, (i < 3)%nat ->
       exists v, channel i c = Some v /\ 0 <= v <= 255
         /\ channel i (adjustColor c a) = Some (clampChannel (v + a))
         /\ 0 <= clampChannel (v + a) <= 255.
Proof.
  intro Hc. destruct (validHexColor_cases c Hc) as (pound & body & -> & Hb).
  destruct (adjustColor_hex6 pound body a Hb)
    as (r & g & b & Hr & Hg & Hbl & C0 & C1 & C2 & _ & ->).
  destruct (clampChannel_max_min (r + a)) as [_ Cr].
  destruct (clampChannel_max_min (g + a)) as [_ Cg].
  destruct (clampChannel_max_min (b + a)) as [_ Cb].
  destruct (hexBytes_color pound _ _ _ Cr Cg Cb) as (V & P & A0 & A1 & A2).
  assert (Hin : hasPound ((if pound then "#" else "") ++ body) = pound
                /\ hexBody ((if pound then "#" else "") ++ body) = hexBody body).
  { destruct (isHex6_chars body Hb) as (c1 & c2 & c3 & c4 & c5 & c6 & -> & H1 & _).
    destruct (hex_digit_facts c1 H1) as (v & _ & _ & _ & _ & _ & Hp & _).
    destruct (hexBody_no_pound c1
                (String c2 (String c3 (String c4 (String c5 (String c6 "")))))
                Hp) as (Hbody & Hpound & _).
    destruct pound; cbn [append]; [now rewrite Hbody|now rewrite Hpound]. }
  destruct Hin as [Hp Hbody].
  split; [exact V|]. split; [now rewrite P, Hp|].
  intros i Hi. unfold channel at 1. rewrite Hbody. fold (channel i body).
  destruct i as [|[|[|i]]]; [exists r|exists g|exists b|lia]; auto.
Qed.

Lemma adjustColor_spec_witness :
  validHexColor (adjustColor "#213220" (-35)) = true
  /\ hasPound (adjustColor "#213220" (-35)) = true
  /\ channel 1 (adjustColor "#213220" (-35)) = Some 15.
Proof.
  destruct (adjustColor_spec "#213220" (-35) eq_refl) as (V & P & C).
  split; [exact V|]. split; [exact P|].
  destruct (C 1%nat ltac:(lia)) as (v & Hv & _ & Hc & _).
  vm_compute in Hv. inversion Hv; subst v. exact Hc.
Defined.

(** C8. For a valid six-digit hexadecimal color [c], [adjustColor c 0] is
    [c] with its hexadecimal digits in lower case. *)
Theorem adjustColor_zero (c : string) :
  validHexColor c = true -> adjustColor c 0 = toLowerCase c.
Proof.
  intro Hc. destruct (validHexColor_cases c Hc) as (pound & body & -> & Hb).
  destruct (adjustColor_hex6 pound body 0 Hb)
    as (r & g & b & Hr & Hg & Hbl & _ & _ & _ & Hlow & ->).
  assert (Hz : forall v, 0 <= v <= 255 -> clampChannel (v + 0) = v).
  { intros v Hv. unfold clampChannel. rewrite Z.add_0_r.
    destruct (v <? 0) eqn:E1; [lia|]. destruct (255 <? v) eqn:E2; lia. }
  rewrite !Hz by assumption. rewrite <- Hlow. now destruct pound.
Qed.

Lemma adjustColor_zero_witness :
  adjustColor "#A3B18a" 0 = "#a3b18a" /\ adjustColor "DAD7CD" 0 = "dad7cd".
Proof.
  split.
  - exact (adjustColor_zero "#A3B18a" eq_refl).
  - exact (adjustColor_zero "DAD7CD" eq_refl).
Defined.

(** ** getTextColor *)

Lemma wB_value : wB = 9223372036854775808.
Proof. reflexivity. Qed.

Lemma forallFromInt_spec (p : int -> bool) (fuel : nat) (i : int) :
  forallFromInt fuel i p = true ->
  forall z, Uint63.to_Z i <= z < Uint63.to_Z i + Z.of_nat fuel -> z < wB ->
            p (Uint63.of_Z z) = true.
Proof.
  revert i. induction fuel as [|k IH]; intros i H z Hz Hw; [lia|].
  cbn [forallFromInt] in H. apply andb_true_iff in H as [Hi Hk].
  destruct (Z.eq_dec z (Uint63.to_Z i)) as [->|Hne].
  - now rewrite Uint63.of_to_Z.
  - apply (IH _ Hk); [|exact Hw].
    rewrite Uint63.add_spec. change (Uint63.to_Z 1) with 1.
    pose proof (Uint63.to_Z_bounded i). rewrite Z.mod_small by lia. lia.
Qed.

(** On all 2^24 colors the float luminance exceeds 128 exactly when the
    exact luminance does. *)
Lemma luminance_check :
  forallFromInt 256 0 (fun r =>
    forallFromInt 256 0 (fun g =>
      forallFromInt 256 0 (fun b => luminanceAgrees r g b))) = true.
Proof. vm_compute. reflexivity. Qed.

Lemma exact_side (r g b : Z) :
  0 <= r <= 255 -> 0 <= g <= 255 -> 0 <= b <= 255 ->
  (128000 <? 299 * Uint63.of_Z r + 587 * Uint63.of_Z g
             + 114 * Uint63.of_Z b)%uint63
  = (128000 <? 299 * r + 587 * g + 114 * b).
Proof.
  intros Hr Hg Hb. pose proof wB_value as HwB.
  assert (Hmul : forall k z, 0 <= k <= 1000 -> 0 <= z <= 255 ->
            Uint63.to_Z (Uint63.of_Z k * Uint63.of_Z z) = k * z).
  { intros k z Hk Hz.
    rewrite Uint63.mul_spec, !Uint63.of_Z_spec.
    rewrite (Z.mod_small k), (Z.mod_small z) by lia.
    apply Z.mod_small. nia. }
  pose proof (Hmul 299 r ltac:(lia) Hr) as M1.
  pose proof (Hmul 587 g ltac:(lia) Hg) as M2.
  pose proof (Hmul 114 b ltac:(lia) Hb) as M3.
  change (Uint63.of_Z 299) with 299%uint63 in M1.
  change (Uint63.of_Z 587) with 587%uint63 in M2.
  change (Uint63.of_Z 114) with 114%uint63 in M3.
  apply Bool.eq_iff_eq_true. rewrite Uint63.ltb_spec, Z.ltb_lt.
  rewrite !Uint63.add_spec, M1, M2, M3.
  change (Uint63.to_Z 128000) with 128000.
  rewrite (Z.mod_small (299 * r + 587 * g)) by lia.
  rewrite Z.mod_small by lia. reflexivity.
Qed.

Lemma luminance_exact (r g b : Z) :
  0 <= r <= 255 -> 0 <= g <= 255 -> 0 <= b <= 255 ->
  (128 <? luminance (Some r) (Some g) (Some b))%float
  = (128000 <? 299 * r + 587 * g + 114 * b).
Proof.
  intros Hr Hg Hb. pose proof wB_value as HwB.
  pose proof (forallFromInt_spec _ _ _ luminance_check r
                ltac:(change (Uint63.to_Z 0) with 0; lia) ltac:(lia)) as H1.
  cbv beta in H1.
  pose proof (forallFromInt_spec _ _ _ H1 g
                ltac:(change (Uint63.to_Z 0) with 0; lia) ltac:(lia)) as H2.
  cbv beta in H2.
  pose proof (forallFromInt_spec _ _ _ H2 b
                ltac:(change (Uint63.to_Z 0) with 0; lia) ltac:(lia)) as H3.
  cbv beta in H3. unfold luminanceAgrees in H3.
  apply Bool.eqb_prop in H3. rewrite exact_side in H3 by assumption.
  rewrite <- H3. unfold luminance, toFloat.
  destruct (r <? 0) eqn:Er; [lia|]. destruct (g <? 0) eqn:Eg; [lia|].
  destruct (b <? 0) eqn:Eb; [lia|]. reflexivity.
Qed.

Lemma luminanceQ_scaled (r g b : Z) :
  (inject_Z 128 < luminanceQ r g b)%Q
  <-> 128000 < 299 * r + 587 * g + 114 * b.
Proof.
  unfold luminanceQ, Qlt, Qplus, Qmult, inject_Z. cbn [Qnum Qden]. lia.
Qed.

Lemma channel_with_pound (i : nat) (body : string) :
  isHex6 body = true -> channel i (String "#" body) = channel i body.
Proof.
  intro Hb.
  destruct (isHex6_chars body Hb) as (c1 & c2 & c3 & c4 & c5 & c6 & -> & H1 & _).
  destruct (hex_digit_facts c1 H1) as (v & _ & _ & _ & _ & _ & Hp & _).
  destruct (hexBody_no_pound c1
              (String c2 (String c3 (String c4 (String c5 (String c6 "")))))
              Hp) as (Hbody & _).
  unfold channel. now rewrite Hbody.
Qed.

(** C9. [getTextColor] has only two results; on a six-digit color with the
    number sign it is the near-black token exactly when the luminance
    0.299 R + 0.587 G + 0.114 B of the channels exceeds 128, and the
    near-white token otherwise. *)
Theorem getTextColor_spec :
  (forall hex, getTextColor hex = "#000000" \/ getTextColor hex = "#ffffff")
  /\ (forall body r g b,
        isHex6 body = true ->
        channel 0 ("#" ++ body) = Some r ->
        channel 1 ("#" ++ body) = Some g ->
        channel 2 ("#" ++ body) = Some b ->
        ((inject_Z 128 < luminanceQ r g b)%Q ->
           getTextColor ("#" ++ body) = "#000000")
        /\ (~ (inject_Z 128 < luminanceQ r g b)%Q ->
              getTextColor ("#" ++ body) = "#ffffff")).
Proof.
  split.
  - intro hex. unfold getTextColor.
    destruct (PrimFloat.ltb _ _); [now left|now right].
  - intros body r g b Hb C0 C1 C2.
    destruct (adjustColor_hex6 true body 0 Hb)
      as (r' & g' & b' & Hr & Hg & Hbl & C0' & C1' & C2' & _).
    cbn [append] in C0, C1, C2.
    pose proof (channel_with_pound 0 body Hb) as P0.
    pose proof (channel_with_pound 1 body Hb) as P1.
    pose proof (channel_with_pound 2 body Hb) as P2.
    assert (Er : r' = r) by congruence.
    assert (Eg : g' = g) by congruence.
    assert (Eb : b' = b) by congruence.
    subst r' g' b'.
    unfold getTextColor. cbn [append].
    change (parseInt (slice (String "#" ?s) 1 3) 16) with (channel 0 (String "#" s)).
    change (parseInt (slice (String "#" ?s) 3 5) 16) with (channel 1 (String "#" s)).
    change (parseInt (slice (String "#" ?s) 5 7) 16) with (channel 2 (String "#" s)).
    rewrite C0, C1, C2, luminance_exact by assumption.
    rewrite luminanceQ_scaled.
    destruct (128000 <? 299 * r + 587 * g + 114 * b) eqn:E.
    + apply Z.ltb_lt in E. split; [reflexivity|]. intro N. now destruct N.
    + apply Z.ltb_ge in E. split; [lia|reflexivity].
Qed.

Lemma getTextColor_spec_witness :
  getTextColor "#808080" = "#ffffff" /\ getTextColor "#818181" = "#000000".
Proof.
  destruct getTextColor_spec as [_ H]. split.
  - destruct (H "808080" 128 128 128 eq_refl eq_refl eq_refl eq_refl) as [_ W].
    apply W. intro N. vm_compute in N. discriminate N.
  - destruct (H "818181" 129 129 129 eq_refl eq_refl eq_refl eq_refl) as [W _].
    apply W. vm_compute. reflexivity.
Defined.

(** ** Math.random *)

Lemma floor_of_draw (q : Q) (n : Z) :
  0 < n -> (0 <= q /\ q < 1)%Q -> 0 <= Qfloor (q * inject_Z n) < n.
Proof.
  intros Hn [H0 H1]. destruct q as [a b].
  unfold Qle, Qlt in *. cbn [Qnum Qden] in *.
  unfold Qmult, inject_Z, Qfloor. cbn [Qnum Qden].
  rewrite Pos.mul_1_r. split.
  - apply Z.div_pos; nia.
  - apply Z.div_lt_upper_bound; nia.
Qed.

Lemma random_valid (g : Rng) :
  validRng g ->
  (0 <= fst (random g) /\ fst (random g) < 1)%Q /\ validRng (snd (random g)).
Proof. intro Hg. split; [apply Hg|exact Hg]. Qed.

Lemma randomBelow_range (n : Z) (g : Rng) :
  0 < n -> validRng g ->
  0 <= fst (randomBelow n g) < n /\ validRng (snd (randomBelow n g)).
Proof.
  intros Hn Hg. unfold randomBelow.
  destruct (random g) as [q g'] eqn:E.
  destruct (random_valid g Hg) as [Hq Hg']. rewrite E in Hq, Hg'.
  cbn [fst snd] in *. split; [now apply floor_of_draw|exact Hg'].
Qed.

(** The binary64 products at the largest double below 1. *)
Lemma largest_draw_products :
  (PrimFloat.next_down 1 * 16777215 <? 16777215)%float = true
  /\ (PrimFloat.next_down 1 * 360 <? 360)%float = true
  /\ (PrimFloat.next_down 1 * 256 <? 256)%float = true.
Proof. repeat split; vm_compute; reflexivity. Qed.

(** Every value below the factor is the floor of some draw. *)
Lemma floor_of_draw_reaches (n v : Z) :
  0 <= v < n ->
  exists q : Q, (0 <= q /\ q < 1)%Q /\ Qfloor (q * inject_Z n) = v.
Proof.
  intro Hv. exists (v # Z.to_pos n).
  unfold Qle, Qlt, Qmult, inject_Z, Qfloor. cbn [Qnum Qden].
  rewrite Pos.mul_1_r, Z2Pos.id by lia. repeat split; try lia.
  apply Z.div_mul. lia.
Qed.

Lemma digitChar_f (x : Z) : 0 <= x < 16 -> digitChar x = "f"%char -> x = 15.
Proof.
  intros Hx E. destruct (digitChar_is_hex x Hx) as [_ V].
  rewrite E in V. now inversion V.
Qed.

(** Six digits that read ffffff denote 2^24 - 1. *)
Lemma fixedDigits_white (v : Z) :
  0 <= v < 16777216 -> fixedDigits 6 16 v "" = "ffffff" -> v = 16777215.
Proof.
  intros Hv E. cbn [fixedDigits] in E.
  injection E as E5 E4 E3 E2 E1 E0.
  apply digitChar_f in E0, E1, E2, E3, E4, E5;
    Z.div_mod_to_equations; lia.
Qed.

Lemma number_channels (v : Z) :
  0 <= v < 16777216 ->
  exists r g b, 0 <= r <= 255 /\ 0 <= g <= 255 /\ 0 <= b <= 255
                /\ v = r * 65536 + g * 256 + b.
Proof.
  intro Hv. exists (v / 65536), (v / 256 mod 256), (v mod 256).
  Z.div_mod_to_equations. lia.
Qed.

Lemma randomColor_spec (g : Rng) :
  validRng g ->
  validHexColor (fst (randomColor g)) = true
  /\ hasPound (fst (randomColor g)) = true
  /\ fst (randomColor g) <> "#ffffff"
  /\ validRng (snd (randomColor g))
  /\ cursor (snd (randomColor g)) = S (cursor g).
Proof.
  intro Hg. unfold randomColor.
  destruct (randomBelow_range 16777215 g ltac:(lia) Hg) as [Hv Hg'].
  assert (Hc : cursor (snd (randomBelow 16777215 g)) = S (cursor g))
    by reflexivity.
  destruct (randomBelow 16777215 g) as [v g'] eqn:E. cbn [fst snd] in *.
  destruct (number_channels v ltac:(lia)) as (r & gr & b & Hr & Hgr & Hb & Ev).
  destruct (hexBytes_color true r gr b Hr Hgr Hb) as (V & P & _).
  cbn [append] in V, P. pose proof (render_channels r gr b Hr Hgr Hb) as R.
  rewrite <- Ev in R. cbn [append]. rewrite R.
  split; [exact V|]. split; [exact P|].
  split; [|split; [exact Hg'|exact Hc]].
  intro W. rewrite <- R in W. inversion W as [W'].
  rewrite (padStart_toStringRadix 16 5) in W'
    by (change (16 ^ Z.of_nat 6) with 16777216; lia).
  apply fixedDigits_white in W'; lia.
Qed.

(** ** The randomized palette *)

Lemma arrayFromN_randomColor (n : nat) (g : Rng) :
  validRng g ->
  List.length (fst (arrayFromN n randomColor g)) = n
  /\ Forall (fun c => validHexColor c = true /\ c <> "#ffffff")
            (fst (arrayFromN n randomColor g))
  /\ validRng (snd (arrayFromN n randomColor g))
  /\ cursor (snd (arrayFromN n randomColor g)) = (cursor g + n)%nat.
Proof.
  revert g. induction n as [|n IH]; intros g Hg.
  - cbn. repeat split; auto; apply Hg.
  - cbn [arrayFromN].
    destruct (randomColor_spec g Hg) as (V & _ & W & Hg1 & Hc1).
    destruct (randomColor g) as [c g1]. cbn [fst snd] in *.
    destruct (IH g1 Hg1) as (L & F & Hg2 & Hc2).
    destruct (arrayFromN n randomColor g1) as [l g2]. cbn [fst snd] in *.
    split; [cbn; lia|]. split; [constructor; auto|].
    split; [exact Hg2|lia].
Qed.

(** The earlier script could draw white. *)
Lemma legacy_randomHexColor_white :
  fst (Legacy.randomHexColor (constantRng (255 # 256))) = "#ffffff".
Proof. vm_compute. reflexivity. Qed.

(** C2. With [useRandomColors] the palette has [colorCount] colors, each a
    valid six-digit color drawn as floor(random * 16777215), and an integer
    angle from 0 to 359; one draw per color and one for the angle.  No draw
    gives the color ffffff: the factor is 2^24 - 1 where the full 24-bit
    range needs 2^24. *)
Theorem random_palette_never_white (config : ThemeConfig) (g : Rng) :
  useRandomColors config = true ->
  validRng g ->
  let palette := fst (colorsToUse config g) in
  let g1 := snd (colorsToUse config g) in
  List.length palette = Z.to_nat (colorCount config)
  /\ Forall (fun c => validHexColor c = true /\ c <> "#ffffff") palette
  /\ (exists a, 0 <= a < 360
        /\ fst (direction config g1) = toStringRadix a 10 ++ "deg")
  /\ cursor (snd (direction config g1))
     = (cursor g + Z.to_nat (colorCount config) + 1)%nat.
Proof.
  intros Hr Hg palette g1. subst palette g1.
  unfold colorsToUse, direction, arrayFrom. rewrite Hr.
  destruct (arrayFromN_randomColor (Z.to_nat (colorCount config)) g Hg)
    as (L & F & Hg1 & Hc1).
  destruct (arrayFromN (Z.to_nat (colorCount config)) randomColor g)
    as [l g1]. cbn [fst snd] in *.
  destruct (randomBelow_range 360 g1 ltac:(lia) Hg1) as [Ha _].
  assert (Hc : cursor (snd (randomBelow 360 g1)) = S (cursor g1))
    by reflexivity.
  destruct (randomBelow 360 g1) as [a g2]. cbn [fst snd] in *.
  split; [exact L|]. split; [exact F|].
  split; [exists a; split; [exact Ha|reflexivity]|lia].
Qed.

Lemma random_palette_never_white_witness :
  fst (colorsToUse (randomConfig 1) (constantRng largestDraw)) = ["#fffffe"]
  /\ Forall (fun c => validHexColor c = true /\ c <> "#ffffff")
            (fst (colorsToUse (randomConfig 1) (constantRng largestDraw))).
Proof.
  split; [vm_compute; reflexivity|].
  assert (Hg : validRng (constantRng largestDraw)).
  { intro i. split; [discriminate|reflexivity]. }
  exact (proj1 (proj2 (random_palette_never_white (randomConfig 1)
                         (constantRng largestDraw) eq_refl Hg))).
Defined.

(** ** The theme compiler *)

(** The compiler reads the document only through its theme mode. *)
Lemma generateThemeCSS_mode (doc1 doc2 : Document) (config : ThemeConfig)
  (g : Rng) :
  detectThemeMode doc1 = detectThemeMode doc2 ->
  generateThemeCSS doc1 config g = generateThemeCSS doc2 config g.
Proof. intro H. unfold generateThemeCSS. now rewrite H. Qed.



(** C3. When the resolved color list is not empty the stylesheet opens
    with the background declaration, whose value is the only color when
    there is exactly one, and otherwise the linear-gradient expression over
    the resolved direction and the colors joined by commas in their order,
    the first color first. *)
Theorem generateThemeCSS_background (doc : Document) (config : ThemeConfig)
  (g : Rng) (mainColor : string) (others : list string) :
  fst (colorsToUse config g) = mainColor :: others ->
  let direction := fst (direction config (snd (colorsToUse config g))) in
  let backgroundValue :=
    match others with
    | [] => mainColor
    | _ :: _ =>
        "linear-gradient(" ++ direction ++ ", "
        ++ (mainColor ++ ", " ++ join ", " others) ++ ")"
    end in
  exists rest,
    fst (generateThemeCSS doc config g)
    = nl ++ "    .custom-theme-background {" ++ nl
      ++ "        --custom-theme-background: " ++ backgroundValue
      ++ " !important;" ++ nl ++ rest.
Proof.
  intros Hc dir bg. subst dir bg. unfold generateThemeCSS.
  destruct (colorsToUse config g) as [l g1]. cbn [fst snd] in *. subst l.
  destruct (direction config g1) as [d g2]. cbn [fst snd].
  unfold themeCSS. eexists.
  destruct others as [|c2 others]; cbn [List.length Nat.ltb Nat.leb];
    reflexivity.
Qed.

Lemma generateThemeCSS_background_witness :
  exists rest,
    fst (generateThemeCSS hostPage
           (fixedConfig 1 ["#588157"; "#a3b18a"] "45deg") (constantRng 0))
    = nl ++ "    .custom-theme-background {" ++ nl
      ++ "        --custom-theme-background: #588157 !important;" ++ nl ++ rest.
Proof.
  exact (generateThemeCSS_background hostPage
           (fixedConfig 1 ["#588157"; "#a3b18a"] "45deg") (constantRng 0)
           "#588157" [] eq_refl).
Defined.


(** C5. The colors 213220 and 344e41 at 90deg compile, in dark mode, to a
    gradient over exactly these two colors in this order at 90deg, the dark
    variant [adjustColor] by -35 (000f00), the light variant [adjustColor]
    by 130 (a3b4a2) and the amounts 70.4% and 30%; in light mode the amounts
    are 15.2% and 40%. *)
Theorem generateThemeCSS_default_pair (doc : Document) (g : Rng) :
  let config := {| colorCount := 2; colors := ["#213220"; "#344e41"];
                   gradientDirection := "90deg"; useRandomColors := false |} in
  let css (base text : string) :=
    cssLines
      [""; "    .custom-theme-background {";
       "        --custom-theme-background: linear-gradient(90deg, #213220, #344e41) !important;";
       "        --custom-theme-base-color-dark: " ++ adjustColor "#213220" (-35) ++ " !important;";
       "        --custom-theme-text-color-dark: #ffffff !important;";
       "        --custom-theme-base-color-light: " ++ adjustColor "#213220" 130 ++ " !important;";
       "        --custom-theme-text-color-light: #000000 !important;";
       "        --custom-theme-base-color-amount: " ++ base ++ "%;";
       "        --custom-theme-text-color-amount: " ++ text ++ "%;";
       "    }"; "    body { ";
       "      background: var(--custom-theme-background); ";
       "    }"; "  "] in
  adjustColor "#213220" (-35) = "#000f00"
  /\ adjustColor "#213220" 130 = "#a3b4a2"
  /\ (detectThemeMode doc = dark ->
      generateThemeCSS doc config g = (css "70.4" "30", g))
  /\ (detectThemeMode doc = light ->
      generateThemeCSS doc config g = (css "15.2" "40", g)).
Proof.
  intros config css. split; [reflexivity|]. split; [reflexivity|].
  unfold generateThemeCSS. split; intros ->; reflexivity.
Qed.

Lemma generateThemeCSS_default_pair_witness :
  includes
    (fst (generateThemeCSS hostPage
            (fixedConfig 2 ["#213220"; "#344e41"] "90deg") (constantRng 0)))
    "--custom-theme-base-color-amount: 70.4%;" = true.
Proof.
  destruct (generateThemeCSS_default_pair hostPage (constantRng 0))
    as (_ & _ & D & _).
  unfold fixedConfig. rewrite (D eq_refl). reflexivity.
Defined.

(** C10. Without [useRandomColors] the compiled text depends on the
    configuration and the host mode only: two documents in the same mode and
    any two states of the generator give the same text, and the generator is
    left as it was. *)
Theorem generateThemeCSS_deterministic (config : ThemeConfig)
  (doc1 doc2 : Document) (g1 g2 : Rng) :
  useRandomColors config = false ->
  detectThemeMode doc1 = detectThemeMode doc2 ->
  fst (generateThemeCSS doc1 config g1) = fst (generateThemeCSS doc2 config g2)
  /\ snd (generateThemeCSS doc1 config g1) = g1.
Proof.
  intros Hr Hm. unfold generateThemeCSS, colorsToUse, direction.
  rewrite Hr, Hm.
  destruct (arraySlice0 (colors config) (colorCount config)) as [|c l];
    split; reflexivity.
Qed.

Lemma generateThemeCSS_deterministic_witness :
  fst (generateThemeCSS hostPage DEFAULT_THEME_CONFIG (constantRng 0))
  = fst (generateThemeCSS
           (hostSetsClasses ["custom-theme-background"] hostPage)
           DEFAULT_THEME_CONFIG (constantRng (1 # 2))).
Proof.
  exact (proj1 (generateThemeCSS_deterministic DEFAULT_THEME_CONFIG hostPage
                  (hostSetsClasses ["custom-theme-background"] hostPage)
                  (constantRng 0) (constantRng (1 # 2)) eq_refl eq_refl)).
Defined.

(** ** The DOM applier and the persistence observer *)

Lemma contains_add (l : list string) (t : string) :
  contains (add l t) t = true.
Proof.
  unfold add. destruct (contains l t) eqn:E; [exact E|].
  unfold contains. rewrite existsb_app. cbn. rewrite String.eqb_refl.
  apply orb_true_iff. right. reflexivity.
Qed.

Lemma contains_add_keeps (l : list string) (t u : string) :
  contains l u = true -> contains (add l t) u = true.
Proof.
  intro H. unfold add. destruct (contains l t); [exact H|].
  unfold contains in *. rewrite existsb_app, H. reflexivity.
Qed.

Lemma applyTheme_spec (config : ThemeConfig) (doc : Document) (g : Rng) :
  head doc = true ->
  themed (fst (applyTheme config doc g)) = true
  /\ styleElement (fst (applyTheme config doc g))
     = Some (fst (generateThemeCSS doc config g))
  /\ snd (applyTheme config doc g) = snd (generateThemeCSS doc config g).
Proof.
  intro H. unfold applyTheme. rewrite H. cbn [negb].
  destruct (generateThemeCSS doc config g) as [css g1]. cbn [fst snd].
  unfold themed. cbn [classList styleElement].
  split; [apply contains_add|split; reflexivity].
Qed.





(** C1, as the claim has it, fails: after the default theme has been
    applied and the host page has removed both the style element and the
    activation class, the callback restores neither. *)
Lemma persistenceObserver_restores_nothing :
  ~ restoresBoth
      (fst (generateThemeCSS hostPage DEFAULT_THEME_CONFIG (constantRng 0)))
      (hostSetsClasses ["app"; "theme-dark"]
         (hostRemovesStyle
            (fst (applyTheme DEFAULT_THEME_CONFIG hostPage (constantRng 0))))).
Proof.
  intro H. destruct H as [_ H]; [left; reflexivity|]. discriminate H.
Qed.

(** C1, amended.  One callback of the observer never touches the style
    element or its text.  When the style element is present the root carries
    the activation class after the callback; when the style element is
    missing, or the class is present, the callback changes nothing.  So after
    a theme has been applied and the host page has rewritten the class
    attribute, one callback leaves the page with the class and with the very
    text of that apply, without compiling and without a draw. *)
Theorem persistenceObserver_spec :
  (forall doc,
     let doc' := persistenceObserver doc in
     styleElement doc' = styleElement doc
     /\ head doc' = head doc
     /\ (styleElement doc <> None -> themed doc' = true)
     /\ (styleElement doc = None -> doc' = doc)
     /\ (themed doc = true -> doc' = doc)
     /\ (forall t, contains (classList doc) t = true ->
                   contains (classList doc') t = true))
  /\ (forall config doc g l,
        head doc = true ->
        let doc' :=
          persistenceObserver (hostSetsClasses l (fst (applyTheme config doc g))) in
        themed doc' = true
        /\ styleElement doc' = Some (fst (generateThemeCSS doc config g))).
Proof.
  assert (A : forall doc,
     let doc' := persistenceObserver doc in
     styleElement doc' = styleElement doc
     /\ head doc' = head doc
     /\ (styleElement doc <> None -> themed doc' = true)
     /\ (styleElement doc = None -> doc' = doc)
     /\ (themed doc = true -> doc' = doc)
     /\ (forall t, contains (classList doc) t = true ->
                   contains (classList doc') t = true)).
  { intros doc doc'. subst doc'. unfold persistenceObserver, themed.
    destruct (contains (classList doc) THEME_CLASS_NAME) eqn:Hc;
      destruct (styleElement doc) as [css|] eqn:Hs; cbn [negb andb];
      cbn [classList head styleElement];
      repeat split; try congruence; try discriminate.
    - intros _. apply contains_add.
    - intros t Ht. now apply contains_add_keeps. }
  split; [exact A|].
  intros config doc g l Hh doc'.
  destruct (applyTheme_spec config doc g Hh) as (_ & Hs & _).
  destruct (A (hostSetsClasses l (fst (applyTheme config doc g))))
    as (S1 & _ & T1 & _).
  fold doc' in S1, T1. cbn [hostSetsClasses styleElement] in S1, T1.
  rewrite Hs in S1, T1. split; [apply T1; discriminate|exact S1].
Qed.

Lemma persistenceObserver_spec_witness :
  themed
    (persistenceObserver
       (hostSetsClasses ["app"; "theme-dark"]
          (fst (applyTheme (randomConfig 3) hostPage (constantRng (1 # 3))))))
  = true
  /\ styleElement
       (persistenceObserver
          (hostSetsClasses ["app"; "theme-dark"]
             (fst (applyTheme (randomConfig 3) hostPage (constantRng (1 # 3))))))
     = Some (fst (generateThemeCSS hostPage (randomConfig 3)
                    (constantRng (1 # 3)))).
Proof.
  exact (proj2 persistenceObserver_spec (randomConfig 3) hostPage
           (constantRng (1 # 3)) ["app"; "theme-dark"] eq_refl).
Defined.

(** * Further properties of the engine *)

(** ** The degree sanitizer, on every input *)

Lemma degrees_digits (n : Z) :
  0 <= n <= 360 ->
  allChars isDigit (toStringRadix n 10) = true
  /\ toStringRadix n 10 <> ""
  /\ digitsValue 10 (toStringRadix n 10) 0 = n.
Proof.
  intro Hn.
  assert (H : forallFrom 361 0
                (fun z => allChars isDigit (toStringRadix z 10)
                          && negb (String.eqb (toStringRadix z 10) "")
                          && (digitsValue 10 (toStringRadix z 10) 0 =? z))
              = true) by (vm_compute; reflexivity).
  pose proof (forallFrom_spec _ _ _ H n ltac:(lia)) as Hz. cbv beta in Hz.
  apply andb_true_iff in Hz as [Hz H3]. apply andb_true_iff in Hz as [H1 H2].
  split; [exact H1|]. split; [|now apply Z.eqb_eq].
  apply String.eqb_neq. now apply negb_true_iff.
Qed.

Lemma sanitize_value (d : string) :
  exists n, 0 <= n <= 360
    /\ sanitizeGradientDirection d = toStringRadix n 10 ++ "deg".
Proof.
  unfold sanitizeGradientDirection.
  destruct (matchDegrees d) as [ds|] eqn:E.
  - apply matchDegrees_Some in E. destruct E as (_ & Hne & Hds).
    rewrite (parseInt_decimal ds Hne Hds).
    cbn [mathMax mathMin option_map numberToString].
    rewrite clampDegrees_min_max.
    exists (clampDegrees (digitsValue 10 ds 0)).
    split; [apply clampDegrees_range|reflexivity].
  - exists 90. split; [lia|reflexivity].
Qed.

Lemma sanitize_degrees (d : string) :
  exists digits,
    degreesString (sanitizeGradientDirection d) digits
    /\ 0 <= digitsValue 10 digits 0 <= 360.
Proof.
  destruct (sanitize_value d) as (n & Hn & ->).
  destruct (degrees_digits n Hn) as (H1 & H2 & H3).
  exists (toStringRadix n 10). split; [|now rewrite H3].
  unfold degreesString. auto.
Qed.

Lemma colorsToUse_validRng (config : ThemeConfig) (g : Rng) :
  validRng g -> validRng (snd (colorsToUse config g)).
Proof.
  intro V. unfold colorsToUse, arrayFrom.
  destruct (useRandomColors config); [|exact V].
  now destruct (arrayFromN_randomColor (Z.to_nat (colorCount config)) g V)
    as (_ & _ & V' & _).
Qed.

Lemma direction_degrees (config : ThemeConfig) (g : Rng) :
  validRng g ->
  exists digits,
    degreesString (fst (direction config g)) digits
    /\ 0 <= digitsValue 10 digits 0 <= 360.
Proof.
  intro V. unfold direction. destruct (useRandomColors config).
  - destruct (randomBelow_range 360 g ltac:(lia) V) as [Hv _].
    destruct (randomBelow 360 g) as [v g1]. cbn [fst] in *.
    destruct (degrees_digits v ltac:(lia)) as (H1 & H2 & H3).
    exists (toStringRadix v 10). split; [|rewrite H3; lia].
    unfold degreesString. auto.
  - cbn [fst]. apply sanitize_degrees.
Qed.

(** *** The engine with the RangeError, where it returns *)

Lemma strict_colorsToUse_Some (config : ThemeConfig) (g : Rng)
  (r : list string * Rng) :
  Strict.colorsToUse config g = Some r -> r = colorsToUse config g.
Proof.
  unfold Strict.colorsToUse, Strict.arrayFrom, colorsToUse.
  destruct (useRandomColors config).
  - destruct (4294967296 <=? colorCount config); congruence.
  - congruence.
Qed.

Lemma strict_colorsToUse (config : ThemeConfig) (g : Rng) :
  Strict.colorsToUse config g
  = if compiles config then Some (colorsToUse config g) else None.
Proof.
  unfold Strict.colorsToUse, Strict.arrayFrom, colorsToUse, compiles.
  destruct (useRandomColors config); cbn [negb orb]; [|reflexivity].
  destruct (Z.leb_spec 4294967296 (colorCount config));
    destruct (Z.ltb_spec (colorCount config) 4294967296);
    try reflexivity; lia.
Qed.

Lemma strict_generateThemeCSS (doc : Document) (config : ThemeConfig)
  (g : Rng) :
  Strict.generateThemeCSS doc config g
  = if compiles config then Some (generateThemeCSS doc config g) else None.
Proof.
  unfold Strict.generateThemeCSS, generateThemeCSS.
  rewrite strict_colorsToUse. destruct (compiles config); [|reflexivity].
  destruct (colorsToUse config g) as [[|c l] g1]; [reflexivity|].
  destruct (direction config g1) as [d g2]. reflexivity.
Qed.

Lemma strict_applyTheme (config : ThemeConfig) (doc : Document) (g : Rng) :
  compiles config = true ->
  Strict.applyTheme config doc g = Strict.Returned (applyTheme config doc g).
Proof.
  intro H. unfold Strict.applyTheme, applyTheme.
  destruct (head doc) eqn:Hh; cbn [negb]; [|reflexivity].
  rewrite strict_generateThemeCSS, H.
  unfold generateThemeCSS, detectThemeMode, className.
  cbn [classList head].
  destruct (colorsToUse config g) as [[|c l] g1]; [reflexivity|].
  destruct (direction config g1) as [d g2]. reflexivity.
Qed.

Lemma strict_step (e : ContentScript.Event) (p : ContentScript.Page) :
  eventCompiles e = true -> Strict.step e p = ContentScript.step e p.
Proof.
  destruct e as [ok m|classes|]; intro H; [|reflexivity|reflexivity].
  cbn [Strict.step ContentScript.step eventCompiles] in *.
  destruct (ContentScript.listening p); [|reflexivity].
  unfold Strict.handleMessages, ContentScript.handleMessages.
  destruct (String.eqb (ContentScript.action m) "updateTheme");
    [|reflexivity].
  cbn [negb orb] in H. rewrite (strict_applyTheme _ _ _ H).
  reflexivity.
Qed.

Lemma strict_run (events : list ContentScript.Event)
  (p : ContentScript.Page) :
  forallb eventCompiles events = true ->
  Strict.run events p = ContentScript.run events p.
Proof.
  unfold Strict.run, ContentScript.run. revert p.
  induction events as [|e events IH]; intros p H; [reflexivity|].
  cbn [forallb] in H. apply andb_prop in H. destruct H as [He Hs].
  cbn [fold_left]. rewrite (strict_step e p He). now apply IH.
Qed.

Lemma strict_main (ok : bool) (p : ContentScript.Page) :
  storedCompiles ok (ContentScript.sync p) = true ->
  Strict.main ok p = ContentScript.main ok p.
Proof.
  unfold storedCompiles, Strict.main, ContentScript.main.
  destruct (Storage.getThemeConfig ok (ContentScript.sync p)) as [c|];
    intro H; [|reflexivity].
  rewrite (strict_applyTheme _ _ _ H).
  now destruct (applyTheme c (ContentScript.document p) (ContentScript.rng p)).
Qed.

(** X1. Whatever the input, the sanitizer returns a string that
    [^\d+deg$] matches and whose number lies in 0..360; and whenever the
    compiler resolves two colors or more, so that it writes a gradient into
    the stylesheet, it returns, and the direction of that gradient is such a
    string: decimal digits of a number in 0..360 followed by deg, whether
    the configuration is randomized or not and whatever it holds as its
    direction. *)
Theorem sanitizeGradientDirection_safe :
  (forall d,
     exists digits,
       degreesString (sanitizeGradientDirection d) digits
       /\ 0 <= digitsValue 10 digits 0 <= 360)
  /\ (forall doc config g g1 mainColor second others,
        validRng g ->
        Strict.colorsToUse config g
        = Some (mainColor :: second :: others, g1) ->
        exists digits rest g2,
          allChars isDigit digits = true /\ digits <> ""
          /\ 0 <= digitsValue 10 digits 0 <= 360
          /\ Strict.generateThemeCSS doc config g
             = Some (nl ++ "    .custom-theme-background {" ++ nl
                     ++ "        --custom-theme-background: "
                     ++ ("linear-gradient(" ++ (digits ++ "deg") ++ ", "
                         ++ join ", " (mainColor :: second :: others) ++ ")")
                     ++ " !important;" ++ nl ++ rest, g2)).
Proof.
  split; [exact sanitize_degrees|].
  intros doc config g g1 mainColor second others V Hc.
  pose proof (colorsToUse_validRng config g V) as V1.
  rewrite <- (strict_colorsToUse_Some config g _ Hc) in V1. cbn [snd] in V1.
  destruct (direction_degrees config g1 V1)
    as (digits & (Hd & Hne & Hds) & Hv).
  exists digits. unfold Strict.generateThemeCSS. rewrite Hc.
  destruct (direction config g1) as [d g2]. cbn [fst] in *. subst d.
  unfold themeCSS. eexists. exists g2.
  repeat split; try assumption; try apply Hv.
Qed.

Lemma sanitizeGradientDirection_safe_witness :
  exists digits rest g2,
    allChars isDigit digits = true /\ digits <> ""
    /\ 0 <= digitsValue 10 digits 0 <= 360
    /\ Strict.generateThemeCSS hostPage
         (fixedConfig 2 ["#213220"; "#344e41"]
            "90deg, red); } body { display: none; } x { y: z(")
         (constantRng 0)
       = Some (nl ++ "    .custom-theme-background {" ++ nl
               ++ "        --custom-theme-background: "
               ++ ("linear-gradient(" ++ (digits ++ "deg") ++ ", "
                   ++ join ", " ["#213220"; "#344e41"] ++ ")")
               ++ " !important;" ++ nl ++ rest, g2).
Proof.
  apply (proj2 sanitizeGradientDirection_safe hostPage
           (fixedConfig 2 ["#213220"; "#344e41"]
              "90deg, red); } body { display: none; } x { y: z(")
           (constantRng 0) (constantRng 0) "#213220" "#344e41" []).
  - intro i. split; [discriminate|reflexivity].
  - reflexivity.
Defined.

(** X2. The sanitizer is idempotent: sanitizing its own result changes
    nothing. *)
Theorem sanitizeGradientDirection_idempotent (d : string) :
  sanitizeGradientDirection (sanitizeGradientDirection d)
  = sanitizeGradientDirection d.
Proof.
  destruct (sanitize_value d) as (n & Hn & ->).
  destruct (degrees_digits n Hn) as (H1 & H2 & H3).
  unfold sanitizeGradientDirection.
  assert (M : matchDegrees (toStringRadix n 10 ++ "deg")
              = Some (toStringRadix n 10)).
  { apply matchDegrees_Some. unfold degreesString. auto. }
  rewrite M, (parseInt_decimal _ H2 H1), H3.
  cbn [mathMax mathMin option_map numberToString].
  rewrite clampDegrees_min_max. unfold clampDegrees.
  destruct (n <? 0) eqn:E1; [lia|]. destruct (360 <? n) eqn:E2; [lia|].
  reflexivity.
Qed.

(** ** adjustColor, on every input *)

Lemma hexBytes_body (r g b : Z) :
  0 <= r <= 255 -> 0 <= g <= 255 -> 0 <= b <= 255 ->
  let body := hexByte r ++ hexByte g ++ hexByte b in
  isHex6 body = true
  /\ channel 0 body = Some r /\ channel 1 body = Some g
  /\ channel 2 body = Some b.
Proof.
  intros Hr Hg Hb.
  destruct (hexByte_nibbles r Hr) as (Rh & Rl & Er).
  destruct (hexByte_nibbles g Hg) as (Gh & Gl & Eg).
  destruct (hexByte_nibbles b Hb) as (Bh & Bl & Eb).
  destruct (digitChar_is_hex _ Rh) as [X1 Y1].
  destruct (digitChar_is_hex _ Rl) as [X2 Y2].
  destruct (digitChar_is_hex _ Gh) as [X3 Y3].
  destruct (digitChar_is_hex _ Gl) as [X4 Y4].
  destruct (digitChar_is_hex _ Bh) as [X5 Y5].
  destruct (digitChar_is_hex _ Bl) as [X6 Y6].
  destruct (six_digits_channels _ _ _ _ _ _ _ _ _ _ _ _
              X1 X2 X3 X4 X5 X6 Y1 Y2 Y3 Y4 Y5 Y6) as [I Hch].
  cbv zeta in I, Hch. destruct (Hch false) as (_ & _ & _ & _ & C0 & C1 & C2).
  rewrite Er in C0. rewrite Eg in C1. rewrite Eb in C2.
  unfold hexByte. cbn [append]. cbn [append] in I, C0, C1, C2.
  repeat split; assumption.
Qed.

Lemma adjustColor_any (hex : string) (amount : Z) :
  validHexColor (adjustColor hex amount) = true
  /\ hasPound (adjustColor hex amount) = startsWith hex "#".
Proof.
  unfold adjustColor.
  set (p := startsWith hex "#").
  set (h := if p then (sliceFrom hex 1, true) else (hex, false)).
  assert (Hh : snd h = p) by (subst h; now destruct p).
  destruct h as [h usePound]. cbn [snd] in Hh. subst usePound.
  cbv beta iota zeta.
  set (num := ToInt32 (parseInt h 16)).
  destruct (clampChannel_max_min (sar num 16 + amount)) as [-> Cr].
  destruct (clampChannel_max_min (band (sar num 8) 255 + amount)) as [-> Cg].
  destruct (clampChannel_max_min (band num 255 + amount)) as [-> Cb].
  rewrite number_of_channels, render_channels by assumption.
  destruct (hexBytes_color p _ _ _ Cr Cg Cb) as (V & P & _).
  split; assumption.
Qed.

(** X3. [adjustColor] returns a valid six-digit color for every input
    string and every amount, also when the input is no color at all, and
    the result has the number sign exactly when the input starts with
    one. *)
Theorem adjustColor_total (hex : string) (amount : Z) :
  validHexColor (adjustColor hex amount) = true
  /\ hasPound (adjustColor hex amount) = startsWith hex "#".
Proof. exact (adjustColor_any hex amount). Qed.

Lemma clampChannel_twice (v a b : Z) :
  0 <= v <= 255 ->
  (0 <= a /\ 0 <= b) \/ (a <= 0 /\ b <= 0) ->
  clampChannel (clampChannel (v + a) + b) = clampChannel (v + (a + b)).
Proof.
  intros Hv Hs. unfold clampChannel.
  destruct (v + a <? 0) eqn:E1; destruct (255 <? v + a) eqn:E2;
    destruct (v + (a + b) <? 0) eqn:E3; destruct (255 <? v + (a + b)) eqn:E4;
    repeat match goal with
           | |- context [?x <? ?y] => destruct (x <? y) eqn:?
           end; lia.
Qed.

(** X4. Two adjustments of a valid color in the same direction compose:
    adjusting by [a] and then by [b] is adjusting by [a + b] when both
    amounts are non-negative or both non-positive. *)
Theorem adjustColor_compose (c : string) (a b : Z) :
  validHexColor c = true ->
  (0 <= a /\ 0 <= b) \/ (a <= 0 /\ b <= 0) ->
  adjustColor (adjustColor c a) b = adjustColor c (a + b).
Proof.
  intros Hc Hs. destruct (validHexColor_cases c Hc) as (pound & body & -> & Hb).
  destruct (adjustColor_hex6 pound body a Hb)
    as (r & g & bl & Hr & Hg & Hbl & C0 & C1 & C2 & _ & ->).
  destruct (adjustColor_hex6 pound body (a + b) Hb)
    as (r' & g' & bl' & _ & _ & _ & C0' & C1' & C2' & _ & ->).
  assert (r' = r) by congruence. assert (g' = g) by congruence.
  assert (bl' = bl) by congruence. subst r' g' bl'.
  destruct (clampChannel_max_min (r + a)) as [_ Cr].
  destruct (clampChannel_max_min (g + a)) as [_ Cg].
  destruct (clampChannel_max_min (bl + a)) as [_ Cb].
  destruct (hexBytes_body _ _ _ Cr Cg Cb) as (I & D0 & D1 & D2).
  cbv zeta in I, D0, D1, D2.
  destruct (adjustColor_hex6 pound _ b I)
    as (r2 & g2 & b2 & _ & _ & _ & F0 & F1 & F2 & _ & ->).
  assert (r2 = clampChannel (r + a)) by congruence.
  assert (g2 = clampChannel (g + a)) by congruence.
  assert (b2 = clampChannel (bl + a)) by congruence. subst r2 g2 b2.
  now rewrite !clampChannel_twice by assumption.
Qed.

Lemma adjustColor_compose_witness :
  adjustColor (adjustColor "#588157" 100) 60 = adjustColor "#588157" 160
  /\ adjustColor (adjustColor "a3b18a" (-20)) (-200)
     = adjustColor "a3b18a" (-220).
Proof.
  split.
  - apply (adjustColor_compose "#588157" 100 60 eq_refl). left. lia.
  - apply (adjustColor_compose "a3b18a" (-20) (-200) eq_refl). right. lia.
Defined.

(** Adjustments in opposite directions do not compose: saturation loses
    the channel. *)
Lemma adjustColor_saturates :
  adjustColor (adjustColor "#f5f5f5" 20) (-20) = "#ebebeb".
Proof. reflexivity. Qed.

(** ** Text color along an adjustment *)

Lemma getTextColor_channels (body : string) (r g b : Z) :
  isHex6 body = true ->
  0 <= r <= 255 -> 0 <= g <= 255 -> 0 <= b <= 255 ->
  channel 0 body = Some r -> channel 1 body = Some g ->
  channel 2 body = Some b ->
  getTextColor (String "#" body)
  = if 128000 <? 299 * r + 587 * g + 114 * b then "#000000" else "#ffffff".
Proof.
  intros Hb Hr Hg Hbl C0 C1 C2.
  rewrite <- (channel_with_pound 0 body Hb) in C0.
  rewrite <- (channel_with_pound 1 body Hb) in C1.
  rewrite <- (channel_with_pound 2 body Hb) in C2.
  unfold getTextColor.
  change (parseInt (slice (String "#" body) 1 3) 16)
    with (channel 0 (String "#" body)).
  change (parseInt (slice (String "#" body) 3 5) 16)
    with (channel 1 (String "#" body)).
  change (parseInt (slice (String "#" body) 5 7) 16)
    with (channel 2 (String "#" body)).
  now rewrite C0, C1, C2, luminance_exact by assumption.
Qed.

Lemma clampChannel_mono (x y : Z) :
  x <= y -> clampChannel x <= clampChannel y.
Proof.
  intro H. unfold clampChannel.
  destruct (x <? 0) eqn:E1; destruct (255 <? x) eqn:E2;
    destruct (y <? 0) eqn:E3; destruct (255 <? y) eqn:E4; lia.
Qed.

(** X5. Along adjustments of one valid color with the number sign the
    text color is monotone: once the text on the color adjusted by [a] is
    black, it is black on the color adjusted by any larger amount.  (Not so
    for a color without the number sign, whose digits [getTextColor] reads
    one place off: [getTextColor_adjust_without_pound].) *)
Theorem getTextColor_adjust_monotone (c : string) (a b : Z) :
  validHexColor c = true -> hasPound c = true -> a <= b ->
  getTextColor (adjustColor c a) = "#000000" ->
  getTextColor (adjustColor c b) = "#000000".
Proof.
  intros Hc Hp Hab.
  destruct (validHexColor_cases c Hc) as (pound & body & -> & Hb).
  assert (pound = true).
  { destruct pound; [reflexivity|]. cbn [append] in Hp.
    destruct (isHex6_chars body Hb) as (c1 & c2 & c3 & c4 & c5 & c6 & -> & H1 & _).
    destruct (hex_digit_facts c1 H1) as (v & _ & _ & _ & _ & _ & Hn & _).
    destruct (hexBody_no_pound c1
                (String c2 (String c3 (String c4 (String c5 (String c6 "")))))
                Hn) as (_ & Hf & _).
    congruence. }
  subst pound.
  destruct (adjustColor_hex6 true body a Hb)
    as (r & g & bl & Hr & Hg & Hbl & C0 & C1 & C2 & _ & ->).
  destruct (adjustColor_hex6 true body b Hb)
    as (r' & g' & bl' & _ & _ & _ & C0' & C1' & C2' & _ & ->).
  assert (r' = r) by congruence. assert (g' = g) by congruence.
  assert (bl' = bl) by congruence. subst r' g' bl'.
  cbn [append].
  destruct (clampChannel_max_min (r + a)) as [_ Ar].
  destruct (clampChannel_max_min (g + a)) as [_ Ag].
  destruct (clampChannel_max_min (bl + a)) as [_ Ab].
  destruct (clampChannel_max_min (r + b)) as [_ Br].
  destruct (clampChannel_max_min (g + b)) as [_ Bg].
  destruct (clampChannel_max_min (bl + b)) as [_ Bb].
  destruct (hexBytes_body _ _ _ Ar Ag Ab) as (IA & A0 & A1 & A2).
  destruct (hexBytes_body _ _ _ Br Bg Bb) as (IB & B0 & B1 & B2).
  cbv zeta in IA, A0, A1, A2, IB, B0, B1, B2.
  rewrite (getTextColor_channels _ _ _ _ IA Ar Ag Ab A0 A1 A2).
  rewrite (getTextColor_channels _ _ _ _ IB Br Bg Bb B0 B1 B2).
  pose proof (clampChannel_mono (r + a) (r + b) ltac:(lia)).
  pose proof (clampChannel_mono (g + a) (g + b) ltac:(lia)).
  pose proof (clampChannel_mono (bl + a) (bl + b) ltac:(lia)).
  destruct (128000 <? 299 * clampChannel (r + a) + 587 * clampChannel (g + a)
                      + 114 * clampChannel (bl + a)) eqn:E; [|discriminate].
  apply Z.ltb_lt in E. intros _.
  destruct (128000 <? 299 * clampChannel (r + b) + 587 * clampChannel (g + b)
                      + 114 * clampChannel (bl + b)) eqn:F; [reflexivity|].
  apply Z.ltb_ge in F. lia.
Qed.

Lemma getTextColor_adjust_monotone_witness :
  getTextColor (adjustColor "#a3b18a" 130) = "#000000".
Proof.
  apply (getTextColor_adjust_monotone "#a3b18a" (-35) 130 eq_refl eq_refl).
  - lia.
  - reflexivity.
Defined.

(** ** The compiler on every configuration *)

Lemma themeCSS_not_empty (bg dv dt lv lt ba ta : string) :
  themeCSS bg dv dt lv lt ba ta <> "".
Proof. unfold themeCSS, nl. cbn [append]. discriminate. Qed.

Lemma generateThemeCSS_empty_text (doc : Document) (config : ThemeConfig)
  (g : Rng) :
  fst (generateThemeCSS doc config g) = ""
  <-> fst (colorsToUse config g) = [].
Proof.
  unfold generateThemeCSS.
  destruct (colorsToUse config g) as [[|c l] g1]; cbn [fst].
  - now split.
  - destruct (direction config g1) as [d g2]. cbn [fst]. split.
    + intro H. now apply themeCSS_not_empty in H.
    + discriminate.
Qed.

Lemma arrayFromN_length {A} (n : nat) (f : Rng -> A * Rng) (g : Rng) :
  List.length (fst (arrayFromN n f g)) = n.
Proof.
  revert g. induction n as [|n IH]; intro g; [reflexivity|].
  cbn [arrayFromN]. destruct (f g) as [x g1].
  specialize (IH g1). destruct (arrayFromN n f g1) as [xs g2].
  cbn [fst] in *. cbn. now rewrite IH.
Qed.

Lemma firstn_nil_iff {A} (n : nat) (l : list A) :
  firstn n l = [] <-> n = O \/ l = [].
Proof.
  destruct n as [|n]; destruct l as [|x l]; cbn; split; auto;
    try discriminate; intros [H|H]; discriminate.
Qed.

(** Without the number sign the text color is not monotone: on the color
    0e52ff the text is black at -35 and white at 130, the two amounts of the
    compiler. *)
Lemma getTextColor_adjust_without_pound :
  validHexColor "0e52ff" = true
  /\ getTextColor (adjustColor "0e52ff" (-35)) = "#000000"
  /\ getTextColor (adjustColor "0e52ff" 130) = "#ffffff".
Proof. repeat split; vm_compute; reflexivity. Qed.

(** X6. The compiled text is empty exactly when no color is resolved:
    with [useRandomColors], when [colorCount] is at most 0; otherwise when
    the configuration has no colors, or [colorCount] is 0, or [colorCount]
    is negative and drops every color. *)
Theorem generateThemeCSS_empty_iff (doc : Document) (config : ThemeConfig)
  (g : Rng) :
  fst (generateThemeCSS doc config g) = ""
  <-> if useRandomColors config
      then colorCount config <= 0
      else colors config = [] \/ colorCount config = 0
           \/ colorCount config <= - Z.of_nat (List.length (colors config)).
Proof.
  rewrite generateThemeCSS_empty_text. unfold colorsToUse, arrayFrom.
  destruct (useRandomColors config).
  - pose proof (arrayFromN_length (Z.to_nat (colorCount config)) randomColor g)
      as L.
    destruct (arrayFromN (Z.to_nat (colorCount config)) randomColor g)
      as [l g1]. cbn [fst] in *. split.
    + intros ->. cbn in L. lia.
    + intro H. destruct l; [reflexivity|]. cbn in L. lia.
  - cbn [fst]. unfold arraySlice0. rewrite firstn_nil_iff.
    assert (L : colors config = [] <-> List.length (colors config) = O)
      by (destruct (colors config); cbn; split; congruence).
    destruct (colorCount config <? 0) eqn:E; rewrite L; lia.
Qed.

Lemma generateThemeCSS_empty_iff_witness :
  fst (generateThemeCSS hostPage (fixedConfig (-2) ["#213220"; "#344e41"] "90deg")
         (constantRng 0)) = ""
  /\ fst (generateThemeCSS hostPage (fixedConfig (-1) ["#213220"; "#344e41"] "90deg")
            (constantRng 0)) <> "".
Proof.
  split.
  - apply (proj2 (generateThemeCSS_empty_iff hostPage
                    (fixedConfig (-2) ["#213220"; "#344e41"] "90deg")
                    (constantRng 0))).
    right. right. cbn. lia.
  - intro H.
    apply (proj1 (generateThemeCSS_empty_iff hostPage
                    (fixedConfig (-1) ["#213220"; "#344e41"] "90deg")
                    (constantRng 0))) in H.
    cbn in H. destruct H as [H|[H|H]]; [discriminate|discriminate|lia].
Defined.

(** X7. Without [useRandomColors] the resolved colors are a prefix of the
    colors of the configuration: nothing is padded and nothing is invented
    when the configuration has fewer colors than [colorCount]; for a count
    that is not negative their number is the smaller of the count and the
    number of colors. *)
Theorem colorsToUse_prefix (config : ThemeConfig) (g : Rng) :
  useRandomColors config = false ->
  (exists rest, colors config = (fst (colorsToUse config g) ++ rest)%list)
  /\ (0 <= colorCount config ->
      Z.of_nat (List.length (fst (colorsToUse config g)))
      = Z.min (colorCount config) (Z.of_nat (List.length (colors config)))).
Proof.
  intro Hr. unfold colorsToUse. rewrite Hr. cbn [fst]. unfold arraySlice0.
  split.
  - eexists. symmetry. apply firstn_skipn.
  - intro H. destruct (colorCount config <? 0) eqn:E; [lia|].
    rewrite length_firstn. lia.
Qed.

Lemma colorsToUse_prefix_witness :
  (exists rest,
     ["#213220"; "#344e41"]
     = (fst (colorsToUse (fixedConfig 5 ["#213220"; "#344e41"] "90deg")
               (constantRng 0)) ++ rest)%list)
  /\ (0 <= 5 ->
      Z.of_nat (List.length
                  (fst (colorsToUse
                          (fixedConfig 5 ["#213220"; "#344e41"] "90deg")
                          (constantRng 0))))
      = Z.min 5 2).
Proof.
  exact (colorsToUse_prefix (fixedConfig 5 ["#213220"; "#344e41"] "90deg")
           (constantRng 0) eq_refl).
Defined.

(** X8. Whatever strings the configuration holds as colors, when the
    resolved list is not empty the two variants written into the stylesheet
    are valid six-digit colors, the two text colors are black or white, and
    the two amounts are those of the dark or of the light mode. *)
Theorem generateThemeCSS_derived_values (doc : Document)
  (config : ThemeConfig) (g : Rng) :
  fst (colorsToUse config g) <> [] ->
  exists backgroundValue darkVariant darkTextColor lightVariant lightTextColor
         baseColorAmount textColorAmount,
    fst (generateThemeCSS doc config g)
    = themeCSS backgroundValue darkVariant darkTextColor lightVariant
        lightTextColor baseColorAmount textColorAmount
    /\ validHexColor darkVariant = true /\ validHexColor lightVariant = true
    /\ (darkTextColor = "#000000" \/ darkTextColor = "#ffffff")
    /\ (lightTextColor = "#000000" \/ lightTextColor = "#ffffff")
    /\ ((detectThemeMode doc = dark /\ baseColorAmount = "70.4"
         /\ textColorAmount = "30")
        \/ (detectThemeMode doc = light /\ baseColorAmount = "15.2"
            /\ textColorAmount = "40")).
Proof.
  intro Hne. unfold generateThemeCSS.
  destruct (colorsToUse config g) as [[|c l] g1]; cbn [fst] in *;
    [congruence|].
  destruct (direction config g1) as [d g2]. cbn [fst].
  do 7 eexists. split; [reflexivity|].
  split; [apply adjustColor_any|]. split; [apply adjustColor_any|].
  assert (T : forall hex, getTextColor hex = "#000000"
                          \/ getTextColor hex = "#ffffff").
  { intro hex. unfold getTextColor.
    destruct (PrimFloat.ltb _ _); [now left|now right]. }
  split; [apply T|]. split; [apply T|].
  destruct (detectThemeMode doc); cbn [isDarkMode]; [right|left]; auto.
Qed.

Lemma generateThemeCSS_derived_values_witness :
  exists bg dv dt lv lt ba ta,
    fst (generateThemeCSS hostPage (fixedConfig 1 ["tomato"] "90deg")
           (constantRng 0))
    = themeCSS bg dv dt lv lt ba ta
    /\ validHexColor dv = true /\ validHexColor lv = true.
Proof.
  destruct (generateThemeCSS_derived_values hostPage
              (fixedConfig 1 ["tomato"] "90deg") (constantRng 0))
    as (bg & dv & dt & lv & lt & ba & ta & E & V1 & V2 & _).
  - discriminate.
  - exists bg, dv, dt, lv, lt, ba, ta. auto.
Defined.

(** ** The theme mode and the class of the engine *)

Lemma prefix_app_space (p a b : string) :
  noSpace p = true ->
  String.prefix p (a ++ String " " b) = String.prefix p a.
Proof.
  revert p. induction a as [|x a IH]; intros p Hp.
  - destruct p as [|c p]; [reflexivity|]. cbn [append String.prefix].
    unfold noSpace in Hp. cbn [allChars] in Hp.
    apply andb_true_iff in Hp as [Hc _].
    destruct (ascii_dec c " ") as [->|_]; [discriminate Hc|reflexivity].
  - destruct p as [|c p]; [reflexivity|]. cbn [append String.prefix].
    unfold noSpace in Hp. cbn [allChars] in Hp.
    apply andb_true_iff in Hp as [_ Hp].
    destruct (ascii_dec c x); [now apply IH|reflexivity].
Qed.

Lemma includes_app_space (p a b : string) :
  noSpace p = true -> p <> "" ->
  includes (a ++ String " " b) p = includes a p || includes b p.
Proof.
  intros Hp Hne. induction a as [|x a IH].
  - pose proof (prefix_app_space p "" b Hp) as E. cbn [append] in E.
    cbn [append includes]. rewrite E.
    destruct p as [|c p]; [congruence|]. reflexivity.
  - change (String x a ++ String " " b) with (String x (a ++ String " " b)).
    cbn [includes]. rewrite IH.
    change (String x (a ++ String " " b)) with (String x a ++ String " " b).
    rewrite (prefix_app_space p (String x a) b Hp).
    now rewrite orb_assoc.
Qed.

Lemma includes_join (p : string) (l : list string) :
  noSpace p = true -> p <> "" ->
  includes (join " " l) p = existsb (fun t => includes t p) l.
Proof.
  intros Hp Hne. unfold join. induction l as [|x [|y l] IH].
  - destruct p; [congruence|reflexivity].
  - cbn. now rewrite orb_false_r.
  - change (String.concat " " (x :: y :: l))
      with (x ++ String " " (String.concat " " (y :: l))).
    rewrite includes_app_space, IH by assumption. reflexivity.
Qed.

Lemma detectThemeMode_tokens (doc : Document) :
  detectThemeMode doc
  = if existsb (fun t => includes t "theme-light") (classList doc)
    then light else dark.
Proof.
  unfold detectThemeMode, className.
  rewrite (includes_join "theme-light") by (reflexivity || discriminate).
  destruct (existsb _ (classList doc)); [reflexivity|].
  now destruct (includes _ "theme-dark").
Qed.

Lemma existsb_add (f : string -> bool) (l : list string) (t : string) :
  f t = false -> existsb f (add l t) = existsb f l.
Proof.
  intro H. unfold add. destruct (contains l t); [reflexivity|].
  rewrite existsb_app. cbn. now rewrite H, !orb_false_r.
Qed.

Lemma add_idempotent (l : list string) (t : string) :
  add (add l t) t = add l t.
Proof.
  unfold add at 1. now rewrite contains_add.
Qed.

Lemma detectThemeMode_add (doc : Document) (st : option string) :
  detectThemeMode
    {| classList := add (classList doc) THEME_CLASS_NAME;
       head := head doc; styleElement := st |}
  = detectThemeMode doc.
Proof.
  rewrite !detectThemeMode_tokens. cbn [classList].
  now rewrite existsb_add by reflexivity.
Qed.

(** X9. The host mode is light exactly when some class of the root
    element contains theme-light as a substring (so also inside a longer
    class name, and also beside theme-dark); in every other case it is
    dark. *)
Theorem detectThemeMode_light_iff (doc : Document) :
  (detectThemeMode doc = light
   <-> exists t, In t (classList doc) /\ includes t "theme-light" = true)
  /\ (detectThemeMode doc = dark
      <-> forall t, In t (classList doc) -> includes t "theme-light" = false).
Proof.
  rewrite detectThemeMode_tokens.
  destruct (existsb (fun t => includes t "theme-light") (classList doc)) eqn:E.
  - apply existsb_exists in E. destruct E as (t & Ht & Hi).
    split; split.
    + intros _. exists t. auto.
    + reflexivity.
    + discriminate.
    + intro H. rewrite (H t Ht) in Hi. discriminate.
  - assert (N : forall t, In t (classList doc) ->
                          includes t "theme-light" = false).
    { intros t Ht. destruct (includes t "theme-light") eqn:Hi; auto.
      assert (X : existsb (fun t => includes t "theme-light") (classList doc)
                  = true) by (apply existsb_exists; eauto).
      congruence. }
    split; split.
    + discriminate.
    + intros (t & Ht & Hi). rewrite (N t Ht) in Hi. discriminate.
    + intros _. exact N.
    + reflexivity.
Qed.

Lemma detectThemeMode_light_iff_witness :
  detectThemeMode
    {| classList := ["theme-dark"; "x-theme-lighter"]; head := true;
       styleElement := None |} = light.
Proof.
  apply (proj1 (detectThemeMode_light_iff _)).
  exists "x-theme-lighter". split; [right; left; reflexivity|reflexivity].
Defined.

(** X10. Applying a configuration without [useRandomColors] twice is
    applying it once: the second apply leaves the document of the first as
    it is, whatever the generator. *)
Theorem applyTheme_idempotent (config : ThemeConfig) (doc : Document)
  (g g' : Rng) :
  useRandomColors config = false ->
  applyTheme config (fst (applyTheme config doc g)) g'
  = (fst (applyTheme config doc g), g').
Proof.
  intro Hr. unfold applyTheme at 2.
  destruct (head doc) eqn:Hh; cbn [negb].
  - assert (D : forall d k, generateThemeCSS d config k
                = (fst (generateThemeCSS d config k), k)).
    { intros d k. unfold generateThemeCSS, colorsToUse, direction.
      rewrite Hr. now destruct (arraySlice0 _ _). }
    rewrite (D doc g). cbn [fst]. unfold applyTheme. cbn [head].
    rewrite Hh. cbn [negb].
    rewrite (generateThemeCSS_mode _ doc config g')
      by (rewrite <- Hh at 1; apply detectThemeMode_add).
    rewrite (D doc g'). cbn [classList]. rewrite add_idempotent.
    unfold generateThemeCSS, colorsToUse, direction. rewrite Hr.
    now destruct (arraySlice0 _ _).
  - cbn [fst]. unfold applyTheme. now rewrite Hh.
Qed.

Lemma applyTheme_idempotent_witness :
  applyTheme DEFAULT_THEME_CONFIG
    (fst (applyTheme DEFAULT_THEME_CONFIG hostPage (constantRng 0)))
    (constantRng (1 # 2))
  = (fst (applyTheme DEFAULT_THEME_CONFIG hostPage (constantRng 0)),
     constantRng (1 # 2)).
Proof.
  exact (applyTheme_idempotent DEFAULT_THEME_CONFIG hostPage (constantRng 0)
           (constantRng (1 # 2)) eq_refl).
Defined.

(** ** The content script over its events *)

Lemma applyTheme_lockstep (config : ThemeConfig) (doc : Document) (g : Rng) :
  lockstep doc -> lockstep (fst (applyTheme config doc g)).
Proof.
  intro L. unfold applyTheme. destruct (head doc); cbn [negb].
  - destruct (generateThemeCSS doc config g) as [css g1]. cbn [fst].
    intros _. unfold themed. cbn [classList]. apply contains_add.
  - exact L.
Qed.

Lemma persistenceObserver_lockstep (doc : Document) :
  lockstep (persistenceObserver doc).
Proof.
  unfold lockstep, persistenceObserver, themed.
  destruct (contains (classList doc) THEME_CLASS_NAME) eqn:Hc;
    destruct (styleElement doc) as [css|] eqn:Hs; cbn [negb andb];
    cbn [classList styleElement]; try congruence.
  intros _. apply contains_add.
Qed.

Lemma step_lockstep (e : ContentScript.Event) (p : ContentScript.Page) :
  ContentScript.observing p = true ->
  lockstep (ContentScript.document p) ->
  ContentScript.observing (ContentScript.step e p) = true
  /\ lockstep (ContentScript.document (ContentScript.step e p)).
Proof.
  intros Ho L. destruct e as [ok m|classes|]; cbn [ContentScript.step].
  - destruct (ContentScript.listening p); [|auto].
    unfold ContentScript.handleMessages.
    destruct (String.eqb (ContentScript.action m) "updateTheme"); [|auto].
    pose proof (applyTheme_lockstep (ContentScript.config m)
                  (ContentScript.document p) (ContentScript.rng p) L) as L'.
    destruct (applyTheme (ContentScript.config m) (ContentScript.document p)
                (ContentScript.rng p)) as [doc g].
    cbn [fst] in L'. cbn. auto.
  - rewrite Ho. cbn. split; [exact Ho|apply persistenceObserver_lockstep].
  - cbn. split; [exact Ho|]. intro H. now destruct H.
Qed.

Lemma main_lockstep (ok : bool) (sync : Storage.SyncStorage)
  (doc : Document) (g : Rng) (events : list ContentScript.Event) :
  styleElement doc = None ->
  lockstep
    (ContentScript.document
       (ContentScript.run events (ContentScript.main ok (loadedPage sync doc g)))).
Proof.
  intros Hs.
  assert (B : ContentScript.observing
                (ContentScript.main ok (loadedPage sync doc g)) = true
              /\ lockstep (ContentScript.document
                             (ContentScript.main ok (loadedPage sync doc g)))).
  { unfold ContentScript.main, loadedPage.
    cbn [ContentScript.sync ContentScript.document ContentScript.rng].
    assert (L : lockstep doc) by (intro H; congruence).
    destruct (Storage.getThemeConfig ok sync) as [c|].
    - pose proof (applyTheme_lockstep c doc g L) as L'.
      destruct (applyTheme c doc g) as [d g1]. cbn. auto.
    - cbn. auto. }
  revert B. generalize (ContentScript.main ok (loadedPage sync doc g)).
  unfold ContentScript.run.
  induction events as [|e events IH]; intros p [Ho L]; [exact L|].
  cbn [fold_left]. apply IH. now apply step_lockstep.
Qed.

(** Where [Array.from] throws, the lockstep is lost: a stored randomized
    configuration of 2^32 colors leaves the page of the host with the style
    element and without the class, and without the observer; and so does a
    message with such a configuration, whose handler throws after [main] has
    run to its end. *)
Lemma range_error_breaks_lockstep :
  ~ lockstep
      (ContentScript.document
         (Strict.main true
            (loadedPage (Some (randomConfig 4294967296)) hostPage
               (constantRng 0))))
  /\ ContentScript.observing
       (Strict.main true
          (loadedPage (Some (randomConfig 4294967296)) hostPage
             (constantRng 0))) = false
  /\ ~ lockstep
         (ContentScript.document
            (Strict.run
               [ContentScript.MessageReceived true
                  {| ContentScript.action := "updateTheme";
                     ContentScript.config := randomConfig 4294967296 |}]
               (Strict.main true (loadedPage None hostPage (constantRng 0))))).
Proof.
  split; [|split].
  - intro L. specialize (L ltac:(discriminate)). discriminate L.
  - reflexivity.
  - intro L. specialize (L ltac:(discriminate)). discriminate L.
Qed.

(** X11. The engine with the RangeError of [Array.from], from the load of
    a document that has no style element of the engine: provided that every
    configuration it compiles on the way, the stored one and those of the
    messages, is one whose compilation returns (it is not randomized, or its
    count is below 2^32), no call throws, that is, the page goes the way of
    the engine without the RangeError, and after [main] and after every
    sequence of messages, rewrites of the class attribute of the root (each
    followed by the callback of the observer) and removals of the style
    element, a document that has the style element has the activation
    class.  (Without the proviso the lockstep fails:
    [range_error_breaks_lockstep].) *)
Theorem content_script_lockstep (ok : bool) (sync : Storage.SyncStorage)
  (doc : Document) (g : Rng) (events : list ContentScript.Event) :
  styleElement doc = None ->
  storedCompiles ok sync = true ->
  forallb eventCompiles events = true ->
  Strict.run events (Strict.main ok (loadedPage sync doc g))
  = ContentScript.run events (ContentScript.main ok (loadedPage sync doc g))
  /\ lockstep
       (ContentScript.document
          (Strict.run events (Strict.main ok (loadedPage sync doc g)))).
Proof.
  intros Hs Hc He.
  assert (E : Strict.run events (Strict.main ok (loadedPage sync doc g))
              = ContentScript.run events
                  (ContentScript.main ok (loadedPage sync doc g))).
  { rewrite (strict_main ok (loadedPage sync doc g) Hc).
    now apply strict_run. }
  split; [exact E|]. rewrite E. now apply main_lockstep.
Qed.

Lemma content_script_lockstep_witness :
  lockstep
    (ContentScript.document
       (Strict.run
          [ContentScript.ClassAttributeSet ["app"; "theme-light"];
           ContentScript.StyleElementRemoved;
           ContentScript.MessageReceived false
             {| ContentScript.action := "updateTheme";
                ContentScript.config := randomConfig 2 |};
           ContentScript.ClassAttributeSet []]
          (Strict.main true
             (loadedPage (Some DEFAULT_THEME_CONFIG) hostPage
                (constantRng (1 # 3)))))).
Proof.
  apply (content_script_lockstep true (Some DEFAULT_THEME_CONFIG) hostPage
           (constantRng (1 # 3))); reflexivity.
Defined.

Lemma host_step_compiles_nothing (e : ContentScript.Event)
  (p : ContentScript.Page) :
  isHostEvent e = true ->
  ContentScript.rng (ContentScript.step e p) = ContentScript.rng p
  /\ ContentScript.sync (ContentScript.step e p) = ContentScript.sync p
  /\ (styleElement (ContentScript.document (ContentScript.step e p))
      = styleElement (ContentScript.document p)
      \/ styleElement (ContentScript.document (ContentScript.step e p)) = None).
Proof.
  destruct e as [ok m|classes|]; [discriminate| |]; intros _;
    cbn [ContentScript.step].
  - cbn. split; [reflexivity|]. split; [reflexivity|]. left.
    destruct (ContentScript.observing p); [|reflexivity].
    unfold persistenceObserver. cbn [classList styleElement].
    now destruct (negb _ && _).
  - cbn. auto.
Qed.

(** X12. Without a message the engine compiles nothing: over any sequence
    of rewrites of the class attribute and removals of the style element
    the generator takes no draw, the storage is not written, and the text
    of the style element, while the element exists, stays the text of the
    last apply (so a randomized palette keeps its colors). *)
Theorem host_events_compile_nothing (events : list ContentScript.Event)
  (p : ContentScript.Page) :
  forallb isHostEvent events = true ->
  ContentScript.rng (ContentScript.run events p) = ContentScript.rng p
  /\ ContentScript.sync (ContentScript.run events p) = ContentScript.sync p
  /\ (styleElement (ContentScript.document (ContentScript.run events p))
      = styleElement (ContentScript.document p)
      \/ styleElement (ContentScript.document (ContentScript.run events p))
         = None).
Proof.
  unfold ContentScript.run. revert p.
  induction events as [|e events IH]; intros p H; cbn [fold_left].
  - auto.
  - cbn [forallb] in H. apply andb_true_iff in H as [He Hes].
    destruct (host_step_compiles_nothing e p He) as (R & S & T).
    destruct (IH (ContentScript.step e p) Hes) as (R' & S' & T').
    rewrite R', S', R, S. split; [reflexivity|]. split; [reflexivity|].
    destruct T' as [T'|T']; [|now right].
    rewrite T'. exact T.
Qed.

Lemma host_events_compile_nothing_witness :
  ContentScript.rng
    (ContentScript.run
       [ContentScript.ClassAttributeSet ["app"];
        ContentScript.ClassAttributeSet ["app"; "theme-dark"]]
       (ContentScript.main true
          (loadedPage (Some (randomConfig 3)) hostPage (constantRng (1 # 3)))))
  = ContentScript.rng
      (ContentScript.main true
         (loadedPage (Some (randomConfig 3)) hostPage (constantRng (1 # 3)))).
Proof.
  exact (proj1 (host_events_compile_nothing
                  [ContentScript.ClassAttributeSet ["app"];
                   ContentScript.ClassAttributeSet ["app"; "theme-dark"]]
                  _ eq_refl)).
Defined.

(** X13. A theme saved by a message survives a reload: when the write to
    the storage succeeds and the configuration is not randomized, [main] on
    a fresh document of the same host mode writes the very text that the
    message made the engine write, and sets the activation class. *)
Theorem theme_survives_reload (message : ContentScript.ThemeUpdateMessage)
  (p : ContentScript.Page) (fresh : Document) (g : Rng) :
  ContentScript.action message = "updateTheme" ->
  useRandomColors (ContentScript.config message) = false ->
  head (ContentScript.document p) = true ->
  head fresh = true ->
  detectThemeMode fresh = detectThemeMode (ContentScript.document p) ->
  let saved := ContentScript.handleMessages true message p in
  let reloaded :=
    ContentScript.main true (loadedPage (ContentScript.sync saved) fresh g) in
  styleElement (ContentScript.document saved) <> None
  /\ styleElement (ContentScript.document reloaded)
     = styleElement (ContentScript.document saved)
  /\ themed (ContentScript.document reloaded) = true.
Proof.
  intros Ha Hr Hh Hf Hm saved reloaded. subst saved reloaded.
  unfold ContentScript.handleMessages. rewrite Ha, String.eqb_refl.
  destruct (applyTheme_spec (ContentScript.config message)
              (ContentScript.document p) (ContentScript.rng p) Hh)
    as (_ & S1 & _).
  destruct (applyTheme (ContentScript.config message)
              (ContentScript.document p) (ContentScript.rng p)) as [d1 g1].
  cbn [fst] in S1.
  cbn [ContentScript.sync ContentScript.document Storage.setThemeConfig].
  unfold ContentScript.main, loadedPage.
  cbn [ContentScript.sync ContentScript.document ContentScript.rng
       Storage.getThemeConfig].
  destruct (applyTheme_spec (ContentScript.config message) fresh g Hf)
    as (T2 & S2 & _).
  destruct (applyTheme (ContentScript.config message) fresh g) as [d2 g2].
  cbn [fst] in T2, S2. cbv beta iota zeta. cbn [ContentScript.document].
  rewrite S1, S2. split; [discriminate|]. split; [|exact T2].
  f_equal.
  rewrite (generateThemeCSS_mode fresh (ContentScript.document p) _ g Hm).
  unfold generateThemeCSS, colorsToUse, direction. rewrite Hr.
  now destruct (arraySlice0 _ _).
Qed.

Lemma theme_survives_reload_witness :
  styleElement
    (ContentScript.document
       (ContentScript.main true
          (loadedPage
             (ContentScript.sync
                (ContentScript.handleMessages true
                   {| ContentScript.action := "updateTheme";
                      ContentScript.config := DEFAULT_THEME_CONFIG |}
                   (loadedPage None hostPage (constantRng 0))))
             hostPage (constantRng (1 # 2)))))
  = styleElement
      (ContentScript.document
         (ContentScript.handleMessages true
            {| ContentScript.action := "updateTheme";
               ContentScript.config := DEFAULT_THEME_CONFIG |}
            (loadedPage None hostPage (constantRng 0)))).
Proof.
  exact (proj1 (proj2 (theme_survives_reload
                         {| ContentScript.action := "updateTheme";
                            ContentScript.config := DEFAULT_THEME_CONFIG |}
                         (loadedPage None hostPage (constantRng 0))
                         hostPage (constantRng (1 # 2))
                         eq_refl eq_refl eq_refl eq_refl eq_refl))).
Defined.

(** ** The service worker *)

Lemma resetUpdate_spec (storageOk : bool) (w : Background.Worker) :
  let w' := Background.resetUpdate storageOk w in
  Background.badgeText (Background.badge w') = ""
  /\ Background.badgeColor (Background.badge w')
     = Background.badgeColor (Background.badge w)
  /\ Storage.storedLatestVersion (Background.local w')
     = Storage.storedLatestVersion (Background.local w)
  /\ Storage.storedLatestUrl (Background.local w')
     = Storage.storedLatestUrl (Background.local w)
  /\ Background.alarms w' = Background.alarms w
  /\ (if storageOk
      then Storage.storedUpdateAvailable (Background.local w') = Some false
      else Background.local w' = Background.local w).
Proof.
  destruct storageOk; cbn; repeat split; reflexivity.
Qed.

(** The two ways a check can end. *)
Lemma checkForUpdate_cases (semver : Background.Semver)
  (currentVersion : string) (fetched : Background.FetchResult)
  (storageOk : bool) (w : Background.Worker) :
  Background.checkForUpdate semver currentVersion fetched storageOk w
  = Background.resetUpdate storageOk w
  \/ exists status r tag url,
       fetched = Background.Response true status (Background.Json (Some r))
       /\ Background.tag_name r = Some tag
       /\ Background.html_url r = Some url
       /\ Background.stripV tag <> "" /\ url <> ""
       /\ Background.isNewerVersion semver currentVersion
            (Background.stripV tag) = true
       /\ Background.checkForUpdate semver currentVersion fetched storageOk w
          = {| Background.local :=
                 Storage.setUpdateInfo storageOk
                   {| Storage.updateAvailable := true;
                      Storage.latestVersion := Some (Background.stripV tag);
                      Storage.latestUrl := Some url |} (Background.local w);
               Background.badge :=
                 Background.updateBadge "NEW" Background.DEFAULT_BADGE_COLOR
                   (Background.badge w);
               Background.alarms := Background.alarms w |}.
Proof.
  unfold Background.checkForUpdate.
  destruct fetched as [|ok status [|[r|]]]; try (left; reflexivity).
  - destruct ok; left; reflexivity.
  - destruct ok; [|left; reflexivity].
    destruct (Background.tag_name r) as [tag|] eqn:Et; cbn [option_map];
      [|left; reflexivity].
    destruct (Background.html_url r) as [url|] eqn:Eu; [|left; reflexivity].
    destruct (String.eqb (Background.stripV tag) "") eqn:E1; cbn [orb];
      [left; reflexivity|].
    destruct (String.eqb url "") eqn:E2; [left; reflexivity|].
    destruct (Background.isNewerVersion semver currentVersion
                (Background.stripV tag)) eqn:E3; [|left; reflexivity].
    right. exists status, r, tag, url.
    apply String.eqb_neq in E1, E2. repeat split; auto.
  - destruct ok; left; reflexivity.
Qed.

(** X14. After a check the badge and the storage agree, whatever they
    were before, when the write to the storage succeeds: the badge reads NEW
    with the update stored as available, or the badge is empty with the
    update stored as not available.  When the write fails the storage is
    left as it was, and the badge is set all the same. *)
Theorem checkForUpdate_badge (semver : Background.Semver)
  (currentVersion : string) (fetched : Background.FetchResult)
  (w : Background.Worker) :
  (let w' := Background.checkForUpdate semver currentVersion fetched true w in
   (Background.badgeText (Background.badge w') = "NEW"
    /\ Storage.storedUpdateAvailable (Background.local w') = Some true)
   \/ (Background.badgeText (Background.badge w') = ""
       /\ Storage.storedUpdateAvailable (Background.local w') = Some false))
  /\ (let w' := Background.checkForUpdate semver currentVersion fetched false w in
      Background.local w' = Background.local w
      /\ (Background.badgeText (Background.badge w') = "NEW"
          \/ Background.badgeText (Background.badge w') = "")).
Proof.
  split; intro w'; subst w'.
  - destruct (checkForUpdate_cases semver currentVersion fetched true w)
      as [->|(st & r & tag & url & _ & _ & _ & _ & _ & _ & ->)].
    + right. split; reflexivity.
    + left. split; reflexivity.
  - destruct (checkForUpdate_cases semver currentVersion fetched false w)
      as [->|(st & r & tag & url & _ & _ & _ & _ & _ & _ & ->)].
    + split; [reflexivity|right; reflexivity].
    + split; [reflexivity|left; reflexivity].
Qed.

(** X15. An update is stored as available only for a response that is ok
    and whose release has a tag and a URL, both not empty (the tag after its
    leading v is dropped), such that [isNewerVersion] holds of the installed
    version and the tag; what is stored is that tag without its leading v
    and that URL, and the badge gets its green color. *)
Theorem checkForUpdate_available (semver : Background.Semver)
  (currentVersion : string) (fetched : Background.FetchResult)
  (w : Background.Worker) :
  let w' := Background.checkForUpdate semver currentVersion fetched true w in
  Storage.storedUpdateAvailable (Background.local w') = Some true ->
  exists status r tag url,
    fetched = Background.Response true status (Background.Json (Some r))
    /\ Background.tag_name r = Some tag /\ Background.html_url r = Some url
    /\ Background.stripV tag <> "" /\ url <> ""
    /\ Background.isNewerVersion semver currentVersion (Background.stripV tag)
       = true
    /\ Storage.storedLatestVersion (Background.local w')
       = Some (Background.stripV tag)
    /\ Storage.storedLatestUrl (Background.local w') = Some url
    /\ Background.badgeColor (Background.badge w') = Some "#4CAF50".
Proof.
  intros w' H. subst w'.
  destruct (checkForUpdate_cases semver currentVersion fetched true w)
    as [E|(st & r & tag & url & F & T & U & N1 & N2 & I & E)];
    rewrite E in H |- *.
  - discriminate H.
  - exists st, r, tag, url. repeat split; auto.
Qed.

Lemma checkForUpdate_available_witness :
  exists status r tag url,
    Background.Response true 200
      (Background.Json
         (Some {| Background.tag_name := Some "v3.0.0";
                  Background.html_url := Some "https://example.org/r" |}))
    = Background.Response true status (Background.Json (Some r))
    /\ Background.tag_name r = Some tag /\ Background.html_url r = Some url
    /\ Background.stripV tag = "3.0.0".
Proof.
  destruct (checkForUpdate_available lengthSemver "2.0"
              (Background.Response true 200
                 (Background.Json
                    (Some {| Background.tag_name := Some "v3.0.0";
                             Background.html_url :=
                               Some "https://example.org/r" |})))
              freshWorker eq_refl)
    as (st & r & tag & url & F & T & U & _ & _ & _ & V & _).
  exists st, r, tag, url. repeat split; auto.
  cbn in V. congruence.
Defined.

(** X16. A check never removes what an earlier check stored: when it
    finds no update, the stored version and URL of the latest release and the
    color of the badge are those from before, so [getUpdateInfo] then
    reports no update together with the version and URL of the earlier
    release. *)
Theorem checkForUpdate_keeps_release (semver : Background.Semver)
  (currentVersion : string) (fetched : Background.FetchResult)
  (storageOk : bool) (w : Background.Worker) :
  let w' :=
    Background.checkForUpdate semver currentVersion fetched storageOk w in
  Background.badgeText (Background.badge w') = "" ->
  Storage.storedLatestVersion (Background.local w')
  = Storage.storedLatestVersion (Background.local w)
  /\ Storage.storedLatestUrl (Background.local w')
     = Storage.storedLatestUrl (Background.local w)
  /\ Background.badgeColor (Background.badge w')
     = Background.badgeColor (Background.badge w)
  /\ (storageOk = true ->
      Storage.getUpdateInfo true (Background.local w')
      = {| Storage.updateAvailable := false;
           Storage.latestVersion :=
             Storage.storedLatestVersion (Background.local w);
           Storage.latestUrl :=
             Storage.storedLatestUrl (Background.local w) |}).
Proof.
  intros w' H. subst w'.
  destruct (checkForUpdate_cases semver currentVersion fetched storageOk w)
    as [E|(st & r & tag & url & _ & _ & _ & _ & _ & _ & E)];
    rewrite E in H |- *.
  - destruct (resetUpdate_spec storageOk w) as (_ & C & V & U & _ & S).
    cbv zeta in C, V, U, S. repeat split; auto.
    intros ->. unfold Storage.getUpdateInfo. now rewrite S, V, U.
  - discriminate H.
Qed.

Lemma checkForUpdate_keeps_release_witness :
  Storage.storedLatestVersion
    (Background.local
       (Background.checkForUpdate lengthSemver "2.0" Background.NetworkError
          true
          (Background.checkForUpdate lengthSemver "2.0"
             (Background.Response true 200
                (Background.Json
                   (Some {| Background.tag_name := Some "v3.0.0";
                            Background.html_url :=
                              Some "https://example.org/r" |})))
             true freshWorker)))
  = Some "3.0.0".
Proof.
  exact (proj1 (checkForUpdate_keeps_release lengthSemver "2.0"
                  Background.NetworkError true _ eq_refl)).
Defined.

Lemma dispatch_badgeAgrees (semver : Background.Semver)
  (currentVersion : string) (e : Background.Event)
  (fetched : Background.FetchResult) (w : Background.Worker) :
  badgeAgrees w ->
  badgeAgrees (Background.dispatch semver currentVersion e fetched true w).
Proof.
  intro H.
  assert (C : forall v,
             badgeAgrees
               (Background.checkForUpdate semver currentVersion fetched true v)).
  { intro v.
    destruct (checkForUpdate_cases semver currentVersion fetched true v)
      as [->|(st & r & tag & url & _ & _ & _ & _ & _ & _ & ->)].
    - right. split; [reflexivity|discriminate].
    - left. split; reflexivity. }
  destruct e as [|name|]; cbn [Background.dispatch]; auto.
  destruct (String.eqb name Background.UPDATE_ALARM_NAME); auto.
Qed.

(** X17. Along every sequence of events of the worker (installation,
    alarms of any name, startup), each with any outcome of its fetch and with
    the writes to the storage succeeding, the badge and the stored flag keep
    agreeing: the badge reads NEW exactly when an update is stored as
    available. *)
Theorem worker_badge_agrees (semver : Background.Semver)
  (currentVersion : string)
  (events : list (Background.Event * Background.FetchResult))
  (w : Background.Worker) :
  badgeAgrees w -> badgeAgrees (runWorker semver currentVersion events w).
Proof.
  unfold runWorker. revert w.
  induction events as [|e events IH]; intros w H; [exact H|].
  cbn [fold_left]. apply IH. now apply dispatch_badgeAgrees.
Qed.

Lemma worker_badge_agrees_witness :
  badgeAgrees
    (runWorker lengthSemver "2.0"
       [(Background.Installed,
         Background.Response true 200
           (Background.Json
              (Some {| Background.tag_name := Some "v3.0.0";
                       Background.html_url := Some "https://example.org/r" |})));
        (Background.AlarmFired "other", Background.NetworkError);
        (Background.AlarmFired "checkUpdateAlarm",
         Background.Response false 403 Background.InvalidJson)]
       freshWorker).
Proof.
  apply worker_badge_agrees. right. split; [reflexivity|discriminate].
Defined.

(** ** The random color of the earlier content script *)

Lemma seven_digits (n : Z) :
  0 <= n < 16777216 ->
  toStringRadix (16777216 + n) 16 = String "1" (fixedDigits 6 16 n "").
Proof.
  intro Hn.
  pose proof (padStart_toStringRadix 16 6 (16777216 + n) ltac:(lia)
                ltac:(change (16 ^ Z.of_nat 7) with 268435456; lia)) as P.
  assert (F : fixedDigits 7 16 (16777216 + n) ""
              = String "1" (fixedDigits 6 16 n "")).
  { cbn [fixedDigits].
    set (m := 16777216 + n).
    assert (E0 : m mod 16 = n mod 16)
      by (subst m; Z.div_mod_to_equations; lia).
    assert (E1 : m / 16 mod 16 = n / 16 mod 16)
      by (subst m; Z.div_mod_to_equations; lia).
    assert (E2 : m / 16 / 16 mod 16 = n / 16 / 16 mod 16)
      by (subst m; Z.div_mod_to_equations; lia).
    assert (E3 : m / 16 / 16 / 16 mod 16 = n / 16 / 16 / 16 mod 16)
      by (subst m; Z.div_mod_to_equations; lia).
    assert (E4 : m / 16 / 16 / 16 / 16 mod 16 = n / 16 / 16 / 16 / 16 mod 16)
      by (subst m; Z.div_mod_to_equations; lia).
    assert (E5 : m / 16 / 16 / 16 / 16 / 16 mod 16
                 = n / 16 / 16 / 16 / 16 / 16 mod 16)
      by (subst m; Z.div_mod_to_equations; lia).
    assert (E6 : m / 16 / 16 / 16 / 16 / 16 / 16 mod 16 = 1)
      by (subst m; Z.div_mod_to_equations; lia).
    rewrite E0, E1, E2, E3, E4, E5, E6. reflexivity. }
  rewrite F in P. unfold padStart in P.
  destruct (7 - String.length (toStringRadix (16777216 + n) 16))%nat.
  - exact P.
  - cbn [repeatChar append] in P. discriminate P.
Qed.

Lemma legacy_color_of_channels (r gr b : Z) :
  0 <= r <= 255 -> 0 <= gr <= 255 -> 0 <= b <= 255 ->
  sliceFrom (toStringRadix (shl 1 24 + shl r 16 + shl gr 8 + b) 16) 1
  = hexByte r ++ hexByte gr ++ hexByte b.
Proof.
  intros Hr Hg Hb. unfold shl.
  change (24 mod 32) with 24. change (16 mod 32) with 16.
  change (8 mod 32) with 8.
  rewrite (wrap32_small 1), (wrap32_small r), (wrap32_small gr) by lia.
  rewrite !Z.shiftl_mul_pow2 by lia.
  change (2 ^ 24) with 16777216. change (2 ^ 16) with 65536.
  change (2 ^ 8) with 256.
  rewrite !wrap32_small by lia.
  replace (1 * 16777216 + r * 65536 + gr * 256 + b)
    with (16777216 + (r * 65536 + gr * 256 + b)) by lia.
  rewrite seven_digits by lia. cbn [sliceFrom].
  assert (Z0 : forall t, sliceFrom t 0 = t) by (intro t; now destruct t).
  rewrite Z0.
  rewrite <- (padStart_toStringRadix 16 5)
    by (change (16 ^ Z.of_nat 6) with 16777216; lia).
  now apply render_channels.
Qed.

Lemma legacy_randomHexColor_value (g : Rng) :
  validRng g ->
  Legacy.randomHexColor g
  = ("#" ++ hexByte (Qfloor (draws g (cursor g) * inject_Z 256))
         ++ hexByte (Qfloor (draws g (S (cursor g)) * inject_Z 256))
         ++ hexByte (Qfloor (draws g (S (S (cursor g))) * inject_Z 256)),
     {| draws := draws g; cursor := S (S (S (cursor g))) |}).
Proof.
  intro V. unfold Legacy.randomHexColor, randomBelow, random.
  cbn [draws cursor].
  pose proof (floor_of_draw _ 256 ltac:(lia) (V (cursor g))).
  pose proof (floor_of_draw _ 256 ltac:(lia) (V (S (cursor g)))).
  pose proof (floor_of_draw _ 256 ltac:(lia) (V (S (S (cursor g))))).
  rewrite legacy_color_of_channels by lia. reflexivity.
Qed.

(** X18. The random color of the earlier content script is a valid
    six-digit color with the number sign whose three channels are three
    successive draws, each scaled to 0..255; it takes exactly three draws. *)
Theorem legacy_randomHexColor_spec (g : Rng) :
  validRng g ->
  let c := fst (Legacy.randomHexColor g) in
  validHexColor c = true /\ hasPound c = true
  /\ channel 0 c = Some (Qfloor (draws g (cursor g) * inject_Z 256))
  /\ channel 1 c = Some (Qfloor (draws g (S (cursor g)) * inject_Z 256))
  /\ channel 2 c = Some (Qfloor (draws g (S (S (cursor g))) * inject_Z 256))
  /\ 0 <= Qfloor (draws g (cursor g) * inject_Z 256) <= 255
  /\ 0 <= Qfloor (draws g (S (cursor g)) * inject_Z 256) <= 255
  /\ 0 <= Qfloor (draws g (S (S (cursor g))) * inject_Z 256) <= 255
  /\ cursor (snd (Legacy.randomHexColor g)) = (cursor g + 3)%nat.
Proof.
  intros V c. subst c. rewrite (legacy_randomHexColor_value g V).
  cbn [fst snd cursor].
  pose proof (floor_of_draw _ 256 ltac:(lia) (V (cursor g))) as H0.
  pose proof (floor_of_draw _ 256 ltac:(lia) (V (S (cursor g)))) as H1.
  pose proof (floor_of_draw _ 256 ltac:(lia) (V (S (S (cursor g))))) as H2.
  assert (B0 : 0 <= Qfloor (draws g (cursor g) * inject_Z 256) <= 255) by lia.
  assert (B1 : 0 <= Qfloor (draws g (S (cursor g)) * inject_Z 256) <= 255)
    by lia.
  assert (B2 : 0 <= Qfloor (draws g (S (S (cursor g))) * inject_Z 256) <= 255)
    by lia.
  destruct (hexBytes_color true _ _ _ B0 B1 B2) as (Vc & Pc & C0 & C1 & C2).
  cbv zeta in Vc, Pc, C0, C1, C2.
  split; [exact Vc|]. split; [exact Pc|]. split; [exact C0|].
  split; [exact C1|]. split; [exact C2|].
  split; [exact B0|]. split; [exact B1|]. split; [exact B2|]. lia.
Qed.

Lemma legacy_randomHexColor_spec_witness :
  channel 1 (fst (Legacy.randomHexColor (threeDraws (1 # 2) (1 # 4) 0)))
  = Some 64.
Proof.
  assert (V : validRng (threeDraws (1 # 2) (1 # 4) 0)).
  { intros [|[|i]]; split; first [discriminate | reflexivity]. }
  exact (proj1 (proj2 (proj2 (proj2
           (legacy_randomHexColor_spec (threeDraws (1 # 2) (1 # 4) 0) V))))).
Defined.

(** X19. Every color is a possible random color of the earlier content
    script: for any three channels in 0..255 some draws give exactly the
    color with these channels, white included. *)
Theorem legacy_randomHexColor_reaches (r gr b : Z) :
  0 <= r <= 255 -> 0 <= gr <= 255 -> 0 <= b <= 255 ->
  exists g, validRng g
    /\ fst (Legacy.randomHexColor g)
       = "#" ++ hexByte r ++ hexByte gr ++ hexByte b.
Proof.
  intros Hr Hg Hb.
  destruct (floor_of_draw_reaches 256 r ltac:(lia)) as (q1 & V1 & F1).
  destruct (floor_of_draw_reaches 256 gr ltac:(lia)) as (q2 & V2 & F2).
  destruct (floor_of_draw_reaches 256 b ltac:(lia)) as (q3 & V3 & F3).
  exists (threeDraws q1 q2 q3).
  assert (V : validRng (threeDraws q1 q2 q3)).
  { intros [|[|i]]; cbn; assumption. }
  split; [exact V|]. rewrite (legacy_randomHexColor_value _ V).
  cbn [fst threeDraws draws cursor]. now rewrite F1, F2, F3.
Qed.

Lemma legacy_randomHexColor_reaches_witness :
  exists g, validRng g /\ fst (Legacy.randomHexColor g) = "#ffffff".
Proof.
  exact (legacy_randomHexColor_reaches 255 255 255
           ltac:(lia) ltac:(lia) ltac:(lia)).
Defined.

(** ** The earlier content script *)

Lemma legacy_randomHexColor_cursor (g : Rng) :
  draws (snd (Legacy.randomHexColor g)) = draws g
  /\ cursor (snd (Legacy.randomHexColor g)) = (cursor g + 3)%nat.
Proof.
  unfold Legacy.randomHexColor, randomBelow, random. cbn. split; [reflexivity|lia].
Qed.

Lemma legacy_array_cursor (n : nat) (g : Rng) :
  List.length (fst (arrayFromN n Legacy.randomHexColor g)) = n
  /\ draws (snd (arrayFromN n Legacy.randomHexColor g)) = draws g
  /\ cursor (snd (arrayFromN n Legacy.randomHexColor g))
     = (cursor g + 3 * n)%nat.
Proof.
  revert g. induction n as [|n IH]; intro g.
  - cbn. repeat split; lia.
  - cbn [arrayFromN].
    destruct (legacy_randomHexColor_cursor g) as [D C].
    destruct (Legacy.randomHexColor g) as [c g1]. cbn [snd] in D, C.
    destruct (IH g1) as (L & D' & C').
    destruct (arrayFromN n Legacy.randomHexColor g1) as [l g2].
    cbn [fst snd] in *. split; [cbn; lia|]. split; [congruence|lia].
Qed.





Lemma strict_legacy_generateThemeCSS (config : ThemeConfig)
  (doc : Legacy.LegacyDocument) (g : Rng) :
  StrictLegacy.generateThemeCSS (Some config) doc g
  = if useRandomColors config && (4294967296 <=? Legacy.countOf config)
    then None
    else Some (Legacy.generateThemeCSS (Some config) doc g).
Proof.
  unfold StrictLegacy.generateThemeCSS, Legacy.generateThemeCSS,
    StrictLegacy.colorsToUse, Legacy.colorsToUse,
    StrictLegacy.generateRandomColorsArray, Legacy.generateRandomColorsArray,
    Strict.arrayFrom.
  destruct (useRandomColors config) eqn:Hr; cbn [andb].
  - destruct (4294967296 <=? Legacy.countOf config); [reflexivity|].
    destruct (arrayFrom (Legacy.countOf config) Legacy.randomHexColor g)
      as [l g1].
    now destruct (Legacy.direction config g1) as [d g2].
  - now destruct (Legacy.direction config g) as [d g2].
Qed.

(** X22. The earlier [generateThemeCSS] returns for every configuration
    but a randomized one whose count is 2^32 or more, where [Array.from]
    throws.  Whenever it returns, for a configuration that is randomized or
    not, its text is not empty and its background is a linear-gradient over
    the resolved direction and colors, also for one color or for none;
    without [useRandomColors] the direction is that of the configuration as
    it is, not sanitized, and the colors are its first ones up to the
    count. *)
Theorem legacy_generateThemeCSS_background (config : ThemeConfig)
  (doc : Legacy.LegacyDocument) (g : Rng) :
  useRandomColors config = false \/ Legacy.countOf config < 4294967296 ->
  exists text g',
    StrictLegacy.generateThemeCSS (Some config) doc g = Some (text, g')
    /\ Legacy.generateThemeCSS (Some config) doc g = (text, g')
    /\ text <> ""
    /\ (exists rest,
          text
          = nl ++ "        .custom-theme-background {" ++ nl
            ++ "            --custom-theme-background: linear-gradient("
            ++ fst (Legacy.direction config
                      (snd (Legacy.colorsToUse config g)))
            ++ ", " ++ join ", " (fst (Legacy.colorsToUse config g))
            ++ ") !important;" ++ nl ++ rest)
    /\ (useRandomColors config = false ->
        fst (Legacy.direction config (snd (Legacy.colorsToUse config g)))
        = gradientDirection config
        /\ fst (Legacy.colorsToUse config g)
           = arraySlice0 (colors config) (Legacy.countOf config)).
Proof.
  intros H.
  assert (E : exists rest,
     fst (Legacy.generateThemeCSS (Some config) doc g)
     = nl ++ "        .custom-theme-background {" ++ nl
       ++ "            --custom-theme-background: linear-gradient("
       ++ fst (Legacy.direction config (snd (Legacy.colorsToUse config g)))
       ++ ", " ++ join ", " (fst (Legacy.colorsToUse config g))
       ++ ") !important;" ++ nl ++ rest).
  { unfold Legacy.generateThemeCSS.
    destruct (Legacy.colorsToUse config g) as [l g1]. cbn [fst snd].
    destruct (Legacy.direction config g1) as [d g2]. cbn [fst].
    unfold Legacy.themeCSS. eexists. reflexivity. }
  assert (R : useRandomColors config
              && (4294967296 <=? Legacy.countOf config) = false).
  { destruct H as [H|H]; [now rewrite H|].
    apply andb_false_iff. right. apply Z.leb_gt. exact H. }
  exists (fst (Legacy.generateThemeCSS (Some config) doc g)),
         (snd (Legacy.generateThemeCSS (Some config) doc g)).
  split; [|split; [|split; [|split]]].
  - rewrite strict_legacy_generateThemeCSS, R.
    now destruct (Legacy.generateThemeCSS (Some config) doc g).
  - now destruct (Legacy.generateThemeCSS (Some config) doc g).
  - destruct E as [rest ->]. unfold nl. cbn [append]. discriminate.
  - exact E.
  - intro Hr. unfold Legacy.direction, Legacy.colorsToUse. rewrite Hr.
    split; reflexivity.
Qed.

Lemma legacy_generateThemeCSS_background_witness :
  exists text g',
    StrictLegacy.generateThemeCSS (Some (randomConfig 1))
      {| Legacy.rootClasses := []; Legacy.hasHead := true;
         Legacy.themeStyles := [] |} (constantRng 0)
    = Some (text, g')
    /\ Legacy.generateThemeCSS (Some (randomConfig 1))
         {| Legacy.rootClasses := []; Legacy.hasHead := true;
            Legacy.themeStyles := [] |} (constantRng 0)
       = (text, g')
    /\ text <> ""
    /\ (exists rest,
          text
          = nl ++ "        .custom-theme-background {" ++ nl
            ++ "            --custom-theme-background: linear-gradient("
            ++ fst (Legacy.direction (randomConfig 1)
                      (snd (Legacy.colorsToUse (randomConfig 1)
                              (constantRng 0))))
            ++ ", "
            ++ join ", " (fst (Legacy.colorsToUse (randomConfig 1)
                                 (constantRng 0)))
            ++ ") !important;" ++ nl ++ rest)
    /\ (useRandomColors (randomConfig 1) = false ->
        fst (Legacy.direction (randomConfig 1)
               (snd (Legacy.colorsToUse (randomConfig 1) (constantRng 0))))
        = gradientDirection (randomConfig 1)
        /\ fst (Legacy.colorsToUse (randomConfig 1) (constantRng 0))
           = arraySlice0 (colors (randomConfig 1))
               (Legacy.countOf (randomConfig 1))).
Proof.
  apply (legacy_generateThemeCSS_background (randomConfig 1)
           {| Legacy.rootClasses := []; Legacy.hasHead := true;
              Legacy.themeStyles := [] |} (constantRng 0)).
  right. reflexivity.
Defined.

(** X23. The color count of the earlier content script falls back: a count
    of 0 stands for the number of colors of the configuration, and for 2
    when it has none.  So with a count of 0 a configuration that is not
    randomized uses all its colors, and a randomized one draws as many
    colors as the configuration has, or 2. *)
Theorem legacy_count_fallback (config : ThemeConfig) (g : Rng) :
  colorCount config = 0 ->
  if useRandomColors config
  then List.length (fst (Legacy.colorsToUse config g))
       = match colors config with
         | [] => 2%nat
         | _ :: _ => List.length (colors config)
         end
  else fst (Legacy.colorsToUse config g) = colors config.
Proof.
  intro H0. unfold Legacy.colorsToUse, Legacy.countOf,
    Legacy.generateRandomColorsArray, arrayFrom. rewrite H0.
  cbn [Z.eqb negb].
  destruct (useRandomColors config).
  - destruct (colors config) as [|c l] eqn:E.
    + cbn [List.length Nat.eqb negb].
      now destruct (legacy_array_cursor (Z.to_nat 2) g) as (L & _).
    + cbn [List.length Nat.eqb negb].
      destruct (legacy_array_cursor
                  (Z.to_nat (Z.of_nat (S (List.length l)))) g) as (L & _).
      rewrite L. now rewrite Nat2Z.id.
  - cbn [fst]. unfold arraySlice0.
    destruct (colors config) as [|c l] eqn:E; [reflexivity|].
    cbn [List.length Nat.eqb negb].
    destruct (Z.of_nat (S (List.length l)) <? 0) eqn:N;
      [apply Z.ltb_lt in N; lia|].
    rewrite Z.min_id, Nat2Z.id. apply (firstn_all (c :: l)).
Qed.

Lemma legacy_count_fallback_witness :
  List.length (fst (Legacy.colorsToUse (randomConfig 0) (constantRng 0)))
  = 2%nat
  /\ fst (Legacy.colorsToUse (fixedConfig 0 ["#213220"; "#344e41"] "90deg")
            (constantRng 0))
     = ["#213220"; "#344e41"].
Proof.
  split.
  - exact (legacy_count_fallback (randomConfig 0) (constantRng 0) eq_refl).
  - exact (legacy_count_fallback (fixedConfig 0 ["#213220"; "#344e41"] "90deg")
             (constantRng 0) eq_refl).
Defined.

(** ** The version comparison of the earlier scripts *)

Lemma SFcompare_antisym (x y : spec_float) :
  SFcompare y x = option_map CompOpp (SFcompare x y).
Proof.
  destruct x as [sx|sx| |sx mx ex]; destruct y as [sy|sy| |sy my ey];
    try reflexivity;
    try (destruct sx; reflexivity); try (destruct sy; reflexivity);
    try (destruct sx, sy; reflexivity).
  cbn [SFcompare option_map]. f_equal.
  assert (P : Pos.compare_cont Eq my mx
              = CompOpp (Pos.compare_cont Eq mx my))
    by (now rewrite Pos.compare_cont_antisym).
  rewrite (Z.compare_antisym ex ey), P.
  destruct sx, sy; try reflexivity;
    destruct (ex ?= ey); cbn [CompOpp]; try reflexivity;
    now rewrite CompOpp_involutive.
Qed.

Lemma ltb_asym (x y : float) :
  PrimFloat.ltb x y = true ->
  PrimFloat.ltb y x = false /\ PrimFloat.eqb x y = false
  /\ PrimFloat.eqb y x = false.
Proof.
  rewrite !FloatAxioms.ltb_spec, !FloatAxioms.eqb_spec. unfold SFltb, SFeqb.
  rewrite (SFcompare_antisym (Prim2SF x) (Prim2SF y)).
  destruct (SFcompare (Prim2SF x) (Prim2SF y)) as [[]|]; cbn;
    intro H; try discriminate H; auto.
Qed.

Lemma greater_asym (x y : option float) :
  LegacyPopup.greater x y = true ->
  LegacyPopup.greater y x = false /\ LegacyPopup.identical x y = false
  /\ LegacyPopup.identical y x = false.
Proof.
  unfold LegacyPopup.greater. intro H.
  destruct (ltb_asym _ _ H) as (A & B & C).
  split; [exact A|].
  destruct x as [a|], y as [b|]; cbn in *; auto.
Qed.

(** X24. The version comparison of the earlier scripts is irreflexive and
    asymmetric, whatever the strings are and however the language converts
    their parts to Numbers: no version is newer than itself, and of two
    versions at most one is newer than the other. *)
Theorem legacy_isNewerVersion_asymmetric (Number : string -> float)
  (a b : string) :
  LegacyPopup.isNewerVersion Number a a = false
  /\ (LegacyPopup.isNewerVersion Number a b = true ->
      LegacyPopup.isNewerVersion Number b a = false).
Proof.
  assert (A : forall u v,
             LegacyPopup.isNewerVersion Number u v = true ->
             LegacyPopup.isNewerVersion Number v u = false).
  { intros u v. unfold LegacyPopup.isNewerVersion.
    set (u0 := LegacyPopup.element (map Number (LegacyPopup.splitDot u)) 0).
    set (u1 := LegacyPopup.element (map Number (LegacyPopup.splitDot u)) 1).
    set (v0 := LegacyPopup.element (map Number (LegacyPopup.splitDot v)) 0).
    set (v1 := LegacyPopup.element (map Number (LegacyPopup.splitDot v)) 1).
    intro H. apply orb_true_iff in H as [H|H].
    - destruct (greater_asym _ _ H) as (G & _ & I). now rewrite G, I.
    - apply andb_true_iff in H as [I H].
      destruct (greater_asym _ _ H) as (G & _ & _). rewrite G, andb_false_r.
      destruct (LegacyPopup.greater u0 v0) eqn:E; [|reflexivity].
      destruct (greater_asym _ _ E) as (_ & _ & J). congruence. }
  split; [|apply A].
  destruct (LegacyPopup.isNewerVersion Number a a) eqn:E; [|reflexivity].
  now rewrite (A a a E) in E.
Qed.

Lemma legacy_isNewerVersion_asymmetric_witness :
  LegacyPopup.isNewerVersion
    (fun s => PrimFloat.of_uint63 (Uint63.of_Z (Z.of_nat (String.length s))))
    "22.1" "1.333" = false.
Proof.
  apply (proj2 (legacy_isNewerVersion_asymmetric
                  (fun s => PrimFloat.of_uint63
                              (Uint63.of_Z (Z.of_nat (String.length s))))
                  "1.333" "22.1")).
  vm_compute. reflexivity.
Defined.

Lemma splitDot_part (part rest : string) :
  noDot part = true ->
  LegacyPopup.splitDot (part ++ String "." rest)
  = part :: LegacyPopup.splitDot rest.
Proof.
  intro H. induction part as [|c t IH].
  - reflexivity.
  - unfold noDot in H. cbn [allChars] in H.
    apply andb_true_iff in H as [Hc Ht]. apply negb_true_iff in Hc.
    cbn [append LegacyPopup.splitDot]. rewrite Hc, (IH Ht). reflexivity.
Qed.

Lemma splitDot_two_parts (Number : string -> float)
  (major minor rest : string) :
  noDot major = true -> noDot minor = true ->
  LegacyPopup.element
    (map Number
       (LegacyPopup.splitDot (major ++ String "." (minor ++ String "." rest))))
    0 = Some (Number major)
  /\ LegacyPopup.element
       (map Number
          (LegacyPopup.splitDot
             (major ++ String "." (minor ++ String "." rest))))
       1 = Some (Number minor).
Proof.
  intros H1 H2. rewrite (splitDot_part major _ H1), (splitDot_part minor _ H2).
  split; reflexivity.
Qed.

(** X25. The version comparison of the earlier scripts reads the first two
    parts of a version only: what follows the second dot never changes the
    result, on either side, so a release that differs in its third part only
    is never reported as newer. *)
Theorem legacy_isNewerVersion_two_parts (Number : string -> float)
  (other major minor rest rest' : string) :
  noDot major = true -> noDot minor = true ->
  let v := major ++ String "." (minor ++ String "." rest) in
  let v' := major ++ String "." (minor ++ String "." rest') in
  LegacyPopup.isNewerVersion Number other v
  = LegacyPopup.isNewerVersion Number other v'
  /\ LegacyPopup.isNewerVersion Number v other
     = LegacyPopup.isNewerVersion Number v' other
  /\ LegacyPopup.isNewerVersion Number v v' = false.
Proof.
  intros H1 H2 v v'. subst v v'.
  destruct (splitDot_two_parts Number major minor rest H1 H2) as [A0 A1].
  destruct (splitDot_two_parts Number major minor rest' H1 H2) as [B0 B1].
  unfold LegacyPopup.isNewerVersion. rewrite A0, A1, B0, B1.
  split; [reflexivity|]. split; [reflexivity|].
  unfold LegacyPopup.greater at 1. cbn [LegacyPopup.asNumber].
  destruct (PrimFloat.ltb (Number major) (Number major)) eqn:E.
  - destruct (ltb_asym _ _ E) as [F _]. congruence.
  - cbn [orb]. unfold LegacyPopup.greater. cbn [LegacyPopup.asNumber].
    destruct (PrimFloat.ltb (Number minor) (Number minor)) eqn:G.
    + destruct (ltb_asym _ _ G) as [F _]. congruence.
    + apply andb_false_r.
Qed.

Lemma legacy_isNewerVersion_two_parts_witness :
  LegacyPopup.isNewerVersion
    (fun s => PrimFloat.of_uint63 (Uint63.of_Z (Z.of_nat (String.length s))))
    "1.2.3" "1.2.9" = false.
Proof.
  exact (proj2 (proj2 (legacy_isNewerVersion_two_parts
                         (fun s => PrimFloat.of_uint63
                                     (Uint63.of_Z (Z.of_nat (String.length s))))
                         "" "1" "2" "3" "9" eq_refl eq_refl))).
Defined.

(** ** What the engine writes to the class list *)

Lemma add_appends (l : list string) (t : string) :
  exists extra,
    add l t = (l ++ extra)%list
    /\ (extra = [] \/ (extra = [t] /\ contains l t = false))
    /\ (NoDup l -> NoDup (add l t)).
Proof.
  unfold add. destruct (contains l t) eqn:E.
  - exists []. rewrite app_nil_r. auto.
  - exists [t]. split; [reflexivity|]. split; [auto|].
    intro N. apply NoDup_app; [exact N| |].
    + constructor; [intros []|constructor].
    + intros x Hx [<-|[]].
      assert (C : contains l t = true).
      { unfold contains. apply existsb_exists. exists t.
        split; [exact Hx|apply String.eqb_refl]. }
      congruence.
Qed.

(** X26. The applier and the observer never remove or reorder a class of
    the root element and never change whether the document has a head: each
    leaves the class list as it was or appends the activation class to it,
    and appends it only when it was missing, so a class list without
    duplicates stays without duplicates. *)
Theorem engine_appends_class_only (config : ThemeConfig) (doc : Document)
  (g : Rng) :
  forall doc',
    doc' = fst (applyTheme config doc g) \/ doc' = persistenceObserver doc ->
    head doc' = head doc
    /\ (exists extra,
          classList doc' = (classList doc ++ extra)%list
          /\ (extra = []
              \/ (extra = [THEME_CLASS_NAME] /\ themed doc = false)))
    /\ (NoDup (classList doc) -> NoDup (classList doc')).
Proof.
  intros doc' H.
  destruct (add_appends (classList doc) THEME_CLASS_NAME)
    as (extra & E & X & N).
  assert (Same : head doc = head doc
                 /\ (exists extra,
                       classList doc = (classList doc ++ extra)%list
                       /\ (extra = []
                           \/ (extra = [THEME_CLASS_NAME]
                               /\ themed doc = false)))
                 /\ (NoDup (classList doc) -> NoDup (classList doc))).
  { split; [reflexivity|]. split; [|auto].
    exists []. rewrite app_nil_r. auto. }
  destruct H as [->| ->].
  - unfold applyTheme. destruct (negb (head doc)).
    + exact Same.
    + destruct (generateThemeCSS doc config g) as [css g1].
      cbn [fst head classList]. split; [reflexivity|].
      split; [exists extra; auto|exact N].
  - unfold persistenceObserver. destruct (negb _ && _).
    + cbn [head classList]. split; [reflexivity|].
      split; [exists extra; auto|exact N].
    + exact Same.
Qed.

Lemma engine_appends_class_only_witness :
  classList (fst (applyTheme DEFAULT_THEME_CONFIG hostPage (constantRng 0)))
  = ["app"; "theme-dark"; "custom-theme-background"]
  /\ NoDup (classList
              (fst (applyTheme DEFAULT_THEME_CONFIG hostPage (constantRng 0)))).
Proof.
  destruct (engine_appends_class_only DEFAULT_THEME_CONFIG hostPage
              (constantRng 0) _ (or_introl eq_refl)) as (_ & _ & N).
  split; [reflexivity|]. apply N. cbn.
  repeat constructor; cbn; intuition discriminate.
Defined.
